(** * T-Rex runner: a shallow embedding of the simulation core

    The development follows the JavaScript sources class by class:
    the helpers of the utility file, [Trex], [Obstacle], the collision
    check, [DistanceMeter], [Cloud], [Horizon] and the [Runner]
    orchestrator.

    Numbers.  JavaScript numbers are idealised as exact rationals ([Q]);
    quantities that the code only ever assigns integers to (pixel
    positions, sizes, gaps, counters) are integers ([Z]).  Canvas
    drawing, DOM manipulation and audio decoding are collaborators of
    the simulation and are left out, except where a property needs to
    observe them (sound requests, debug strokes of the collision check). *)

From Stdlib Require Import ZArith QArith Qround Lia Lqa List Bool String Ascii.
From Stdlib Require Import DecimalString.
From stdpp Require Import base list option.
Import ListNotations.

Local Open Scope Z_scope.

(** ** JavaScript arithmetic *)

Module JS.

(** [a < b] and [a <= b] on numbers, as booleans. *)
Definition leb (a b : Q) : bool := Qle_bool a b.
Definition ltb (a b : Q) : bool := negb (Qle_bool b a).
Definition gtb (a b : Q) : bool := ltb b a.
Definition geb (a b : Q) : bool := leb b a.

(** Truthiness of a number: [0] is falsy. *)
Definition truthy (a : Q) : bool := negb (Qeq_bool a 0).

(** [Math.floor], [Math.ceil] and [Math.round] (halves round up). *)
Definition floor (a : Q) : Z := Qfloor a.
Definition ceil (a : Q) : Z := Qceiling a.
Definition round (a : Q) : Z := Qfloor (a + (1 # 2))%Q.

End JS.

(** Integers used where a number is expected. *)
Abbreviation num := inject_Z.

(** ** The environment: clock, random source and sound requests

    [performance.now()] and [Math.random()] are ambient in the source.
    Here they are two oracles read through cursors, so that every call
    consumes one reading; [playSound] requests are logged. *)

Inductive Sound := BUTTON_PRESS | HIT | SCORE.

Record World := mkWorld {
  clock : nat -> Q;
  ticks : nat;
  random : nat -> Q;
  draws : nat;
  requests : nat;
  sounds : list Sound
}.

Definition M (A : Type) : Type := World -> A * World.

Definition ret {A} (a : A) : M A := fun w => (a, w).

Definition bind {A B} (c : M A) (k : A -> M B) : M B :=
  fun w => let (a, w') := c w in k a w'.

Notation "'let*' x := c 'in' k" := (bind c (fun x => k))
  (at level 10, x name, c at level 200, k at level 200,
   format "'[v' 'let*'  x  :=  c  'in' '/' k ']'").
Notation "'let*' ' p := c 'in' k" := (bind c (fun p => k))
  (at level 10, p strict pattern, c at level 200, k at level 200,
   format "'[v' 'let*'  ' p  :=  c  'in' '/' k ']'").

(** [getTimeStamp()] *)
Definition getTimeStamp : M Q := fun w =>
  (clock w (ticks w),
   {| clock := clock w; ticks := S (ticks w); random := random w;
      draws := draws w; requests := requests w; sounds := sounds w |}).

(** [Math.random()] *)
Definition mathRandom : M Q := fun w =>
  (random w (draws w),
   {| clock := clock w; ticks := ticks w; random := random w;
      draws := S (draws w); requests := requests w; sounds := sounds w |}).

(** [requestAnimationFrame(callback)]: the handle is the (non-zero) number
    of the request. *)
Definition requestAnimationFrame : M Z := fun w =>
  (Z.of_nat (S (requests w)),
   {| clock := clock w; ticks := ticks w; random := random w;
      draws := draws w; requests := S (requests w); sounds := sounds w |}).

(** [Runner.playSound]: the request is recorded. *)
Definition playSound (s : Sound) : M unit := fun w =>
  (tt,
   {| clock := clock w; ticks := ticks w; random := random w;
      draws := draws w; requests := requests w; sounds := s :: sounds w |}).

(** [getRandomNum(min, max)] *)
Definition getRandomNum (min max : Z) : M Z :=
  let* r := mathRandom in
  ret (JS.floor (r * num (max - min + 1)) + min).

(** The contract of [Math.random]: every reading lies in [0, 1). *)
Definition random_ok (w : World) : Prop :=
  forall i, (0 <= random w i /\ random w i < 1)%Q.

Definition FPS : Z := 60.
Definition DEFAULT_WIDTH : Z := 600.

(** ** Collision boxes *)

Module CollisionBox.

(** Modelled from the spec: the [CollisionBox] class, a value with the
    four fields [x], [y], [width] and [height] that its constructor
    receives in this order. *)
Record t := mk { x : Z; y : Z; width : Z; height : Z }.

Definition set_x (v : Z) (b : t) : t := mk v (y b) (width b) (height b).
Definition set_width (v : Z) (b : t) : t := mk (x b) (y b) v (height b).

End CollisionBox.

(** [boxCompare(tRexBox, obstacleBox)] *)
Definition boxCompare (tRexBox obstacleBox : CollisionBox.t) : bool :=
  let crashed := false in
  if (CollisionBox.x tRexBox <?
        CollisionBox.x obstacleBox + CollisionBox.width obstacleBox) &&
     (CollisionBox.x tRexBox + CollisionBox.width tRexBox >?
        CollisionBox.x obstacleBox) &&
     (CollisionBox.y tRexBox <?
        CollisionBox.y obstacleBox + CollisionBox.height obstacleBox) &&
     (CollisionBox.height tRexBox + CollisionBox.y tRexBox >?
        CollisionBox.y obstacleBox)
  then true else crashed.

(** [createAdjustedCollisionBox(box, adjustment)] *)
Definition createAdjustedCollisionBox (box adjustment : CollisionBox.t)
  : CollisionBox.t :=
  CollisionBox.mk
    (CollisionBox.x box + CollisionBox.x adjustment)
    (CollisionBox.y box + CollisionBox.y adjustment)
    (CollisionBox.width box)
    (CollisionBox.height box).

(** ** Static configuration of the runner *)

Module RunnerStatic.

Record Config := mkConfig {
  ACCELERATION : Q;
  BG_CLOUD_SPEED : Q;
  BOTTOM_PAD : Z;
  CLEAR_TIME : Q;
  CLOUD_FREQUENCY : Q;
  GAMEOVER_CLEAR_TIME : Q;
  GAP_COEFFICIENT : Q;
  GRAVITY : Q;
  INITIAL_JUMP_VELOCITY : Q;
  MAX_CLOUDS : Z;
  MAX_OBSTACLE_LENGTH : Z;
  MAX_SPEED : Q;
  MIN_JUMP_HEIGHT : Z;
  MOBILE_SPEED_COEFFICIENT : Q;
  SPEED : Q;
  SPEED_DROP_COEFFICIENT : Q
}.

(** [Runner.config] *)
Definition config : Config :=
  {| ACCELERATION := 0.001; BG_CLOUD_SPEED := 0.2; BOTTOM_PAD := 10;
     CLEAR_TIME := 3000; CLOUD_FREQUENCY := 0.5; GAMEOVER_CLEAR_TIME := 750;
     GAP_COEFFICIENT := 0.6; GRAVITY := 0.6; INITIAL_JUMP_VELOCITY := 12;
     MAX_CLOUDS := 6; MAX_OBSTACLE_LENGTH := 3; MAX_SPEED := 12;
     MIN_JUMP_HEIGHT := 35; MOBILE_SPEED_COEFFICIENT := 1.2; SPEED := 6;
     SPEED_DROP_COEFFICIENT := 3 |}.

Record Dimensions := mkDimensions { WIDTH : Z; HEIGHT : Z }.

(** [Runner.defaultDimensions] *)
Definition defaultDimensions : Dimensions :=
  {| WIDTH := DEFAULT_WIDTH; HEIGHT := 150 |}.

End RunnerStatic.

(** ** The player character *)

Module Trex.

Record Config := mkConfig {
  DROP_VELOCITY : Q;
  GRAVITY : Q;
  HEIGHT : Z;
  INIITAL_JUMP_VELOCITY : Q;
  INTRO_DURATION : Q;
  MAX_JUMP_HEIGHT : Z;
  MIN_JUMP_HEIGHT : Z;
  SPEED_DROP_COEFFICIENT : Q;
  SPRITE_WIDTH : Z;
  START_X_POS : Z;
  WIDTH : Z
}.

(** [Trex.config] *)
Definition defaultConfig : Config :=
  {| DROP_VELOCITY := -5; GRAVITY := 0.6; HEIGHT := 47;
     INIITAL_JUMP_VELOCITY := -10; INTRO_DURATION := 1500;
     MAX_JUMP_HEIGHT := 30; MIN_JUMP_HEIGHT := 30;
     SPEED_DROP_COEFFICIENT := 3; SPRITE_WIDTH := 262; START_X_POS := 50;
     WIDTH := 44 |}.

(** [Trex.collisionBoxes] *)
Definition collisionBoxes : list CollisionBox.t :=
  [ CollisionBox.mk 1 (-1) 30 26; CollisionBox.mk 32 0 8 16;
    CollisionBox.mk 10 35 14 8; CollisionBox.mk 1 24 29 5;
    CollisionBox.mk 5 30 21 4; CollisionBox.mk 9 34 15 4 ].

(** [Trex.status] *)
Inductive Status := CRASHED | JUMPING | RUNNING | WAITING.

Definition is_waiting (s : Status) : bool :=
  match s with WAITING => true | _ => false end.

(** [Trex.BLINK_TIMING] *)
Definition BLINK_TIMING : Q := 7000.

(** [Trex.animFrames] *)
Record Anim := mkAnim { frames : list Z; anim_msPerFrame : Q }.

Definition animFrames (s : Status) : Anim :=
  match s with
  | WAITING => mkAnim [44; 0] (1000 / 3)
  | RUNNING => mkAnim [88; 132] (1000 / 12)
  | CRASHED => mkAnim [220] (1000 / 60)
  | JUMPING => mkAnim [0] (1000 / 60)
  end.

Record t := mk {
  xPos : Z;
  yPos : Z;
  groundYPos : Z;
  minJumpHeight : Z;
  currentFrame : Z;
  currentAnimFrames : list Z;
  blinkDelay : Z;
  animStartTime : Q;
  timer : Q;
  msPerFrame : Q;
  config : Config;
  status : Status;
  jumping : bool;
  jumpVelocity : Q;
  reachedMinHeight : bool;
  speedDrop : bool;
  jumpCount : Z;
  jumpspotX : Z;
  playingIntro : bool;
  midair : bool
}.

(** Field assignments [this.f = v]. *)
Definition set_xPos (v : Z) (o : t) : t :=
  {| xPos := v; yPos := yPos o; groundYPos := groundYPos o;
     minJumpHeight := minJumpHeight o; currentFrame := currentFrame o;
     currentAnimFrames := currentAnimFrames o; blinkDelay := blinkDelay o;
     animStartTime := animStartTime o; timer := timer o; msPerFrame := msPerFrame o;
     config := config o; status := status o; jumping := jumping o;
     jumpVelocity := jumpVelocity o; reachedMinHeight := reachedMinHeight o;
     speedDrop := speedDrop o; jumpCount := jumpCount o; jumpspotX := jumpspotX o;
     playingIntro := playingIntro o; midair := midair o |}.

Definition set_yPos (v : Z) (o : t) : t :=
  {| xPos := xPos o; yPos := v; groundYPos := groundYPos o;
     minJumpHeight := minJumpHeight o; currentFrame := currentFrame o;
     currentAnimFrames := currentAnimFrames o; blinkDelay := blinkDelay o;
     animStartTime := animStartTime o; timer := timer o; msPerFrame := msPerFrame o;
     config := config o; status := status o; jumping := jumping o;
     jumpVelocity := jumpVelocity o; reachedMinHeight := reachedMinHeight o;
     speedDrop := speedDrop o; jumpCount := jumpCount o; jumpspotX := jumpspotX o;
     playingIntro := playingIntro o; midair := midair o |}.

Definition set_currentFrame (v : Z) (o : t) : t :=
  {| xPos := xPos o; yPos := yPos o; groundYPos := groundYPos o;
     minJumpHeight := minJumpHeight o; currentFrame := v;
     currentAnimFrames := currentAnimFrames o; blinkDelay := blinkDelay o;
     animStartTime := animStartTime o; timer := timer o; msPerFrame := msPerFrame o;
     config := config o; status := status o; jumping := jumping o;
     jumpVelocity := jumpVelocity o; reachedMinHeight := reachedMinHeight o;
     speedDrop := speedDrop o; jumpCount := jumpCount o; jumpspotX := jumpspotX o;
     playingIntro := playingIntro o; midair := midair o |}.

Definition set_currentAnimFrames (v : list Z) (o : t) : t :=
  {| xPos := xPos o; yPos := yPos o; groundYPos := groundYPos o;
     minJumpHeight := minJumpHeight o; currentFrame := currentFrame o;
     currentAnimFrames := v; blinkDelay := blinkDelay o;
     animStartTime := animStartTime o; timer := timer o; msPerFrame := msPerFrame o;
     config := config o; status := status o; jumping := jumping o;
     jumpVelocity := jumpVelocity o; reachedMinHeight := reachedMinHeight o;
     speedDrop := speedDrop o; jumpCount := jumpCount o; jumpspotX := jumpspotX o;
     playingIntro := playingIntro o; midair := midair o |}.

Definition set_blinkDelay (v : Z) (o : t) : t :=
  {| xPos := xPos o; yPos := yPos o; groundYPos := groundYPos o;
     minJumpHeight := minJumpHeight o; currentFrame := currentFrame o;
     currentAnimFrames := currentAnimFrames o; blinkDelay := v;
     animStartTime := animStartTime o; timer := timer o; msPerFrame := msPerFrame o;
     config := config o; status := status o; jumping := jumping o;
     jumpVelocity := jumpVelocity o; reachedMinHeight := reachedMinHeight o;
     speedDrop := speedDrop o; jumpCount := jumpCount o; jumpspotX := jumpspotX o;
     playingIntro := playingIntro o; midair := midair o |}.

Definition set_animStartTime (v : Q) (o : t) : t :=
  {| xPos := xPos o; yPos := yPos o; groundYPos := groundYPos o;
     minJumpHeight := minJumpHeight o; currentFrame := currentFrame o;
     currentAnimFrames := currentAnimFrames o; blinkDelay := blinkDelay o;
     animStartTime := v; timer := timer o; msPerFrame := msPerFrame o;
     config := config o; status := status o; jumping := jumping o;
     jumpVelocity := jumpVelocity o; reachedMinHeight := reachedMinHeight o;
     speedDrop := speedDrop o; jumpCount := jumpCount o; jumpspotX := jumpspotX o;
     playingIntro := playingIntro o; midair := midair o |}.

Definition set_timer (v : Q) (o : t) : t :=
  {| xPos := xPos o; yPos := yPos o; groundYPos := groundYPos o;
     minJumpHeight := minJumpHeight o; currentFrame := currentFrame o;
     currentAnimFrames := currentAnimFrames o; blinkDelay := blinkDelay o;
     animStartTime := animStartTime o; timer := v; msPerFrame := msPerFrame o;
     config := config o; status := status o; jumping := jumping o;
     jumpVelocity := jumpVelocity o; reachedMinHeight := reachedMinHeight o;
     speedDrop := speedDrop o; jumpCount := jumpCount o; jumpspotX := jumpspotX o;
     playingIntro := playingIntro o; midair := midair o |}.

Definition set_msPerFrame (v : Q) (o : t) : t :=
  {| xPos := xPos o; yPos := yPos o; groundYPos := groundYPos o;
     minJumpHeight := minJumpHeight o; currentFrame := currentFrame o;
     currentAnimFrames := currentAnimFrames o; blinkDelay := blinkDelay o;
     animStartTime := animStartTime o; timer := timer o; msPerFrame := v;
     config := config o; status := status o; jumping := jumping o;
     jumpVelocity := jumpVelocity o; reachedMinHeight := reachedMinHeight o;
     speedDrop := speedDrop o; jumpCount := jumpCount o; jumpspotX := jumpspotX o;
     playingIntro := playingIntro o; midair := midair o |}.

Definition set_status (v : Status) (o : t) : t :=
  {| xPos := xPos o; yPos := yPos o; groundYPos := groundYPos o;
     minJumpHeight := minJumpHeight o; currentFrame := currentFrame o;
     currentAnimFrames := currentAnimFrames o; blinkDelay := blinkDelay o;
     animStartTime := animStartTime o; timer := timer o; msPerFrame := msPerFrame o;
     config := config o; status := v; jumping := jumping o;
     jumpVelocity := jumpVelocity o; reachedMinHeight := reachedMinHeight o;
     speedDrop := speedDrop o; jumpCount := jumpCount o; jumpspotX := jumpspotX o;
     playingIntro := playingIntro o; midair := midair o |}.

Definition set_jumping (v : bool) (o : t) : t :=
  {| xPos := xPos o; yPos := yPos o; groundYPos := groundYPos o;
     minJumpHeight := minJumpHeight o; currentFrame := currentFrame o;
     currentAnimFrames := currentAnimFrames o; blinkDelay := blinkDelay o;
     animStartTime := animStartTime o; timer := timer o; msPerFrame := msPerFrame o;
     config := config o; status := status o; jumping := v;
     jumpVelocity := jumpVelocity o; reachedMinHeight := reachedMinHeight o;
     speedDrop := speedDrop o; jumpCount := jumpCount o; jumpspotX := jumpspotX o;
     playingIntro := playingIntro o; midair := midair o |}.

Definition set_jumpVelocity (v : Q) (o : t) : t :=
  {| xPos := xPos o; yPos := yPos o; groundYPos := groundYPos o;
     minJumpHeight := minJumpHeight o; currentFrame := currentFrame o;
     currentAnimFrames := currentAnimFrames o; blinkDelay := blinkDelay o;
     animStartTime := animStartTime o; timer := timer o; msPerFrame := msPerFrame o;
     config := config o; status := status o; jumping := jumping o; jumpVelocity := v;
     reachedMinHeight := reachedMinHeight o; speedDrop := speedDrop o;
     jumpCount := jumpCount o; jumpspotX := jumpspotX o;
     playingIntro := playingIntro o; midair := midair o |}.

Definition set_reachedMinHeight (v : bool) (o : t) : t :=
  {| xPos := xPos o; yPos := yPos o; groundYPos := groundYPos o;
     minJumpHeight := minJumpHeight o; currentFrame := currentFrame o;
     currentAnimFrames := currentAnimFrames o; blinkDelay := blinkDelay o;
     animStartTime := animStartTime o; timer := timer o; msPerFrame := msPerFrame o;
     config := config o; status := status o; jumping := jumping o;
     jumpVelocity := jumpVelocity o; reachedMinHeight := v; speedDrop := speedDrop o;
     jumpCount := jumpCount o; jumpspotX := jumpspotX o;
     playingIntro := playingIntro o; midair := midair o |}.

Definition set_speedDrop (v : bool) (o : t) : t :=
  {| xPos := xPos o; yPos := yPos o; groundYPos := groundYPos o;
     minJumpHeight := minJumpHeight o; currentFrame := currentFrame o;
     currentAnimFrames := currentAnimFrames o; blinkDelay := blinkDelay o;
     animStartTime := animStartTime o; timer := timer o; msPerFrame := msPerFrame o;
     config := config o; status := status o; jumping := jumping o;
     jumpVelocity := jumpVelocity o; reachedMinHeight := reachedMinHeight o;
     speedDrop := v; jumpCount := jumpCount o; jumpspotX := jumpspotX o;
     playingIntro := playingIntro o; midair := midair o |}.

Definition set_jumpCount (v : Z) (o : t) : t :=
  {| xPos := xPos o; yPos := yPos o; groundYPos := groundYPos o;
     minJumpHeight := minJumpHeight o; currentFrame := currentFrame o;
     currentAnimFrames := currentAnimFrames o; blinkDelay := blinkDelay o;
     animStartTime := animStartTime o; timer := timer o; msPerFrame := msPerFrame o;
     config := config o; status := status o; jumping := jumping o;
     jumpVelocity := jumpVelocity o; reachedMinHeight := reachedMinHeight o;
     speedDrop := speedDrop o; jumpCount := v; jumpspotX := jumpspotX o;
     playingIntro := playingIntro o; midair := midair o |}.

Definition set_playingIntro (v : bool) (o : t) : t :=
  {| xPos := xPos o; yPos := yPos o; groundYPos := groundYPos o;
     minJumpHeight := minJumpHeight o; currentFrame := currentFrame o;
     currentAnimFrames := currentAnimFrames o; blinkDelay := blinkDelay o;
     animStartTime := animStartTime o; timer := timer o; msPerFrame := msPerFrame o;
     config := config o; status := status o; jumping := jumping o;
     jumpVelocity := jumpVelocity o; reachedMinHeight := reachedMinHeight o;
     speedDrop := speedDrop o; jumpCount := jumpCount o; jumpspotX := jumpspotX o;
     playingIntro := v; midair := midair o |}.

Definition set_midair (v : bool) (o : t) : t :=
  {| xPos := xPos o; yPos := yPos o; groundYPos := groundYPos o;
     minJumpHeight := minJumpHeight o; currentFrame := currentFrame o;
     currentAnimFrames := currentAnimFrames o; blinkDelay := blinkDelay o;
     animStartTime := animStartTime o; timer := timer o; msPerFrame := msPerFrame o;
     config := config o; status := status o; jumping := jumping o;
     jumpVelocity := jumpVelocity o; reachedMinHeight := reachedMinHeight o;
     speedDrop := speedDrop o; jumpCount := jumpCount o; jumpspotX := jumpspotX o;
     playingIntro := playingIntro o; midair := v |}.

Definition set_config (v : Config) (o : t) : t :=
  {| xPos := xPos o; yPos := yPos o; groundYPos := groundYPos o;
     minJumpHeight := minJumpHeight o; currentFrame := currentFrame o;
     currentAnimFrames := currentAnimFrames o; blinkDelay := blinkDelay o;
     animStartTime := animStartTime o; timer := timer o;
     msPerFrame := msPerFrame o; config := v; status := status o;
     jumping := jumping o; jumpVelocity := jumpVelocity o;
     reachedMinHeight := reachedMinHeight o; speedDrop := speedDrop o;
     jumpCount := jumpCount o; jumpspotX := jumpspotX o;
     playingIntro := playingIntro o; midair := midair o |}.

(** [setJumpVelocity(setting)] *)
Definition setJumpVelocity (setting : Q) (o : t) : t :=
  let c := config o in
  let c :=
    {| DROP_VELOCITY := DROP_VELOCITY c; GRAVITY := GRAVITY c;
       HEIGHT := HEIGHT c; INIITAL_JUMP_VELOCITY := (- setting)%Q;
       INTRO_DURATION := INTRO_DURATION c;
       MAX_JUMP_HEIGHT := MAX_JUMP_HEIGHT c;
       MIN_JUMP_HEIGHT := MIN_JUMP_HEIGHT c;
       SPEED_DROP_COEFFICIENT := SPEED_DROP_COEFFICIENT c;
       SPRITE_WIDTH := SPRITE_WIDTH c; START_X_POS := START_X_POS c;
       WIDTH := WIDTH c |} in
  set_config
    {| DROP_VELOCITY := (- setting / 2)%Q; GRAVITY := GRAVITY c;
       HEIGHT := HEIGHT c; INIITAL_JUMP_VELOCITY := INIITAL_JUMP_VELOCITY c;
       INTRO_DURATION := INTRO_DURATION c;
       MAX_JUMP_HEIGHT := MAX_JUMP_HEIGHT c;
       MIN_JUMP_HEIGHT := MIN_JUMP_HEIGHT c;
       SPEED_DROP_COEFFICIENT := SPEED_DROP_COEFFICIENT c;
       SPRITE_WIDTH := SPRITE_WIDTH c; START_X_POS := START_X_POS c;
       WIDTH := WIDTH c |} o.

(** [setBlinkDelay()] *)
Definition setBlinkDelay (o : t) : M t :=
  let* r := mathRandom in
  ret (set_blinkDelay (JS.ceil (r * BLINK_TIMING)) o).

(** [blink(time)]; the sprite drawing is left out. *)
Definition blink (time : Q) (o : t) : M t :=
  let deltaTime := (time - animStartTime o)%Q in
  if JS.leb (num (blinkDelay o)) deltaTime then
    if currentFrame o =? 1 then
      let* o := setBlinkDelay o in
      ret (set_animStartTime time o)
    else ret o
  else ret o.

(** [update(deltaTime, opt_status)] *)
Definition update (deltaTime : Q) (opt_status : option Status) (o : t) : M t :=
  let o := set_timer (timer o + deltaTime)%Q o in
  let* o :=
    match opt_status with
    | Some s =>
        let o := set_status s o in
        let o := set_currentFrame 0 o in
        let o := set_msPerFrame (anim_msPerFrame (animFrames s)) o in
        let o := set_currentAnimFrames (frames (animFrames s)) o in
        if is_waiting s then
          let* now := getTimeStamp in
          setBlinkDelay (set_animStartTime now o)
        else ret o
    | None => ret o
    end in
  let o :=
    if playingIntro o && (xPos o <? START_X_POS (config o)) then
      set_xPos (xPos o + JS.round
        (num (START_X_POS (config o)) / INTRO_DURATION (config o) * deltaTime)) o
    else o in
  let* o :=
    (if is_waiting (status o) then
       let* now := getTimeStamp in blink now o
     else ret o) in
  ret (if JS.leb (msPerFrame o) (timer o) then
         set_timer 0
           (set_currentFrame
              (if currentFrame o =? Z.of_nat (length (currentAnimFrames o)) - 1
               then 0 else currentFrame o + 1) o)
       else o).

(** The constructor followed by [init()]. The first [setBlinkDelay] result
    is overwritten by the assignment of its (undefined) return value and
    is drawn again by [update(0, WAITING)]. *)
Definition new : M t :=
  let cfg := defaultConfig in
  let ground := RunnerStatic.HEIGHT RunnerStatic.defaultDimensions - HEIGHT cfg
                - RunnerStatic.BOTTOM_PAD RunnerStatic.config in
  let o :=
    {| xPos := 0; yPos := ground; groundYPos := ground;
       minJumpHeight := ground - MIN_JUMP_HEIGHT cfg;
       currentFrame := 0; currentAnimFrames := []; blinkDelay := 0;
       animStartTime := 0; timer := 0; msPerFrame := 1000 / num FPS;
       config := cfg; status := WAITING; jumping := false; jumpVelocity := 0;
       reachedMinHeight := false; speedDrop := false; jumpCount := 0;
       jumpspotX := 0; playingIntro := false; midair := false |} in
  let* o := setBlinkDelay o in
  update 0 (Some WAITING) (set_blinkDelay 0 o).

(** [startJump()] *)
Definition startJump (o : t) : M t :=
  if negb (jumping o) then
    let* o := update 0 (Some JUMPING) o in
    let o := set_jumpVelocity (INIITAL_JUMP_VELOCITY (config o)) o in
    let o := set_jumping true o in
    let o := set_reachedMinHeight false o in
    ret (set_speedDrop false o)
  else ret o.

(** [endJump()] *)
Definition endJump (o : t) : t :=
  if reachedMinHeight o && JS.ltb (jumpVelocity o) (DROP_VELOCITY (config o))
  then set_jumpVelocity (DROP_VELOCITY (config o)) o
  else o.

(** [setSpeedDrop()] *)
Definition setSpeedDrop (o : t) : t :=
  set_jumpVelocity 1 (set_speedDrop true o).

(** [reset()] *)
Definition reset (o : t) : M t :=
  let o := set_yPos (groundYPos o) o in
  let o := set_jumpVelocity 0 o in
  let o := set_jumping false o in
  let* o := update 0 (Some RUNNING) o in
  let o := set_midair false o in
  let o := set_speedDrop false o in
  ret (set_jumpCount 0 o).

(** The four stages of [updateJump] before the landing test. *)
Definition integrate (deltaTime : Q) (o : t) : t :=
  let msPerFrame := anim_msPerFrame (animFrames (status o)) in
  let framesElapsed := (deltaTime / msPerFrame)%Q in
  let o :=
    if speedDrop o then
      set_yPos (yPos o + JS.round (jumpVelocity o *
        SPEED_DROP_COEFFICIENT (config o) * framesElapsed)) o
    else
      set_yPos (yPos o + JS.round (jumpVelocity o * framesElapsed)) o in
  set_jumpVelocity (jumpVelocity o + GRAVITY (config o) * framesElapsed)%Q o.

Definition markMinHeight (o : t) : t :=
  if (yPos o <? minJumpHeight o) || speedDrop o
  then set_reachedMinHeight true o else o.

Definition capHeight (o : t) : t :=
  if (yPos o <? MAX_JUMP_HEIGHT (config o)) || speedDrop o
  then endJump o else o.

(** [updateJump(deltaTime)] *)
Definition updateJump (deltaTime : Q) (o : t) : M t :=
  let o := capHeight (markMinHeight (integrate deltaTime o)) in
  let* o :=
    (if yPos o >? groundYPos o then
       let* o := reset o in
       ret (set_jumpCount (jumpCount o + 1) o)
     else ret o) in
  update deltaTime None o.

End Trex.

(** ** Obstacles *)

Module ObstacleType.

(** An entry of the catalog [Obstacle.types]. *)
Record t := mk {
  type : string;
  width : Z;
  height : Z;
  yPos : Z;
  multipleSpeed : Z;
  minGap : Z;
  collisionBoxes : list CollisionBox.t
}.

End ObstacleType.

Module Obstacle.

(** [Obstacle.MAX_GAP_COEFFICIENT] and [Obstacle.MAX_OBSTACLE_LENGTH] *)
Definition MAX_GAP_COEFFICIENT : Q := 1.5.
Definition MAX_OBSTACLE_LENGTH : Z := 3.

(** [Obstacle.types] *)
Definition CACTUS_SMALL : ObstacleType.t :=
  {| ObstacleType.type := "CACTUS_SMALL";
     ObstacleType.width := 17; ObstacleType.height := 35;
     ObstacleType.yPos := 105; ObstacleType.multipleSpeed := 3;
     ObstacleType.minGap := 120;
     ObstacleType.collisionBoxes :=
       [ CollisionBox.mk 0 7 5 27; CollisionBox.mk 4 0 6 34;
         CollisionBox.mk 10 4 7 14 ] |}.

Definition CACTUS_LARGE : ObstacleType.t :=
  {| ObstacleType.type := "CACTUS_LARGE";
     ObstacleType.width := 25; ObstacleType.height := 50;
     ObstacleType.yPos := 90; ObstacleType.multipleSpeed := 6;
     ObstacleType.minGap := 120;
     ObstacleType.collisionBoxes :=
       [ CollisionBox.mk 0 12 7 38; CollisionBox.mk 8 0 7 49;
         CollisionBox.mk 13 10 10 38 ] |}.

Definition types : list ObstacleType.t := [CACTUS_SMALL; CACTUS_LARGE].

(** The fields of an obstacle. The [dimensions] object handed to the
    constructor is the runner's own (shared) object and is only read
    during [init], so it is passed to [init] instead of being stored.
    [followingObstacleCreated] is written by the horizon; it is absent
    (falsy) on a new obstacle. *)
Record t := mk {
  typeConfig : ObstacleType.t;
  gapCoefficient : Q;
  size : Z;
  remove : bool;
  xPos : Z;
  yPos : Z;
  width : Z;
  collisionBoxes : list CollisionBox.t;
  gap : Z;
  followingObstacleCreated : bool
}.

Definition set_size (v : Z) (o : t) : t :=
  {| typeConfig := typeConfig o; gapCoefficient := gapCoefficient o; size := v;
     remove := remove o; xPos := xPos o; yPos := yPos o; width := width o;
     collisionBoxes := collisionBoxes o; gap := gap o;
     followingObstacleCreated := followingObstacleCreated o |}.

Definition set_remove (v : bool) (o : t) : t :=
  {| typeConfig := typeConfig o; gapCoefficient := gapCoefficient o; size := size o;
     remove := v; xPos := xPos o; yPos := yPos o; width := width o;
     collisionBoxes := collisionBoxes o; gap := gap o;
     followingObstacleCreated := followingObstacleCreated o |}.

Definition set_xPos (v : Z) (o : t) : t :=
  {| typeConfig := typeConfig o; gapCoefficient := gapCoefficient o; size := size o;
     remove := remove o; xPos := v; yPos := yPos o; width := width o;
     collisionBoxes := collisionBoxes o; gap := gap o;
     followingObstacleCreated := followingObstacleCreated o |}.

Definition set_width (v : Z) (o : t) : t :=
  {| typeConfig := typeConfig o; gapCoefficient := gapCoefficient o; size := size o;
     remove := remove o; xPos := xPos o; yPos := yPos o; width := v;
     collisionBoxes := collisionBoxes o; gap := gap o;
     followingObstacleCreated := followingObstacleCreated o |}.

Definition set_collisionBoxes (v : list CollisionBox.t) (o : t) : t :=
  {| typeConfig := typeConfig o; gapCoefficient := gapCoefficient o; size := size o;
     remove := remove o; xPos := xPos o; yPos := yPos o; width := width o;
     collisionBoxes := v; gap := gap o;
     followingObstacleCreated := followingObstacleCreated o |}.

Definition set_gap (v : Z) (o : t) : t :=
  {| typeConfig := typeConfig o; gapCoefficient := gapCoefficient o; size := size o;
     remove := remove o; xPos := xPos o; yPos := yPos o; width := width o;
     collisionBoxes := collisionBoxes o; gap := v;
     followingObstacleCreated := followingObstacleCreated o |}.

Definition set_followingObstacleCreated (v : bool) (o : t) : t :=
  {| typeConfig := typeConfig o; gapCoefficient := gapCoefficient o; size := size o;
     remove := remove o; xPos := xPos o; yPos := yPos o; width := width o;
     collisionBoxes := collisionBoxes o; gap := gap o;
     followingObstacleCreated := v |}.


(** [isVisible()] *)
Definition isVisible (o : t) : bool := xPos o + width o >? 0.

(** [cloneCollisionBoxes()] *)
Definition cloneCollisionBoxes (o : t) : t :=
  set_collisionBoxes
    (map (fun b => CollisionBox.mk (CollisionBox.x b) (CollisionBox.y b)
                     (CollisionBox.width b) (CollisionBox.height b))
         (ObstacleType.collisionBoxes (typeConfig o))) o.

(** [getGap(gapCoefficient, speed)] *)
Definition getGap (gapCoefficient speed : Q) (o : t) : M Z :=
  let minGap := JS.round (num (width o) * speed +
                          num (ObstacleType.minGap (typeConfig o)) * gapCoefficient) in
  let maxGap := JS.round (num minGap * MAX_GAP_COEFFICIENT) in
  getRandomNum minGap maxGap.

(** The collision box adjustment of [init] for grouped obstacles. Reading
    a field of a missing box raises a TypeError in the source: [None]. *)
Definition adjustCollisionBoxes (o : t) : option t :=
  if size o >? 1 then
    b0 ← collisionBoxes o !! 0%nat;
    b1 ← collisionBoxes o !! 1%nat;
    b2 ← collisionBoxes o !! 2%nat;
    let boxes :=
      <[1%nat := CollisionBox.set_width
          (width o - CollisionBox.width b0 - CollisionBox.width b2) b1]>
        (collisionBoxes o) in
    let boxes :=
      <[2%nat := CollisionBox.set_x (width o - CollisionBox.width b2) b2]> boxes in
    Some (set_collisionBoxes boxes o)
  else Some o.

(** [init(speed)]; [None] when the adjustment above throws. *)
Definition init (dimensions : RunnerStatic.Dimensions) (speed : Q) (o : t)
  : M (option t) :=
  let o := cloneCollisionBoxes o in
  let o :=
    if (size o >? 1) &&
       JS.gtb (num (ObstacleType.multipleSpeed (typeConfig o))) speed
    then set_size 1 o else o in
  let o := set_width (ObstacleType.width (typeConfig o) * size o) o in
  let o := set_xPos (RunnerStatic.WIDTH dimensions - width o) o in
  match adjustCollisionBoxes o with
  | Some o =>
      let* g := getGap (gapCoefficient o) speed o in
      ret (Some (set_gap g o))
  | None => ret None
  end.

(** [new Obstacle(canvasCtx, type, obstacleImg, dimensions, gapCoefficient,
    speed)] *)
Definition new (type : ObstacleType.t) (dimensions : RunnerStatic.Dimensions)
    (gapCoefficient speed : Q) : M (option t) :=
  let* size := getRandomNum 1 MAX_OBSTACLE_LENGTH in
  init dimensions speed
    {| typeConfig := type; gapCoefficient := gapCoefficient; size := size;
       remove := false; xPos := 0; yPos := ObstacleType.yPos type; width := 0;
       collisionBoxes := []; gap := 0; followingObstacleCreated := false |}.

(** [update(deltaTime, speed)] *)
Definition update (deltaTime speed : Q) (o : t) : t :=
  if negb (remove o) then
    let o := set_xPos (xPos o - JS.floor ((speed * num FPS / 1000) * deltaTime)) o in
    if negb (isVisible o) then set_remove true o else o
  else o.

End Obstacle.

(** ** Collision detection *)

(** The optional debug canvas: the rectangles stroked so far. *)
Inductive Colour := Red | Green.
Definition Canvas := list (Colour * CollisionBox.t).

(** [drawCollisionBoxes(canvasCtx, tRexBox, obstacleBox)] *)
Definition drawCollisionBoxes (canvasCtx : Canvas)
    (tRexBox obstacleBox : CollisionBox.t) : Canvas :=
  canvasCtx ++ [(Red, tRexBox); (Green, obstacleBox)].

Definition debugDraw (opt_canvasCtx : option Canvas)
    (tRexBox obstacleBox : CollisionBox.t) : option Canvas :=
  match opt_canvasCtx with
  | Some ctx => Some (drawCollisionBoxes ctx tRexBox obstacleBox)
  | None => None
  end.

(** The result of [checkForCollision]: the colliding pair, or [None] for
    the source's [false]. *)
Definition Collision := option (CollisionBox.t * CollisionBox.t).

(** The inner loop of the detailed check, over the obstacle boxes. *)
Fixpoint compareObstacleBoxes (tRexCollisionBox tRexBox obstacleBox : CollisionBox.t)
    (collisionBoxes : list CollisionBox.t) (opt_canvasCtx : option Canvas)
  : Collision * option Canvas :=
  match collisionBoxes with
  | [] => (None, opt_canvasCtx)
  | box :: rest =>
      let adjTrexBox := createAdjustedCollisionBox tRexCollisionBox tRexBox in
      let adjObstacleBox := createAdjustedCollisionBox box obstacleBox in
      let crashed := boxCompare adjTrexBox adjObstacleBox in
      let opt_canvasCtx := debugDraw opt_canvasCtx adjTrexBox adjObstacleBox in
      if crashed then (Some (adjTrexBox, adjObstacleBox), opt_canvasCtx)
      else compareObstacleBoxes tRexCollisionBox tRexBox obstacleBox rest
             opt_canvasCtx
  end.

(** The outer loop of the detailed check, over the boxes of the t-rex. *)
Fixpoint compareTrexBoxes (tRexCollisionBoxes : list CollisionBox.t)
    (tRexBox obstacleBox : CollisionBox.t)
    (collisionBoxes : list CollisionBox.t) (opt_canvasCtx : option Canvas)
  : Collision * option Canvas :=
  match tRexCollisionBoxes with
  | [] => (None, opt_canvasCtx)
  | tb :: rest =>
      match compareObstacleBoxes tb tRexBox obstacleBox collisionBoxes
              opt_canvasCtx with
      | (Some hit, ctx) => (Some hit, ctx)
      | (None, ctx) =>
          compareTrexBoxes rest tRexBox obstacleBox collisionBoxes ctx
      end
  end.

(** The two outer boxes built by [checkForCollision]. *)
Definition tRexOuterBox (tRex : Trex.t) : CollisionBox.t :=
  CollisionBox.mk (Trex.xPos tRex + 1) (Trex.yPos tRex + 1)
    (Trex.WIDTH (Trex.config tRex) - 2) (Trex.HEIGHT (Trex.config tRex) - 2).

Definition obstacleOuterBox (obstacle : Obstacle.t) : CollisionBox.t :=
  CollisionBox.mk (Obstacle.xPos obstacle + 1) (Obstacle.yPos obstacle + 1)
    (ObstacleType.width (Obstacle.typeConfig obstacle) * Obstacle.size obstacle - 2)
    (ObstacleType.height (Obstacle.typeConfig obstacle) - 2).

(** [checkForCollision(obstacle, tRex, opt_canvasCtx)] *)
Definition checkForCollision (obstacle : Obstacle.t) (tRex : Trex.t)
    (opt_canvasCtx : option Canvas) : Collision * option Canvas :=
  let tRexBox := tRexOuterBox tRex in
  let obstacleBox := obstacleOuterBox obstacle in
  let opt_canvasCtx := debugDraw opt_canvasCtx tRexBox obstacleBox in
  if boxCompare tRexBox obstacleBox then
    compareTrexBoxes Trex.collisionBoxes tRexBox obstacleBox
      (Obstacle.collisionBoxes obstacle) opt_canvasCtx
  else (None, opt_canvasCtx).

(** ** The distance meter *)

Module DistanceMeter.

Record Config := mkConfig {
  MAX_DISTANCE_UNITS : Z;
  ACHIEVEMENT_DISTANCE : Z;
  COEFFICIENT : Q;
  FLASH_DURATION : Q;
  FLASH_ITERATIONS : Z
}.

(** [DistanceMeter.config] *)
Definition defaultConfig : Config :=
  {| MAX_DISTANCE_UNITS := 5; ACHIEVEMENT_DISTANCE := 100;
     COEFFICIENT := 0.025; FLASH_DURATION := 1000 / 4;
     FLASH_ITERATIONS := 3 |}.

(** [DistanceMeter.dimensions] *)
Definition WIDTH : Z := 10.
Definition HEIGHT : Z := 13.
Definition DEST_WIDTH : Z := 11.

(** [highScore] starts as the number [0], which draws nothing; it is the
    empty list here. *)
Record t := mk {
  x : Z;
  y : Z;
  currentDistance : Z;
  maxScore : Z;
  highScore : list string;
  digits : list string;
  acheivement : bool;
  defaultString : string;
  flashTimer : Q;
  flashIterations : Z;
  config : Config
}.

Definition set_x (v : Z) (o : t) : t :=
  {| x := v; y := y o; currentDistance := currentDistance o; maxScore := maxScore o;
     highScore := highScore o; digits := digits o; acheivement := acheivement o;
     defaultString := defaultString o; flashTimer := flashTimer o;
     flashIterations := flashIterations o; config := config o |}.

Definition set_maxScore (v : Z) (o : t) : t :=
  {| x := x o; y := y o; currentDistance := currentDistance o; maxScore := v;
     highScore := highScore o; digits := digits o; acheivement := acheivement o;
     defaultString := defaultString o; flashTimer := flashTimer o;
     flashIterations := flashIterations o; config := config o |}.

Definition set_highScore (v : list string) (o : t) : t :=
  {| x := x o; y := y o; currentDistance := currentDistance o;
     maxScore := maxScore o; highScore := v; digits := digits o;
     acheivement := acheivement o; defaultString := defaultString o;
     flashTimer := flashTimer o; flashIterations := flashIterations o;
     config := config o |}.

Definition set_digits (v : list string) (o : t) : t :=
  {| x := x o; y := y o; currentDistance := currentDistance o;
     maxScore := maxScore o; highScore := highScore o; digits := v;
     acheivement := acheivement o; defaultString := defaultString o;
     flashTimer := flashTimer o; flashIterations := flashIterations o;
     config := config o |}.

Definition set_acheivement (v : bool) (o : t) : t :=
  {| x := x o; y := y o; currentDistance := currentDistance o;
     maxScore := maxScore o; highScore := highScore o; digits := digits o;
     acheivement := v; defaultString := defaultString o; flashTimer := flashTimer o;
     flashIterations := flashIterations o; config := config o |}.

Definition set_defaultString (v : string) (o : t) : t :=
  {| x := x o; y := y o; currentDistance := currentDistance o;
     maxScore := maxScore o; highScore := highScore o; digits := digits o;
     acheivement := acheivement o; defaultString := v; flashTimer := flashTimer o;
     flashIterations := flashIterations o; config := config o |}.

Definition set_flashTimer (v : Q) (o : t) : t :=
  {| x := x o; y := y o; currentDistance := currentDistance o;
     maxScore := maxScore o; highScore := highScore o; digits := digits o;
     acheivement := acheivement o; defaultString := defaultString o; flashTimer := v;
     flashIterations := flashIterations o; config := config o |}.

Definition set_flashIterations (v : Z) (o : t) : t :=
  {| x := x o; y := y o; currentDistance := currentDistance o;
     maxScore := maxScore o; highScore := highScore o; digits := digits o;
     acheivement := acheivement o; defaultString := defaultString o;
     flashTimer := flashTimer o; flashIterations := v; config := config o |}.


(** Strings: the decimal form of an integer, [s.substr(start)] and
    [s.split('')]. *)
Definition toString (n : Z) : string := NilZero.string_of_int (Z.to_int n).

Definition substr (s : string) (start : Z) : string :=
  let len := Z.of_nat (String.length s) in
  let from := if start <? 0 then Z.max (len + start) 0 else Z.min start len in
  String.substring (Z.to_nat from) (Z.to_nat (len - from)) s.

Fixpoint split (s : string) : list string :=
  match s with
  | EmptyString => []
  | String c rest => String c EmptyString :: split rest
  end.

Fixpoint repeatChar (c : ascii) (n : nat) : string :=
  match n with
  | O => EmptyString
  | S n => String c (repeatChar c n)
  end.

(** [calcXPos(canvasWidth)] *)
Definition calcXPos (canvasWidth : Z) (o : t) : t :=
  set_x (canvasWidth - DEST_WIDTH * (MAX_DISTANCE_UNITS (config o) + 1)) o.

(** [init(width)]: the loop appends one ["0"] to [defaultString] and one
    ["9"] to the string whose value becomes [maxScore], for each digit. *)
Definition init (width : Z) (o : t) : t :=
  let o := calcXPos width o in
  let n := Z.to_nat (MAX_DISTANCE_UNITS (config o)) in
  let o := set_defaultString (defaultString o ++ repeatChar "0" n) o in
  set_maxScore (10 ^ Z.of_nat n - 1) o.

(** [new DistanceMeter(canvas, spriteSheet, canvasWidth)] *)
Definition new (canvasWidth : Z) : t :=
  init canvasWidth
    {| x := 0; y := 5; currentDistance := 0; maxScore := 0; highScore := [];
       digits := []; acheivement := false; defaultString := EmptyString;
       flashTimer := 0; flashIterations := 0; config := defaultConfig |}.

(** [getActualDistance(distance)]; [None] is an omitted argument. *)
Definition getActualDistance (distance : option Q) (o : t) : Z :=
  match distance with
  | Some d => if JS.truthy d then JS.round (d * COEFFICIENT (config o)) else 0
  | None => 0
  end.

(** The body of [update(deltaTime, distance)] up to the drawing: the new
    state together with the locals [paint] and [playSound]. *)
Definition updateCore (deltaTime : Q) (distance : option Q) (o : t)
  : t * bool * bool :=
  if negb (acheivement o) then
    let distance := getActualDistance distance o in
    if distance >? 0 then
      let '(o, playSound) :=
        if Z.rem distance (ACHIEVEMENT_DISTANCE (config o)) =? 0
        then (set_flashTimer 0 (set_acheivement true o), true)
        else (o, false) in
      let distanceStr :=
        substr (defaultString o ++ toString distance)
               (- MAX_DISTANCE_UNITS (config o)) in
      (set_digits (split distanceStr) o, true, playSound)
    else (set_digits (split (defaultString o)) o, true, false)
  else
    if flashIterations o <=? FLASH_ITERATIONS (config o) then
      let o := set_flashTimer (flashTimer o + deltaTime) o in
      if JS.ltb (flashTimer o) (FLASH_DURATION (config o)) then
        (o, false, false)
      else if JS.gtb (flashTimer o) (FLASH_DURATION (config o) * 2) then
        (set_flashIterations (flashIterations o + 1) (set_flashTimer 0 o),
         true, false)
      else (o, true, false)
    else
      (set_flashTimer 0 (set_flashIterations 0 (set_acheivement false o)),
       true, false).

(** [update(deltaTime, distance)] returns [playSound]. *)
Definition update (deltaTime : Q) (distance : option Q) (o : t) : t * bool :=
  let '(o, _, playSound) := updateCore deltaTime distance o in (o, playSound).

(** Whether [update] repaints the digits. *)
Definition paints (deltaTime : Q) (distance : option Q) (o : t) : bool :=
  let '(_, paint, _) := updateCore deltaTime distance o in paint.

(** [setHighScore(distance)] *)
Definition setHighScore (distance : Q) (o : t) : t :=
  let distance := getActualDistance (Some distance) o in
  let highScoreStr :=
    substr (defaultString o ++ toString distance)
           (- MAX_DISTANCE_UNITS (config o)) in
  set_highScore (["10"; "11"; EmptyString]%string ++ split highScoreStr) o.

(** [reset()] *)
Definition reset (o : t) : t :=
  set_acheivement false (fst (update 0 None o)).

End DistanceMeter.

(** ** Clouds *)

Module Cloud.

(** [Cloud.config] *)
Definition HEIGHT : Z := 14.
Definition MAX_CLOUD_GAP : Z := 400.
Definition MAX_SKY_LEVEL : Z := 30.
Definition MIN_CLOUD_GAP : Z := 100.
Definition MIN_SKY_LEVEL : Z := 71.
Definition WIDTH : Z := 46.

Record t := mk {
  containerWidth : Z;
  xPos : Z;
  yPos : Z;
  remove : bool;
  cloudGap : Z
}.

Definition set_xPos (v : Z) (o : t) : t :=
  {| containerWidth := containerWidth o; xPos := v; yPos := yPos o;
     remove := remove o; cloudGap := cloudGap o |}.

Definition set_yPos (v : Z) (o : t) : t :=
  {| containerWidth := containerWidth o; xPos := xPos o; yPos := v;
     remove := remove o; cloudGap := cloudGap o |}.

Definition set_remove (v : bool) (o : t) : t :=
  {| containerWidth := containerWidth o; xPos := xPos o; yPos := yPos o; remove := v;
     cloudGap := cloudGap o |}.


(** [new Cloud(canvas, cloudImg, containerWidth)], with [init()] *)
Definition new (containerWidth : Z) : M t :=
  let* cloudGap := getRandomNum MIN_CLOUD_GAP MAX_CLOUD_GAP in
  let* yPos := getRandomNum MAX_SKY_LEVEL MIN_SKY_LEVEL in
  ret {| containerWidth := containerWidth; xPos := containerWidth;
         yPos := yPos; remove := false; cloudGap := cloudGap |}.

(** [isVisible()] *)
Definition isVisible (o : t) : bool := xPos o + WIDTH >? 0.

(** [update(speed)] *)
Definition update (speed : Q) (o : t) : t :=
  if negb (remove o) then
    let o := set_xPos (xPos o - JS.ceil speed) o in
    if negb (isVisible o) then set_remove true o else o
  else o.

End Cloud.

(** ** The horizon *)

(** The ground line. Its class is not part of these sources; the three
    operations the horizon calls are parameters of the development. *)
Class HorizonLineOps (HL : Type) := {
  hl_new : M HL;
  hl_update : Q -> Q -> HL -> M HL;
  hl_reset : HL -> M HL
}.

Module Horizon.

Record Config := mkConfig {
  BG_CLOUD_SPEED : Q;
  BUMPY_THRESHOLD : Q;
  CLOUD_FREQUENCY : Q;
  HORIZON_HEIGHT : Z;
  MAX_CLOUDS : Z
}.

(** [Horizon.config] *)
Definition defaultConfig : Config :=
  {| BG_CLOUD_SPEED := 0.2; BUMPY_THRESHOLD := 0.3; CLOUD_FREQUENCY := 0.5;
     HORIZON_HEIGHT := 16; MAX_CLOUDS := 6 |}.

(** The [dimensions] object of the horizon is the runner's own object,
    which the runner mutates on resize: the operations below receive it
    from the runner instead of keeping a copy. *)
Record t (HL : Type) := mk {
  config : Config;
  gapCoefficient : Q;
  obstacles : list Obstacle.t;
  cloudFrequency : Q;
  clouds : list Cloud.t;
  cloudSpeed : Q;
  horizonLine : HL
}.

Arguments mk {HL}.
Arguments config {HL}.
Arguments gapCoefficient {HL}.
Arguments obstacles {HL}.
Arguments cloudFrequency {HL}.
Arguments clouds {HL}.
Arguments cloudSpeed {HL}.
Arguments horizonLine {HL}.

Section Operations.

Context {HL : Type} `{HorizonLineOps HL}.

Definition set_obstacles (v : list Obstacle.t) (o : t HL) : t HL :=
  {| config := config o; gapCoefficient := gapCoefficient o; obstacles := v;
     cloudFrequency := cloudFrequency o; clouds := clouds o;
     cloudSpeed := cloudSpeed o; horizonLine := horizonLine o |}.

Definition set_clouds (v : list Cloud.t) (o : t HL) : t HL :=
  {| config := config o; gapCoefficient := gapCoefficient o;
     obstacles := obstacles o; cloudFrequency := cloudFrequency o; clouds := v;
     cloudSpeed := cloudSpeed o; horizonLine := horizonLine o |}.

Definition set_horizonLine (v : HL) (o : t HL) : t HL :=
  {| config := config o; gapCoefficient := gapCoefficient o;
     obstacles := obstacles o; cloudFrequency := cloudFrequency o;
     clouds := clouds o; cloudSpeed := cloudSpeed o; horizonLine := v |}.

(** [addCloud()] *)
Definition addCloud (dimensions : RunnerStatic.Dimensions) (o : t HL) : M (t HL) :=
  let* cloud := Cloud.new (RunnerStatic.WIDTH dimensions) in
  ret (set_clouds (clouds o ++ [cloud]) o).

(** [new Horizon(canvas, images, dimensions, gapCoefficient)], with
    [init()] *)
Definition new (dimensions : RunnerStatic.Dimensions) (gapCoefficient : Q)
  : M (t HL) :=
  let* cloud := Cloud.new (RunnerStatic.WIDTH dimensions) in
  let* line := hl_new in
  ret {| config := defaultConfig; gapCoefficient := gapCoefficient;
         obstacles := []; cloudFrequency := CLOUD_FREQUENCY defaultConfig;
         clouds := [cloud]; cloudSpeed := BG_CLOUD_SPEED defaultConfig;
         horizonLine := line |}.

(** [updateClouds(deltaTime, speed)] *)
Definition updateClouds (dimensions : RunnerStatic.Dimensions)
    (deltaTime speed : Q) (o : t HL) : M (t HL) :=
  let cloudSpeed := (cloudSpeed o / 1000 * deltaTime * speed)%Q in
  let numClouds := length (clouds o) in
  if negb (numClouds =? 0)%nat then
    let o := set_clouds (map (Cloud.update cloudSpeed) (clouds o)) o in
    let* o :=
      match clouds o !! (numClouds - 1)%nat with
      | Some lastCloud =>
          if (Z.of_nat numClouds <? MAX_CLOUDS (config o)) &&
             (RunnerStatic.WIDTH dimensions - Cloud.xPos lastCloud >?
                Cloud.cloudGap lastCloud)
          then
            let* r := mathRandom in
            if JS.gtb (cloudFrequency o) r then addCloud dimensions o
            else ret o
          else ret o
      | None => ret o
      end in
    ret (set_clouds
           (List.filter (fun obj => negb (Cloud.remove obj)) (clouds o)) o)
  else ret o.

(** [addNewObstacle(currentSpeed)]. A type index outside the catalog or a
    catalog entry with fewer than three boxes would raise a TypeError; with
    [Obstacle.types] and [Math.random] in [0, 1) neither happens, and the
    list is left as it is in those branches. *)
Definition addNewObstacle (dimensions : RunnerStatic.Dimensions)
    (currentSpeed : Q) (o : t HL) : M (t HL) :=
  let* obstacleTypeIndex :=
    getRandomNum 0 (Z.of_nat (length Obstacle.types) - 1) in
  match (if 0 <=? obstacleTypeIndex
         then Obstacle.types !! Z.to_nat obstacleTypeIndex else None) with
  | Some obstacleType =>
      let* created :=
        Obstacle.new obstacleType dimensions (gapCoefficient o) currentSpeed in
      match created with
      | Some obstacle => ret (set_obstacles (obstacles o ++ [obstacle]) o)
      | None => ret o
      end
  | None => ret o
  end.

(** The clean-up of [updateObstacles]: one [shift()] of the copy for every
    obstacle found with its [remove] flag set. *)
Definition shiftRemoved (updated : list Obstacle.t) : list Obstacle.t :=
  fold_left (fun updatedObstacles obstacle =>
               if Obstacle.remove obstacle then tail updatedObstacles
               else updatedObstacles)
            updated updated.

(** The test on the last obstacle that schedules its follower. *)
Definition followerDue (dimensions : RunnerStatic.Dimensions)
    (lastObstacle : Obstacle.t) : bool :=
  negb (Obstacle.followingObstacleCreated lastObstacle) &&
  Obstacle.isVisible lastObstacle &&
  (Obstacle.xPos lastObstacle + Obstacle.width lastObstacle +
     Obstacle.gap lastObstacle <? RunnerStatic.WIDTH dimensions).

(** [lastObstacle.followingObstacleCreated = true], on the obstacle that
    was last before the push. *)
Definition markFollower (index : nat) (obstacles : list Obstacle.t)
  : list Obstacle.t :=
  match obstacles !! index with
  | Some lastObstacle =>
      <[index := Obstacle.set_followingObstacleCreated true lastObstacle]>
        obstacles
  | None => obstacles
  end.

(** [updateObstacles(deltaTime, currentSpeed)] *)
Definition updateObstacles (dimensions : RunnerStatic.Dimensions)
    (deltaTime currentSpeed : Q) (o : t HL) : M (t HL) :=
  let updated := map (Obstacle.update deltaTime currentSpeed) (obstacles o) in
  let o := set_obstacles (shiftRemoved updated) o in
  if (0 <? length (obstacles o))%nat then
    let index := (length (obstacles o) - 1)%nat in
    match obstacles o !! index with
    | Some lastObstacle =>
        if followerDue dimensions lastObstacle then
          let* o := addNewObstacle dimensions currentSpeed o in
          ret (set_obstacles (markFollower index (obstacles o)) o)
        else ret o
    | None => ret o
    end
  else addNewObstacle dimensions currentSpeed o.

(** [update(deltaTime, currentSpeed, updateObstacles)] *)
Definition update (dimensions : RunnerStatic.Dimensions)
    (deltaTime currentSpeed : Q) (doObstacles : bool) (o : t HL) : M (t HL) :=
  let* line := hl_update deltaTime currentSpeed (horizonLine o) in
  let o := set_horizonLine line o in
  let* o := updateClouds dimensions deltaTime currentSpeed o in
  if doObstacles then updateObstacles dimensions deltaTime currentSpeed o
  else ret o.

(** [reset()] *)
Definition reset (o : t HL) : M (t HL) :=
  let o := set_obstacles [] o in
  let* line := hl_reset (horizonLine o) in
  ret (set_horizonLine line o).

End Operations.

End Horizon.

(** ** The runner *)

Module Runner.

(** [Runner.events] *)
Inductive EventType :=
  | ANIM_END | CLICK | KEYDOWN | KEYUP | MOUSEDOWN | MOUSEUP | RESIZE
  | TOUCHEND | TOUCHSTART | VISIBILITY | BLUR | FOCUS | LOAD.

(** The elements an event can be dispatched on. *)
Inductive Element :=
  | DetailsButton | CanvasEl | ContainerEl | TouchController | Document.

(** The fields of a DOM event that the handlers read; [keyCode] is absent
    on mouse and touch events. *)
Record Event := mkEvent {
  type : EventType;
  keyCode : option Z;
  target : Element;
  currentTarget : Element
}.

Definition EventType_eqb (a b : EventType) : bool :=
  match a, b with
  | ANIM_END, ANIM_END | CLICK, CLICK | KEYDOWN, KEYDOWN | KEYUP, KEYUP
  | MOUSEDOWN, MOUSEDOWN | MOUSEUP, MOUSEUP | RESIZE, RESIZE
  | TOUCHEND, TOUCHEND | TOUCHSTART, TOUCHSTART | VISIBILITY, VISIBILITY
  | BLUR, BLUR | FOCUS, FOCUS | LOAD, LOAD => true
  | _, _ => false
  end.

Definition Element_eqb (a b : Element) : bool :=
  match a, b with
  | DetailsButton, DetailsButton | CanvasEl, CanvasEl
  | ContainerEl, ContainerEl | TouchController, TouchController
  | Document, Document => true
  | _, _ => false
  end.

(** [Runner.keycodes]: the lookups [JUMP[k]], [DUCK[k]] and [RESTART[k]]. *)
Definition isKey (codes : list Z) (keyCode : option Z) : bool :=
  match keyCode with
  | Some k => existsb (Z.eqb k) codes
  | None => false
  end.

Definition JUMP : list Z := [38; 32].
Definition DUCK : list Z := [40].
Definition RESTART : list Z := [13].

Section Operations.

Context {HL : Type} `{HorizonLineOps HL}.

(** The state of the singleton. [gameOverPanel] records whether the panel
    has been created; images, audio buffers and DOM nodes are left out. *)
Record t := mk {
  config : RunnerStatic.Config;
  dimensions : RunnerStatic.Dimensions;
  tRex : Trex.t;
  distanceMeter : DistanceMeter.t;
  horizon : Horizon.t HL;
  distanceRan : Q;
  highestScore : Z;
  time : Q;
  runningTime : Q;
  msPerFrame : Q;
  currentSpeed : Q;
  started : bool;
  activated : bool;
  crashed : bool;
  paused : bool;
  playCount : Z;
  playingIntro : bool;
  drawPending : bool;
  raqId : Z;
  gameOverPanel : bool
}.

Definition set_dimensions (v : RunnerStatic.Dimensions) (o : t) : t :=
  {| config := config o; dimensions := v; tRex := tRex o;
     distanceMeter := distanceMeter o; horizon := horizon o;
     distanceRan := distanceRan o; highestScore := highestScore o; time := time o;
     runningTime := runningTime o; msPerFrame := msPerFrame o;
     currentSpeed := currentSpeed o; started := started o; activated := activated o;
     crashed := crashed o; paused := paused o; playCount := playCount o;
     playingIntro := playingIntro o; drawPending := drawPending o; raqId := raqId o;
     gameOverPanel := gameOverPanel o |}.

Definition set_tRex (v : Trex.t) (o : t) : t :=
  {| config := config o; dimensions := dimensions o; tRex := v;
     distanceMeter := distanceMeter o; horizon := horizon o;
     distanceRan := distanceRan o; highestScore := highestScore o; time := time o;
     runningTime := runningTime o; msPerFrame := msPerFrame o;
     currentSpeed := currentSpeed o; started := started o; activated := activated o;
     crashed := crashed o; paused := paused o; playCount := playCount o;
     playingIntro := playingIntro o; drawPending := drawPending o; raqId := raqId o;
     gameOverPanel := gameOverPanel o |}.

Definition set_distanceMeter (v : DistanceMeter.t) (o : t) : t :=
  {| config := config o; dimensions := dimensions o; tRex := tRex o;
     distanceMeter := v; horizon := horizon o; distanceRan := distanceRan o;
     highestScore := highestScore o; time := time o; runningTime := runningTime o;
     msPerFrame := msPerFrame o; currentSpeed := currentSpeed o;
     started := started o; activated := activated o; crashed := crashed o;
     paused := paused o; playCount := playCount o; playingIntro := playingIntro o;
     drawPending := drawPending o; raqId := raqId o;
     gameOverPanel := gameOverPanel o |}.

Definition set_horizon (v : Horizon.t HL) (o : t) : t :=
  {| config := config o; dimensions := dimensions o; tRex := tRex o;
     distanceMeter := distanceMeter o; horizon := v; distanceRan := distanceRan o;
     highestScore := highestScore o; time := time o; runningTime := runningTime o;
     msPerFrame := msPerFrame o; currentSpeed := currentSpeed o;
     started := started o; activated := activated o; crashed := crashed o;
     paused := paused o; playCount := playCount o; playingIntro := playingIntro o;
     drawPending := drawPending o; raqId := raqId o;
     gameOverPanel := gameOverPanel o |}.

Definition set_distanceRan (v : Q) (o : t) : t :=
  {| config := config o; dimensions := dimensions o; tRex := tRex o;
     distanceMeter := distanceMeter o; horizon := horizon o; distanceRan := v;
     highestScore := highestScore o; time := time o; runningTime := runningTime o;
     msPerFrame := msPerFrame o; currentSpeed := currentSpeed o;
     started := started o; activated := activated o; crashed := crashed o;
     paused := paused o; playCount := playCount o; playingIntro := playingIntro o;
     drawPending := drawPending o; raqId := raqId o;
     gameOverPanel := gameOverPanel o |}.

Definition set_highestScore (v : Z) (o : t) : t :=
  {| config := config o; dimensions := dimensions o; tRex := tRex o;
     distanceMeter := distanceMeter o; horizon := horizon o;
     distanceRan := distanceRan o; highestScore := v; time := time o;
     runningTime := runningTime o; msPerFrame := msPerFrame o;
     currentSpeed := currentSpeed o; started := started o; activated := activated o;
     crashed := crashed o; paused := paused o; playCount := playCount o;
     playingIntro := playingIntro o; drawPending := drawPending o; raqId := raqId o;
     gameOverPanel := gameOverPanel o |}.

Definition set_time (v : Q) (o : t) : t :=
  {| config := config o; dimensions := dimensions o; tRex := tRex o;
     distanceMeter := distanceMeter o; horizon := horizon o;
     distanceRan := distanceRan o; highestScore := highestScore o; time := v;
     runningTime := runningTime o; msPerFrame := msPerFrame o;
     currentSpeed := currentSpeed o; started := started o; activated := activated o;
     crashed := crashed o; paused := paused o; playCount := playCount o;
     playingIntro := playingIntro o; drawPending := drawPending o; raqId := raqId o;
     gameOverPanel := gameOverPanel o |}.

Definition set_runningTime (v : Q) (o : t) : t :=
  {| config := config o; dimensions := dimensions o; tRex := tRex o;
     distanceMeter := distanceMeter o; horizon := horizon o;
     distanceRan := distanceRan o; highestScore := highestScore o; time := time o;
     runningTime := v; msPerFrame := msPerFrame o; currentSpeed := currentSpeed o;
     started := started o; activated := activated o; crashed := crashed o;
     paused := paused o; playCount := playCount o; playingIntro := playingIntro o;
     drawPending := drawPending o; raqId := raqId o;
     gameOverPanel := gameOverPanel o |}.

Definition set_currentSpeed (v : Q) (o : t) : t :=
  {| config := config o; dimensions := dimensions o; tRex := tRex o;
     distanceMeter := distanceMeter o; horizon := horizon o;
     distanceRan := distanceRan o; highestScore := highestScore o; time := time o;
     runningTime := runningTime o; msPerFrame := msPerFrame o; currentSpeed := v;
     started := started o; activated := activated o; crashed := crashed o;
     paused := paused o; playCount := playCount o; playingIntro := playingIntro o;
     drawPending := drawPending o; raqId := raqId o;
     gameOverPanel := gameOverPanel o |}.

Definition set_started (v : bool) (o : t) : t :=
  {| config := config o; dimensions := dimensions o; tRex := tRex o;
     distanceMeter := distanceMeter o; horizon := horizon o;
     distanceRan := distanceRan o; highestScore := highestScore o; time := time o;
     runningTime := runningTime o; msPerFrame := msPerFrame o;
     currentSpeed := currentSpeed o; started := v; activated := activated o;
     crashed := crashed o; paused := paused o; playCount := playCount o;
     playingIntro := playingIntro o; drawPending := drawPending o; raqId := raqId o;
     gameOverPanel := gameOverPanel o |}.

Definition set_activated (v : bool) (o : t) : t :=
  {| config := config o; dimensions := dimensions o; tRex := tRex o;
     distanceMeter := distanceMeter o; horizon := horizon o;
     distanceRan := distanceRan o; highestScore := highestScore o; time := time o;
     runningTime := runningTime o; msPerFrame := msPerFrame o;
     currentSpeed := currentSpeed o; started := started o; activated := v;
     crashed := crashed o; paused := paused o; playCount := playCount o;
     playingIntro := playingIntro o; drawPending := drawPending o; raqId := raqId o;
     gameOverPanel := gameOverPanel o |}.

Definition set_crashed (v : bool) (o : t) : t :=
  {| config := config o; dimensions := dimensions o; tRex := tRex o;
     distanceMeter := distanceMeter o; horizon := horizon o;
     distanceRan := distanceRan o; highestScore := highestScore o; time := time o;
     runningTime := runningTime o; msPerFrame := msPerFrame o;
     currentSpeed := currentSpeed o; started := started o; activated := activated o;
     crashed := v; paused := paused o; playCount := playCount o;
     playingIntro := playingIntro o; drawPending := drawPending o; raqId := raqId o;
     gameOverPanel := gameOverPanel o |}.

Definition set_paused (v : bool) (o : t) : t :=
  {| config := config o; dimensions := dimensions o; tRex := tRex o;
     distanceMeter := distanceMeter o; horizon := horizon o;
     distanceRan := distanceRan o; highestScore := highestScore o; time := time o;
     runningTime := runningTime o; msPerFrame := msPerFrame o;
     currentSpeed := currentSpeed o; started := started o; activated := activated o;
     crashed := crashed o; paused := v; playCount := playCount o;
     playingIntro := playingIntro o; drawPending := drawPending o; raqId := raqId o;
     gameOverPanel := gameOverPanel o |}.

Definition set_playCount (v : Z) (o : t) : t :=
  {| config := config o; dimensions := dimensions o; tRex := tRex o;
     distanceMeter := distanceMeter o; horizon := horizon o;
     distanceRan := distanceRan o; highestScore := highestScore o; time := time o;
     runningTime := runningTime o; msPerFrame := msPerFrame o;
     currentSpeed := currentSpeed o; started := started o; activated := activated o;
     crashed := crashed o; paused := paused o; playCount := v;
     playingIntro := playingIntro o; drawPending := drawPending o; raqId := raqId o;
     gameOverPanel := gameOverPanel o |}.

Definition set_playingIntro (v : bool) (o : t) : t :=
  {| config := config o; dimensions := dimensions o; tRex := tRex o;
     distanceMeter := distanceMeter o; horizon := horizon o;
     distanceRan := distanceRan o; highestScore := highestScore o; time := time o;
     runningTime := runningTime o; msPerFrame := msPerFrame o;
     currentSpeed := currentSpeed o; started := started o; activated := activated o;
     crashed := crashed o; paused := paused o; playCount := playCount o;
     playingIntro := v; drawPending := drawPending o; raqId := raqId o;
     gameOverPanel := gameOverPanel o |}.

Definition set_drawPending (v : bool) (o : t) : t :=
  {| config := config o; dimensions := dimensions o; tRex := tRex o;
     distanceMeter := distanceMeter o; horizon := horizon o;
     distanceRan := distanceRan o; highestScore := highestScore o; time := time o;
     runningTime := runningTime o; msPerFrame := msPerFrame o;
     currentSpeed := currentSpeed o; started := started o; activated := activated o;
     crashed := crashed o; paused := paused o; playCount := playCount o;
     playingIntro := playingIntro o; drawPending := v; raqId := raqId o;
     gameOverPanel := gameOverPanel o |}.

Definition set_raqId (v : Z) (o : t) : t :=
  {| config := config o; dimensions := dimensions o; tRex := tRex o;
     distanceMeter := distanceMeter o; horizon := horizon o;
     distanceRan := distanceRan o; highestScore := highestScore o; time := time o;
     runningTime := runningTime o; msPerFrame := msPerFrame o;
     currentSpeed := currentSpeed o; started := started o; activated := activated o;
     crashed := crashed o; paused := paused o; playCount := playCount o;
     playingIntro := playingIntro o; drawPending := drawPending o; raqId := v;
     gameOverPanel := gameOverPanel o |}.

Definition set_gameOverPanel (v : bool) (o : t) : t :=
  {| config := config o; dimensions := dimensions o; tRex := tRex o;
     distanceMeter := distanceMeter o; horizon := horizon o;
     distanceRan := distanceRan o; highestScore := highestScore o; time := time o;
     runningTime := runningTime o; msPerFrame := msPerFrame o;
     currentSpeed := currentSpeed o; started := started o; activated := activated o;
     crashed := crashed o; paused := paused o; playCount := playCount o;
     playingIntro := playingIntro o; drawPending := drawPending o; raqId := raqId o;
     gameOverPanel := v |}.


(** [setSpeed(opt_speed)] *)
Definition setSpeed (opt_speed : option Q) (r : t) : t :=
  let given :=
    match opt_speed with
    | Some s => if JS.truthy s then Some s else None
    | None => None
    end in
  let speed := match given with Some s => s | None => currentSpeed r end in
  if RunnerStatic.WIDTH (dimensions r) <? DEFAULT_WIDTH then
    let mobileSpeed :=
      (speed * num (RunnerStatic.WIDTH (dimensions r)) / num DEFAULT_WIDTH *
       RunnerStatic.MOBILE_SPEED_COEFFICIENT (config r))%Q in
    set_currentSpeed (if JS.gtb mobileSpeed speed then speed else mobileSpeed) r
  else
    match given with
    | Some s => set_currentSpeed s r
    | None => r
    end.

(** [isRunning()] *)
Definition isRunning (r : t) : bool := negb (raqId r =? 0).

(** [raq()] *)
Definition raq (r : t) : M t :=
  if negb (drawPending r) then
    let r := set_drawPending true r in
    let* id := requestAnimationFrame in
    ret (set_raqId id r)
  else ret r.

(** [stop()]; cancelling the pending frame leaves no trace in the state
    beyond the cleared handle. *)
Definition stop (r : t) : t :=
  let r := set_activated false r in
  let r := set_paused true r in
  set_raqId 0 r.

(** [playIntro()], with the [restart] it may call as a parameter. *)
Definition playIntroWith (restart : t -> M t) (r : t) : M t :=
  if negb (started r) && negb (crashed r) then
    let r := set_playingIntro true r in
    let r := set_tRex (Trex.set_playingIntro true (tRex r)) r in
    let r := set_activated true r in
    ret (set_started true r)
  else if crashed r then restart r
  else ret r.

(** [startGame()] *)
Definition startGame (r : t) : t :=
  let r := set_runningTime 0 r in
  let r := set_playingIntro false r in
  let r := set_tRex (Trex.set_playingIntro false (tRex r)) r in
  set_playCount (playCount r + 1) r.

(** [gameOver()] *)
Definition gameOver (r : t) : M t :=
  let* _ := playSound HIT in
  let r := stop r in
  let r := set_crashed true r in
  let r := set_distanceMeter
             (DistanceMeter.set_acheivement false (distanceMeter r)) r in
  let* tRex := Trex.update 100 (Some Trex.CRASHED) (tRex r) in
  let r := set_tRex tRex r in
  let r := if negb (gameOverPanel r) then set_gameOverPanel true r else r in
  let r :=
    if JS.gtb (distanceRan r) (num (highestScore r)) then
      let r := set_highestScore (JS.ceil (distanceRan r)) r in
      set_distanceMeter
        (DistanceMeter.setHighScore (num (highestScore r)) (distanceMeter r)) r
    else r in
  let* now := getTimeStamp in
  ret (set_time now r).

(** The collision test of a frame: [hasObstacles &&
    checkForCollision(this.horizon.obstacles[0], this.tRex)]. The horizon
    update that precedes it leaves the list non-empty. *)
Definition collides (hasObstacles : bool) (r : t) : bool :=
  hasObstacles &&
  match Horizon.obstacles (horizon r) !! 0%nat with
  | Some obstacle =>
      match fst (checkForCollision obstacle (tRex r) None) with
      | Some _ => true
      | None => false
      end
  | None => false
  end.

(** The part of [update()] guarded by [this.activated]; it returns the
    (possibly zeroed) [deltaTime] along with the state. *)
Definition activeFrame (restart : t -> M t) (deltaTime : Q) (r : t)
  : M (t * Q) :=
  let* r :=
    (if Trex.jumping (tRex r) then
       let* tRex := Trex.updateJump deltaTime (tRex r) in
       ret (set_tRex tRex r)
     else ret r) in
  let r := set_runningTime (runningTime r + deltaTime)%Q r in
  let hasObstacles :=
    JS.gtb (runningTime r) (RunnerStatic.CLEAR_TIME (config r)) in
  let* r :=
    (if (Trex.jumpCount (tRex r) =? 1) && negb (playingIntro r)
     then playIntroWith restart r else ret r) in
  let deltaTime :=
    if playingIntro r then deltaTime
    else if negb (started r) then 0%Q else deltaTime in
  let* hz :=
    Horizon.update (dimensions r)
      (if playingIntro r then 0%Q else deltaTime) (currentSpeed r)
      hasObstacles (horizon r) in
  let r := set_horizon hz r in
  let* r :=
    (if negb (collides hasObstacles r) then
       let r := set_distanceRan
                  (distanceRan r + currentSpeed r * deltaTime / msPerFrame r)%Q r in
       ret (if JS.ltb (currentSpeed r) (RunnerStatic.MAX_SPEED (config r))
            then set_currentSpeed
                   (currentSpeed r + RunnerStatic.ACCELERATION (config r))%Q r
            else r)
     else gameOver r) in
  let r :=
    if DistanceMeter.getActualDistance (Some (distanceRan r)) (distanceMeter r)
       >? DistanceMeter.maxScore (distanceMeter r)
    then set_distanceRan 0 r else r in
  let '(meter, playAcheivementSound) :=
    DistanceMeter.update deltaTime (Some (num (JS.ceil (distanceRan r))))
      (distanceMeter r) in
  let r := set_distanceMeter meter r in
  let* _ := (if playAcheivementSound then playSound SCORE else ret tt) in
  ret (r, deltaTime).

(** [update()], with the [restart] that [playIntro] may call as a
    parameter. *)
Definition updateWith (restart : t -> M t) (r : t) : M t :=
  let r := set_drawPending false r in
  let* now := getTimeStamp in
  let deltaTime := (now - (if JS.truthy (time r) then time r else now))%Q in
  let r := set_time now r in
  let* '(r, deltaTime) :=
    (if activated r then activeFrame restart deltaTime r
     else ret (r, deltaTime)) in
  if negb (crashed r) then
    let* tRex := Trex.update deltaTime None (tRex r) in
    raq (set_tRex tRex r)
  else ret r.

(** [restart()], with the [update] it ends with as a parameter. *)
Definition restartWith (update : t -> M t) (r : t) : M t :=
  if raqId r =? 0 then
    let r := set_playCount (playCount r + 1) r in
    let r := set_runningTime 0 r in
    let r := set_activated true r in
    let r := set_crashed false r in
    let r := set_distanceRan 0 r in
    let r := setSpeed (Some (RunnerStatic.SPEED (config r))) r in
    let* now := getTimeStamp in
    let r := set_time now r in
    let r := set_distanceMeter (DistanceMeter.reset (distanceMeter r)) r in
    let* hz := Horizon.reset (horizon r) in
    let r := set_horizon hz r in
    let* tRex := Trex.reset (tRex r) in
    let r := set_tRex tRex r in
    let* _ := playSound BUTTON_PRESS in
    update r
  else ret r.

(** [update()] and [restart()] call each other: [update] reaches
    [restart] through [playIntro] when the game has crashed, and [restart]
    ends with [update] after clearing [crashed], so that this inner
    [update] cannot reach [restart] again. *)
Definition updateInner : t -> M t := updateWith (fun r => ret r).

(** [restart()] *)
Definition restart : t -> M t := restartWith updateInner.

(** [playIntro()] *)
Definition playIntro : t -> M t := playIntroWith restart.

(** [update()] *)
Definition update : t -> M t := updateWith restart.

(** [play()] *)
Definition play (r : t) : M t :=
  if negb (crashed r) then
    let r := set_activated true r in
    let r := set_paused false r in
    let* tRex := Trex.update 0 (Some Trex.RUNNING) (tRex r) in
    let r := set_tRex tRex r in
    let* now := getTimeStamp in
    update (set_time now r)
  else ret r.

(** [onVisibilityChange(e)]; [hidden] stands for the test
    [document.hidden || document.webkitHidden || e.type == 'blur']. *)
Definition onVisibilityChange (hidden : bool) (r : t) : M t :=
  if hidden then ret (stop r) else play r.

(** [onKeyDown(e)]; loading the sounds leaves no trace in the state. *)
Definition onKeyDown (e : Event) (r : t) : M t :=
  let* r :=
    (if negb (Element_eqb (target e) DetailsButton) then
       let* r :=
         (if negb (crashed r) &&
             (isKey JUMP (keyCode e) || EventType_eqb (type e) TOUCHSTART)
          then
            let r := if negb (activated r) then set_activated true r else r in
            if negb (Trex.jumping (tRex r)) then
              let* _ := playSound BUTTON_PRESS in
              let* tRex := Trex.startJump (tRex r) in
              ret (set_tRex tRex r)
            else ret r
          else ret r) in
       if crashed r && EventType_eqb (type e) TOUCHSTART &&
          Element_eqb (currentTarget e) ContainerEl
       then restart r else ret r
     else ret r) in
  if isKey DUCK (keyCode e) && Trex.jumping (tRex r) then
    ret (set_tRex (Trex.setSpeedDrop (tRex r)) r)
  else ret r.

(** [onKeyUp(e)] *)
Definition onKeyUp (e : Event) (r : t) : M t :=
  let isjumpKey :=
    isKey JUMP (keyCode e) || EventType_eqb (type e) TOUCHEND ||
    EventType_eqb (type e) MOUSEDOWN in
  if isRunning r && isjumpKey then
    ret (set_tRex (Trex.endJump (tRex r)) r)
  else if isKey DUCK (keyCode e) then
    ret (set_tRex (Trex.set_speedDrop false (tRex r)) r)
  else if crashed r then
    let* now := getTimeStamp in
    let deltaTime := (now - time r)%Q in
    if isKey RESTART (keyCode e) ||
       (EventType_eqb (type e) MOUSEUP && Element_eqb (target e) CanvasEl) ||
       (JS.geb deltaTime (RunnerStatic.GAMEOVER_CLEAR_TIME (config r)) &&
        isKey JUMP (keyCode e))
    then restart r else ret r
  else if paused r && isjumpKey then play r
  else ret r.

(** [handleEvent(e)] *)
Definition handleEvent (e : Event) (r : t) : M t :=
  match type e with
  | KEYDOWN | TOUCHSTART | MOUSEDOWN => onKeyDown e r
  | KEYUP | TOUCHEND | MOUSEUP => onKeyUp e r
  | _ => ret r
  end.

(** [adjustDimensions()] once the canvas exists; [width] is the width the
    container offers ([offsetWidth] less the padding). *)
Definition adjustDimensions (width : Z) (r : t) : M t :=
  let r := set_dimensions
             (RunnerStatic.mkDimensions width
                (RunnerStatic.HEIGHT (dimensions r))) r in
  let r := set_distanceMeter
             (DistanceMeter.calcXPos (RunnerStatic.WIDTH (dimensions r))
                (distanceMeter r)) r in
  let* hz := Horizon.update (dimensions r) 0 0 true (horizon r) in
  let r := set_horizon hz r in
  let* tRex := Trex.update 0 None (tRex r) in
  let r := set_tRex tRex r in
  if activated r || crashed r then
    let r := set_distanceMeter
               (fst (DistanceMeter.update 0
                       (Some (num (JS.ceil (distanceRan r))))
                       (distanceMeter r))) r in
    ret (stop r)
  else ret r.

(** [new Runner(outerContainerId, opt_config)] on a container offering
    [width]: the constructor, [loadImages()] and [init()]. *)
Definition new (width : Z) : M t :=
  let config := RunnerStatic.config in
  let dimensions :=
    RunnerStatic.mkDimensions width
      (RunnerStatic.HEIGHT RunnerStatic.defaultDimensions) in
  let* hz := Horizon.new dimensions (RunnerStatic.GAP_COEFFICIENT config) in
  let meter := DistanceMeter.new (RunnerStatic.WIDTH dimensions) in
  let* tRex := Trex.new in
  let r :=
    {| config := config; dimensions := dimensions; tRex := tRex;
       distanceMeter := meter; horizon := hz; distanceRan := 0;
       highestScore := 0; time := 0; runningTime := 0;
       msPerFrame := 1000 / num FPS;
       currentSpeed := RunnerStatic.SPEED config; started := false;
       activated := false; crashed := false; paused := false; playCount := 0;
       playingIntro := false; drawPending := false; raqId := 0;
       gameOverPanel := false |} in
  update (setSpeed None r).

End Operations.

Arguments t HL : clear implicits.

End Runner.

(** * Vocabulary of the properties *)

Arguments JS.ltb : simpl never.
Arguments JS.gtb : simpl never.
Arguments JS.leb : simpl never.
Arguments JS.geb : simpl never.
Arguments JS.truthy : simpl never.
Arguments JS.round : simpl never.
Arguments JS.floor : simpl never.
Arguments JS.ceil : simpl never.
Arguments getRandomNum : simpl never.
Arguments Obstacle.adjustCollisionBoxes : simpl never.

(** The lower bound of the gap of an obstacle, as [getGap] computes it. *)
Definition gapFloor (gapCoefficient speed : Q) (o : Obstacle.t) : Z :=
  JS.round (num (Obstacle.width o) * speed +
            num (ObstacleType.minGap (Obstacle.typeConfig o)) * gapCoefficient).

(** The grouping count after the speed test of [init]. *)
Definition sizeAtSpeed (type : ObstacleType.t) (speed : Q) (drawn : Z) : Z :=
  if (drawn >? 1) && JS.gtb (num (ObstacleType.multipleSpeed type)) speed
  then 1 else drawn.

(** The pixel columns of the game area and those an obstacle covers. *)
Definition insideGameArea (screenWidth p : Z) : Prop := 0 <= p < screenWidth.

Definition covers (o : Obstacle.t) (p : Z) : Prop :=
  Obstacle.xPos o <= p < Obstacle.xPos o + Obstacle.width o.

(** An obstacle none of whose columns is inside the game area. *)
Definition offScreen (screenWidth : Z) (o : Obstacle.t) : Prop :=
  forall p, covers o p -> ~ insideGameArea screenWidth p.

(** A world for examples: a frame every 16 ms, every random draw [1/2]. *)
Definition steadyWorld : World :=
  {| clock := fun n => (16 * num (Z.of_nat n))%Q; ticks := 0;
     random := fun _ => (1 # 2)%Q; draws := 0; requests := 0; sounds := [] |}.

(** The axis-aligned overlap of two boxes. *)
Definition overlap (a b : CollisionBox.t) : Prop :=
  CollisionBox.x a < CollisionBox.x b + CollisionBox.width b /\
  CollisionBox.x a + CollisionBox.width a > CollisionBox.x b /\
  CollisionBox.y a < CollisionBox.y b + CollisionBox.height b /\
  CollisionBox.y a + CollisionBox.height a > CollisionBox.y b.

(** A box trimmed by one unit on every side. *)
Definition trim (b : CollisionBox.t) : CollisionBox.t :=
  CollisionBox.mk (CollisionBox.x b + 1) (CollisionBox.y b + 1)
    (CollisionBox.width b - 2) (CollisionBox.height b - 2).

(** The sprite rectangles of the t-rex and of an obstacle. *)
Definition tRexSprite (tRex : Trex.t) : CollisionBox.t :=
  CollisionBox.mk (Trex.xPos tRex) (Trex.yPos tRex)
    (Trex.WIDTH (Trex.config tRex)) (Trex.HEIGHT (Trex.config tRex)).

Definition obstacleSprite (obstacle : Obstacle.t) : CollisionBox.t :=
  CollisionBox.mk (Obstacle.xPos obstacle) (Obstacle.yPos obstacle)
    (ObstacleType.width (Obstacle.typeConfig obstacle) * Obstacle.size obstacle)
    (ObstacleType.height (Obstacle.typeConfig obstacle)).

(** A small cactus at the right border and the t-rex standing at the left,
    for examples. *)
Definition farCactus : Obstacle.t :=
  {| Obstacle.typeConfig := Obstacle.CACTUS_SMALL;
     Obstacle.gapCoefficient := 0.6; Obstacle.size := 1;
     Obstacle.remove := false; Obstacle.xPos := 583; Obstacle.yPos := 105;
     Obstacle.width := 17;
     Obstacle.collisionBoxes :=
       ObstacleType.collisionBoxes Obstacle.CACTUS_SMALL;
     Obstacle.gap := 200; Obstacle.followingObstacleCreated := false |}.

Definition standingTrex : Trex.t := fst (Trex.new steadyWorld).

(** The result of a computation satisfies [P], in every world. *)
Definition always {A} (c : M A) (P : A -> Prop) : Prop :=
  forall w, P (fst (c w)).


(** Two states of the t-rex with the same jump-related fields. *)
Definition sameJump (a b : Trex.t) : Prop :=
  Trex.yPos a = Trex.yPos b /\
  Trex.groundYPos a = Trex.groundYPos b /\
  Trex.minJumpHeight a = Trex.minJumpHeight b /\
  Trex.config a = Trex.config b /\
  Trex.jumping a = Trex.jumping b /\
  Trex.jumpVelocity a = Trex.jumpVelocity b /\
  Trex.reachedMinHeight a = Trex.reachedMinHeight b /\
  Trex.speedDrop a = Trex.speedDrop b /\
  Trex.jumpCount a = Trex.jumpCount b.

(** [n] successive jump updates with the same time step. *)
Fixpoint jumpFrames (n : nat) (deltaTime : Q) (o : Trex.t) : M Trex.t :=
  match n with
  | O => ret o
  | S n =>
      let* o := Trex.updateJump deltaTime o in
      jumpFrames n deltaTime o
  end.

(** Predicates on the t-rex that the animation fields do not affect. *)
Record animInvariant (P : Trex.t -> Prop) : Prop := {
  inv_xPos : forall o v, P o -> P (Trex.set_xPos v o);
  inv_currentFrame : forall o v, P o -> P (Trex.set_currentFrame v o);
  inv_currentAnimFrames :
    forall o v, P o -> P (Trex.set_currentAnimFrames v o);
  inv_blinkDelay : forall o v, P o -> P (Trex.set_blinkDelay v o);
  inv_animStartTime : forall o v, P o -> P (Trex.set_animStartTime v o);
  inv_timer : forall o v, P o -> P (Trex.set_timer v o);
  inv_msPerFrame : forall o v, P o -> P (Trex.set_msPerFrame v o)
}.

(** The state in which [updateJump] tests the maximum height. *)
Definition risen (deltaTime : Q) (o : Trex.t) : Trex.t :=
  Trex.markMinHeight (Trex.integrate deltaTime o).

(** A jump from rest, frame by frame at 60 frames per second: just
    started, three frames up, and thirty-four frames in (three pixels above
    the ground, falling). *)
Definition jumpStart : Trex.t := fst (Trex.startJump standingTrex steadyWorld).

Definition airborneTrex : Trex.t :=
  fst (jumpFrames 3 (1000 / 60) jumpStart steadyWorld).

Definition descendingTrex : Trex.t :=
  fst (jumpFrames 34 (1000 / 60) jumpStart steadyWorld).

(** Three frames into a jump at 30 frames per second. *)
Definition slowFrameTrex : Trex.t :=
  fst (jumpFrames 3 (1000 / 30) jumpStart steadyWorld).

(** The same point of a second jump, started after the first has landed. *)
Definition secondJumpTrex : Trex.t :=
  fst ((let* o := jumpFrames 35 (1000 / 60) jumpStart in
        let* o := Trex.startJump o in
        jumpFrames 34 (1000 / 60) o) steadyWorld).

(** [n] successive updates of the distance meter with the same inputs. *)
Fixpoint meterFrames (n : nat) (deltaTime : Q) (distance : option Q)
    (o : DistanceMeter.t) : DistanceMeter.t :=
  match n with
  | O => o
  | S n =>
      meterFrames n deltaTime distance
        (fst (DistanceMeter.update deltaTime distance o))
  end.

(** The meter of a 600 pixel canvas after the update that reaches 100
    units (4000 pixels). *)
Definition flashingMeter : DistanceMeter.t :=
  fst (DistanceMeter.update 16 (Some 4000%Q) (DistanceMeter.new 600)).

(** A ground line without state, and a horizon over it with one small
    cactus in the middle of the area, for examples. *)
Definition flatLine : HorizonLineOps unit :=
  {| hl_new := ret tt;
     hl_update := fun _ _ line => ret line;
     hl_reset := fun line => ret line |}.

Definition midCactus : Obstacle.t := Obstacle.set_xPos 300 farCactus.

(** A group of three large cacti about to leave the area on the left,
    with a gap too wide for a follower, alone on the horizon. *)
Definition leavingCactus : Obstacle.t :=
  {| Obstacle.typeConfig := Obstacle.CACTUS_LARGE;
     Obstacle.gapCoefficient := 0.6; Obstacle.size := 3;
     Obstacle.remove := false; Obstacle.xPos := -70; Obstacle.yPos := 90;
     Obstacle.width := 75;
     Obstacle.collisionBoxes :=
       [ CollisionBox.mk 0 12 7 38; CollisionBox.mk 8 0 58 49;
         CollisionBox.mk 65 10 10 38 ];
     Obstacle.gap := 757; Obstacle.followingObstacleCreated := false |}.

Definition exampleHorizon : Horizon.t unit :=
  {| Horizon.config := Horizon.defaultConfig;
     Horizon.gapCoefficient := 0.6;
     Horizon.obstacles := [midCactus];
     Horizon.cloudFrequency := 0.5;
     Horizon.clouds := [];
     Horizon.cloudSpeed := 0.2;
     Horizon.horizonLine := tt |}.

Definition leavingHorizon : Horizon.t unit :=
  Horizon.set_obstacles [leavingCactus] exampleHorizon.

(** Predicates on the t-rex kept by everything the runner does to it
    outside the jump commands. *)
Definition jumpInvariant (J : Trex.t -> Prop) : Prop :=
  animInvariant J /\
  (forall o s, J o -> J (Trex.set_status s o)) /\
  (forall o b, J o -> J (Trex.set_playingIntro b o)) /\
  (forall deltaTime o,
     J o -> Trex.jumping o = true -> always (Trex.updateJump deltaTime o) J) /\
  (forall o, always (Trex.reset o) J).

(** While the t-rex is in a jump, speed-drop is on. *)
Definition dropHeld (o : Trex.t) : Prop :=
  Trex.jumping o = true -> Trex.speedDrop o = true.

(** The t-rex is not in a jump. *)
Definition atRest (o : Trex.t) : Prop := Trex.jumping o = false.

(** The t-rex stands on the ground, not jumping. *)
Definition grounded (o : Trex.t) : Prop :=
  Trex.jumping o = false /\ Trex.yPos o = Trex.groundYPos o.

(** What drives the runner: animation frames, input events, visibility
    changes, resizes and the end of the intro animation. *)
Inductive Command :=
  | Frame
  | Input (e : Runner.Event)
  | Visibility (hidden : bool)
  | Resize (width : Z)
  | IntroEnd.

Definition step {HL : Type} `{HorizonLineOps HL} (c : Command)
    (r : Runner.t HL) : M (Runner.t HL) :=
  match c with
  | Frame => Runner.update r
  | Input e => Runner.handleEvent e r
  | Visibility hidden => Runner.onVisibilityChange hidden r
  | Resize width => Runner.adjustDimensions width r
  | IntroEnd => ret (Runner.startGame r)
  end.

(** [n] successive runs of a step. *)
Fixpoint iterate {A : Type} (f : A -> M A) (n : nat) (a : A) : M A :=
  match n with
  | O => ret a
  | S n =>
      let* a := f a in
      iterate f n a
  end.

(** [n] successive frames. *)
Definition frames {HL : Type} `{HorizonLineOps HL} (n : nat) (r : Runner.t HL)
  : M (Runner.t HL) :=
  iterate Runner.update n r.

(** The events that reach the branch of [onKeyUp] for the duck key. *)
Definition releasesDuck {HL : Type} (e : Runner.Event) (r : Runner.t HL) : bool :=
  match Runner.type e with
  | Runner.KEYUP | Runner.TOUCHEND | Runner.MOUSEUP =>
      negb (Runner.isRunning r &&
            (Runner.isKey Runner.JUMP (Runner.keyCode e) ||
             Runner.EventType_eqb (Runner.type e) Runner.TOUCHEND ||
             Runner.EventType_eqb (Runner.type e) Runner.MOUSEDOWN)) &&
      Runner.isKey Runner.DUCK (Runner.keyCode e)
  | _ => false
  end.

(** A runner on a 600 pixel container with the world it leaves, and the
    same game after the jump key, one frame and the duck key. *)
Definition freshGame : Runner.t unit * World :=
  Runner.new (H := flatLine) 600 steadyWorld.

Definition freshRunner : Runner.t unit := fst freshGame.

Definition keyDown (code : Z) : Runner.Event :=
  {| Runner.type := Runner.KEYDOWN; Runner.keyCode := Some code;
     Runner.target := Runner.Document; Runner.currentTarget := Runner.Document |}.

Definition keyUp (code : Z) : Runner.Event :=
  {| Runner.type := Runner.KEYUP; Runner.keyCode := Some code;
     Runner.target := Runner.Document; Runner.currentTarget := Runner.Document |}.

Definition divingGame : Runner.t unit * World :=
  (let* r := Runner.handleEvent (H := flatLine) (keyDown 32) freshRunner in
   let* r := Runner.update (H := flatLine) r in
   Runner.handleEvent (H := flatLine) (keyDown 40) r) (snd freshGame).

Definition divingRunner : Runner.t unit := fst divingGame.

(** The pairs that the detailed collision check compares, in its order:
    the boxes of the t-rex in the outer loop, those of the obstacle in the
    inner loop, each moved to the position of its outer box. *)
Definition adjustedPairs (tRexBox obstacleBox : CollisionBox.t)
    (collisionBoxes : list CollisionBox.t)
  : list (CollisionBox.t * CollisionBox.t) :=
  flat_map
    (fun tb =>
       map (fun box => (createAdjustedCollisionBox tb tRexBox,
                        createAdjustedCollisionBox box obstacleBox))
           collisionBoxes)
    Trex.collisionBoxes.

Definition pairCollides (p : CollisionBox.t * CollisionBox.t) : bool :=
  boxCompare (fst p) (snd p).

(** The number of obstacles of a list with the [remove] flag set. *)
Definition countRemoved (l : list Obstacle.t) : nat :=
  length (List.filter Obstacle.remove l).

(** A large cactus overlapping the t-rex that stands at the left. *)
Definition nearCactus : Obstacle.t :=
  {| Obstacle.typeConfig := Obstacle.CACTUS_LARGE;
     Obstacle.gapCoefficient := 0.6; Obstacle.size := 1;
     Obstacle.remove := false; Obstacle.xPos := 20; Obstacle.yPos := 90;
     Obstacle.width := 25;
     Obstacle.collisionBoxes :=
       ObstacleType.collisionBoxes Obstacle.CACTUS_LARGE;
     Obstacle.gap := 200; Obstacle.followingObstacleCreated := false |}.

(** A small cactus whose outer box overlaps that of the standing t-rex by
    two columns, beyond the reach of the boxes of the t-rex. *)
Definition grazingCactus : Obstacle.t := Obstacle.set_xPos 40 farCactus.

(** A horizon whose first obstacle is still in the area while the second
    has left it. *)
Definition goneCactus : Obstacle.t :=
  Obstacle.set_remove true (Obstacle.set_xPos (-30) farCactus).

Definition twoCloudHorizon : Horizon.t unit :=
  {| Horizon.config := Horizon.defaultConfig;
     Horizon.gapCoefficient := 0.6;
     Horizon.obstacles := [];
     Horizon.cloudFrequency := 0.5;
     Horizon.clouds :=
       [ {| Cloud.containerWidth := 600; Cloud.xPos := -45; Cloud.yPos := 40;
            Cloud.remove := false; Cloud.cloudGap := 150 |};
         {| Cloud.containerWidth := 600; Cloud.xPos := 300; Cloud.yPos := 50;
            Cloud.remove := false; Cloud.cloudGap := 150 |} ];
     Horizon.cloudSpeed := 0.2;
     Horizon.horizonLine := tt |}.

(** The frame index of the t-rex points into its frame list. *)
Definition frameInRange (o : Trex.t) : Prop :=
  0 <= Trex.currentFrame o < Z.of_nat (length (Trex.currentAnimFrames o)).

(** The pure pieces of a frame of the running game. *)
Section FramePieces.

Context {HL : Type}.

(** [playIntro()] when the game has not crashed. *)
Definition introPure (r : Runner.t HL) : Runner.t HL :=
  if negb (Runner.started r) && negb (Runner.crashed r) then
    Runner.set_started true
      (Runner.set_activated true
         (Runner.set_tRex (Trex.set_playingIntro true (Runner.tRex r))
            (Runner.set_playingIntro true r)))
  else r.

(** The time step that the frame uses after the intro test. *)
Definition frameDelta (deltaTime : Q) (r : Runner.t HL) : Q :=
  if Runner.playingIntro r then deltaTime
  else if negb (Runner.started r) then 0%Q else deltaTime.

(** The branch without collision: distance and speed. *)
Definition advance (deltaTime : Q) (r : Runner.t HL) : Runner.t HL :=
  let r :=
    Runner.set_distanceRan
      (Runner.distanceRan r +
       Runner.currentSpeed r * deltaTime / Runner.msPerFrame r)%Q r in
  if JS.ltb (Runner.currentSpeed r) (RunnerStatic.MAX_SPEED (Runner.config r))
  then Runner.set_currentSpeed
         (Runner.currentSpeed r + RunnerStatic.ACCELERATION (Runner.config r))%Q r
  else r.

(** The reset of the distance beyond the capacity of the meter. *)
Definition wrapDistance (r : Runner.t HL) : Runner.t HL :=
  if DistanceMeter.getActualDistance (Some (Runner.distanceRan r))
       (Runner.distanceMeter r)
     >? DistanceMeter.maxScore (Runner.distanceMeter r)
  then Runner.set_distanceRan 0 r else r.

(** The update of the distance meter. *)
Definition showDistance (deltaTime : Q) (r : Runner.t HL) : Runner.t HL :=
  Runner.set_distanceMeter
    (fst (DistanceMeter.update deltaTime
            (Some (num (JS.ceil (Runner.distanceRan r))))
            (Runner.distanceMeter r))) r.

(** What [gameOver()] makes of a runner, given the t-rex after its
    update to the crashed status and the time stamp taken at the end. *)
Definition crashedRunner (tRex : Trex.t) (now : Q) (r : Runner.t HL)
  : Runner.t HL :=
  let r := Runner.stop r in
  let r := Runner.set_crashed true r in
  let r := Runner.set_distanceMeter
             (DistanceMeter.set_acheivement false (Runner.distanceMeter r)) r in
  let r := Runner.set_tRex tRex r in
  let r := if negb (Runner.gameOverPanel r)
           then Runner.set_gameOverPanel true r else r in
  let r :=
    if JS.gtb (Runner.distanceRan r) (num (Runner.highestScore r)) then
      let r := Runner.set_highestScore (JS.ceil (Runner.distanceRan r)) r in
      Runner.set_distanceMeter
        (DistanceMeter.setHighScore (num (Runner.highestScore r))
           (Runner.distanceMeter r)) r
    else r in
  Runner.set_time now r.

(** The time step of a frame and the runner at its start, in a world. *)
Definition frameTime (r : Runner.t HL) (w : World) : Q :=
  let now := clock w (ticks w) in
  (now - (if JS.truthy (Runner.time r) then Runner.time r else now))%Q.

Definition frameStart (r : Runner.t HL) (w : World) : Runner.t HL :=
  Runner.set_time (clock w (ticks w)) (Runner.set_drawPending false r).

(** What a frame of the running game may do to the fields of a runner
    that had not crashed: [rA] and [dt'] are the runner and the time step
    after the frame. *)
Definition frameEffect (r : Runner.t HL) (deltaTime : Q)
    (rA : Runner.t HL) (dt' : Q) : Prop :=
  Runner.drawPending rA = Runner.drawPending r /\
  Runner.runningTime rA = (Runner.runningTime r + deltaTime)%Q /\
  Runner.config rA = Runner.config r /\
  Runner.msPerFrame rA = Runner.msPerFrame r /\
  (Runner.started r = true -> dt' = deltaTime) /\
  (DistanceMeter.getActualDistance (Some (Runner.distanceRan rA))
     (Runner.distanceMeter rA)
   <= Z.max 0 (DistanceMeter.maxScore (Runner.distanceMeter rA)))%Z /\
  (Runner.crashed rA = false ->
   Runner.raqId rA = Runner.raqId r /\
   Runner.highestScore rA = Runner.highestScore r /\
   (Runner.activated r = true -> Runner.activated rA = true) /\
   ((JS.ltb (Runner.currentSpeed r)
       (RunnerStatic.MAX_SPEED (Runner.config r)) = false /\
     Runner.currentSpeed rA = Runner.currentSpeed r) \/
    (JS.ltb (Runner.currentSpeed r)
       (RunnerStatic.MAX_SPEED (Runner.config r)) = true /\
     Runner.currentSpeed rA =
       (Runner.currentSpeed r +
        RunnerStatic.ACCELERATION (Runner.config r))%Q)) /\
   (Runner.distanceRan rA = 0%Q \/
    Runner.distanceRan rA =
      (Runner.distanceRan r +
       Runner.currentSpeed r * dt' / Runner.msPerFrame r)%Q)) /\
  (Runner.crashed rA = true ->
   JS.gtb (Runner.runningTime r + deltaTime)
     (RunnerStatic.CLEAR_TIME (Runner.config r)) = true /\
   Runner.raqId rA = 0%Z /\
   Runner.activated rA = false /\
   Runner.paused rA = true /\
   Trex.status (Runner.tRex rA) = Trex.CRASHED /\
   Runner.currentSpeed rA = Runner.currentSpeed r /\
   (Runner.highestScore r <= Runner.highestScore rA)%Z /\
   (Runner.distanceRan r <= num (Runner.highestScore rA))%Q /\
   (Runner.distanceRan rA = 0%Q \/
    Runner.distanceRan rA = Runner.distanceRan r)).

End FramePieces.

(** A game under way, built from the fresh one: activated and past the
    intro; and the same with a large cactus on the t-rex, past the clear
    time. *)
Definition startedRunner : Runner.t unit :=
  Runner.set_time 10 (Runner.set_started true (Runner.set_activated true freshRunner)).

Definition crashingRunner : Runner.t unit :=
  Runner.set_runningTime 4000
    (Runner.set_distanceRan 1000
       (Runner.set_horizon
          (Horizon.set_obstacles [nearCactus] (Runner.horizon startedRunner))
          startedRunner)).

(** The game after the frame in which the t-rex hits the cactus, and a
    touch on the container. *)
Definition crashedGame : Runner.t unit * World :=
  Runner.update (H := flatLine) crashingRunner (snd freshGame).

Definition touchStart : Runner.Event :=
  {| Runner.type := Runner.TOUCHSTART; Runner.keyCode := None;
     Runner.target := Runner.CanvasEl;
     Runner.currentTarget := Runner.ContainerEl |}.

(** * Properties *)

(** ** Arithmetic and the random source *)

Section Arithmetic.

Local Open Scope Q_scope.

Lemma ltb_spec (a b : Q) : JS.ltb a b = true <-> a < b.
Proof.
  unfold JS.ltb. rewrite negb_true_iff.
  destruct (Qle_bool b a) eqn:E.
  - apply Qle_bool_iff in E. split; [discriminate | intros L; exfalso; lra].
  - split; [intros _ | reflexivity].
    apply Qnot_le_lt. intros L. apply Qle_bool_iff in L. congruence.
Qed.

Lemma ltb_false (a b : Q) : JS.ltb a b = false <-> b <= a.
Proof.
  unfold JS.ltb. rewrite negb_false_iff. apply Qle_bool_iff.
Qed.

Lemma floor_nonneg (a : Q) : 0 <= a -> (0 <= JS.floor a)%Z.
Proof.
  intros L. unfold JS.floor. apply (Qfloor_resp_le 0 a) in L. exact L.
Qed.

Lemma floor_below (a : Q) (n : Z) : a < num n -> (JS.floor a < n)%Z.
Proof.
  intros L. unfold JS.floor.
  pose proof (Qfloor_le a) as F.
  assert (num (Qfloor a) < num n) as G by lra.
  rewrite <- Zlt_Qlt in G. exact G.
Qed.

Lemma round_lower (n : Z) (a : Q) : num n <= a -> (n <= JS.round a)%Z.
Proof.
  intros L. unfold JS.round.
  rewrite <- (Qfloor_Z n). apply Qfloor_resp_le. lra.
Qed.

End Arithmetic.

Lemma random_ok_mathRandom (w : World) :
  random_ok w -> random_ok (snd (mathRandom w)).
Proof. intros R i. apply (R i). Qed.

(** [getRandomNum(min, max)] stays between its bounds. *)
Lemma getRandomNum_range (min max : Z) (w : World) :
  random_ok w -> min <= max ->
  min <= fst (getRandomNum min max w) <= max /\
  random_ok (snd (getRandomNum min max w)).
Proof.
  intros R L. unfold getRandomNum, bind, ret, mathRandom. cbn [fst snd].
  destruct (R (draws w)) as [R0 R1].
  assert (0 <= num (max - min + 1))%Q as N.
  { rewrite <- (Zle_Qle 0). lia. }
  split; [split |].
  - pose proof (floor_nonneg (random w (draws w) * num (max - min + 1))) as F.
    assert (0 <= random w (draws w) * num (max - min + 1))%Q as P
      by (apply Qmult_le_0_compat; assumption).
    specialize (F P). lia.
  - assert (JS.floor (random w (draws w) * num (max - min + 1))
            < max - min + 1) as F.
    { apply floor_below.
      assert (0 < num (max - min + 1))%Q as N'.
      { rewrite <- (Zlt_Qlt 0). lia. }
      nra. }
    lia.
  - intros i. apply (R i).
Qed.

(** ** Obstacles *)

Section ObstacleFacts.

Local Open Scope Q_scope.

Lemma adjustCollisionBoxes_fields (o o' : Obstacle.t) :
  Obstacle.adjustCollisionBoxes o = Some o' ->
  Obstacle.typeConfig o' = Obstacle.typeConfig o /\
  Obstacle.gapCoefficient o' = Obstacle.gapCoefficient o /\
  Obstacle.size o' = Obstacle.size o /\
  Obstacle.remove o' = Obstacle.remove o /\
  Obstacle.xPos o' = Obstacle.xPos o /\
  Obstacle.width o' = Obstacle.width o /\
  Obstacle.gap o' = Obstacle.gap o /\
  Obstacle.followingObstacleCreated o' = Obstacle.followingObstacleCreated o.
Proof.
  unfold Obstacle.adjustCollisionBoxes.
  destruct (Obstacle.size o >? 1)%Z.
  - destruct (Obstacle.collisionBoxes o !! 0%nat); [| discriminate].
    destruct (Obstacle.collisionBoxes o !! 1%nat); [| discriminate].
    destruct (Obstacle.collisionBoxes o !! 2%nat); [| discriminate].
    cbn. intros E. injection E as <-. cbn. repeat split.
  - intros E. injection E as <-. repeat split.
Qed.

(** What a successful [init] yields. *)
Lemma init_inv (dimensions : RunnerStatic.Dimensions) (speed : Q)
    (o0 o : Obstacle.t) (w w' : World) :
  Obstacle.init dimensions speed o0 w = (Some o, w') ->
  Obstacle.typeConfig o = Obstacle.typeConfig o0 /\
  Obstacle.size o =
    sizeAtSpeed (Obstacle.typeConfig o0) speed (Obstacle.size o0) /\
  Obstacle.width o =
    (ObstacleType.width (Obstacle.typeConfig o0) * Obstacle.size o)%Z /\
  Obstacle.xPos o = (RunnerStatic.WIDTH dimensions - Obstacle.width o)%Z /\
  Obstacle.gap o =
    fst (getRandomNum (gapFloor (Obstacle.gapCoefficient o0) speed o)
           (JS.round (num (gapFloor (Obstacle.gapCoefficient o0) speed o) *
                      Obstacle.MAX_GAP_COEFFICIENT)) w) /\
  Obstacle.remove o = Obstacle.remove o0 /\
  Obstacle.followingObstacleCreated o = Obstacle.followingObstacleCreated o0.
Proof.
  destruct o0 as [ty gc sz rm xp yp wd bx gp fl].
  unfold Obstacle.init, sizeAtSpeed. cbn.
  destruct ((sz >? 1)%Z && JS.gtb (num (ObstacleType.multipleSpeed ty)) speed);
    cbn;
    match goal with
    | |- context [Obstacle.adjustCollisionBoxes ?a] =>
        destruct (Obstacle.adjustCollisionBoxes a) as [adj |] eqn:Ha
    end;
    try (unfold ret; intros E; discriminate);
    apply adjustCollisionBoxes_fields in Ha; cbn in Ha;
    destruct Ha as (Ht & Hg & Hz & Hr & Hx & Hw & _ & Hf);
    unfold bind, ret, Obstacle.getGap;
    rewrite Hg, Ht, Hw;
    match goal with
    | |- context [getRandomNum ?a ?b w] =>
        destruct (getRandomNum a b w) as [g w2] eqn:Hgap
    end;
    intros E; injection E as <- <-;
    unfold gapFloor; cbn;
    rewrite Ht, Hz, Hr, Hx, Hw, Hf, Hgap; cbn; repeat split.
Qed.

(** What a successful construction yields. *)
Lemma new_inv (type : ObstacleType.t) (dimensions : RunnerStatic.Dimensions)
    (gapCoefficient speed : Q) (w w' : World) (o : Obstacle.t) :
  Obstacle.new type dimensions gapCoefficient speed w = (Some o, w') ->
  let drawn := getRandomNum 1 Obstacle.MAX_OBSTACLE_LENGTH w in
  Obstacle.typeConfig o = type /\
  Obstacle.size o = sizeAtSpeed type speed (fst drawn) /\
  Obstacle.width o = (ObstacleType.width type * Obstacle.size o)%Z /\
  Obstacle.xPos o = (RunnerStatic.WIDTH dimensions - Obstacle.width o)%Z /\
  Obstacle.gap o =
    fst (getRandomNum (gapFloor gapCoefficient speed o)
           (JS.round (num (gapFloor gapCoefficient speed o) *
                      Obstacle.MAX_GAP_COEFFICIENT))
           (snd drawn)) /\
  Obstacle.remove o = false /\
  Obstacle.followingObstacleCreated o = false.
Proof.
  unfold Obstacle.new, bind.
  destruct (getRandomNum 1 Obstacle.MAX_OBSTACLE_LENGTH w) as [drawn w1].
  intros E. apply init_inv in E. cbn in E. cbn. exact E.
Qed.


Lemma sizeAtSpeed_range (type : ObstacleType.t) (speed : Q) (drawn : Z) :
  (1 <= drawn <= 3)%Z -> (1 <= sizeAtSpeed type speed drawn <= 3)%Z.
Proof.
  intros R. unfold sizeAtSpeed.
  destruct ((drawn >? 1)%Z && JS.gtb (num (ObstacleType.multipleSpeed type)) speed);
    lia.
Qed.

Lemma steadyWorld_ok : random_ok steadyWorld.
Proof. intros i. cbn. split; [discriminate | reflexivity]. Qed.

(** The size of a constructed obstacle. *)
Lemma new_size (type : ObstacleType.t) (dimensions : RunnerStatic.Dimensions)
    (gapCoefficient speed : Q) (w w' : World) (o : Obstacle.t) :
  random_ok w ->
  Obstacle.new type dimensions gapCoefficient speed w = (Some o, w') ->
  (1 <= Obstacle.size o <= 3)%Z /\
  (speed < num (ObstacleType.multipleSpeed type) -> Obstacle.size o = 1%Z).
Proof.
  intros R E. apply new_inv in E. destruct E as (_ & Hs & _).
  destruct (getRandomNum_range 1 Obstacle.MAX_OBSTACLE_LENGTH w R) as [D _];
    [unfold Obstacle.MAX_OBSTACLE_LENGTH; lia |].
  unfold Obstacle.MAX_OBSTACLE_LENGTH in *.
  rewrite Hs. split.
  - apply sizeAtSpeed_range. exact D.
  - intros L. unfold sizeAtSpeed, JS.gtb.
    apply ltb_spec in L. rewrite L.
    destruct (fst (getRandomNum 1 3 w) >? 1)%Z eqn:G; [reflexivity |].
    cbn. rewrite Z.gtb_ltb in G. apply Z.ltb_ge in G. lia.
Qed.

(** C6: every constructed obstacle has a size between 1 and 3, and the
    size is 1 whenever the speed is below the [multipleSpeed] threshold of
    its type, whatever was drawn. *)
Theorem size_bounded_and_single_below_threshold
    (type : ObstacleType.t) (dimensions : RunnerStatic.Dimensions)
    (gapCoefficient speed : Q) (w w' : World) (o : Obstacle.t) :
  random_ok w ->
  Obstacle.new type dimensions gapCoefficient speed w = (Some o, w') ->
  (1 <= Obstacle.size o <= 3)%Z /\
  (speed < num (ObstacleType.multipleSpeed type) -> Obstacle.size o = 1%Z).
Proof. apply new_size. Qed.

Lemma size_bounded_and_single_below_threshold_witness :
  exists o w',
    Obstacle.new Obstacle.CACTUS_LARGE RunnerStatic.defaultDimensions
      0.6 5 steadyWorld = (Some o, w') /\
    (1 <= Obstacle.size o <= 3)%Z /\
    (5 < num (ObstacleType.multipleSpeed Obstacle.CACTUS_LARGE) ->
     Obstacle.size o = 1%Z).
Proof.
  eexists. eexists. split; [vm_compute; reflexivity |].
  eapply (size_bounded_and_single_below_threshold Obstacle.CACTUS_LARGE
            RunnerStatic.defaultDimensions 0.6 5 steadyWorld).
  - exact steadyWorld_ok.
  - vm_compute. reflexivity.
Defined.

(** C1: the gap of every constructed obstacle lies between the rounded
    lower bound [round(width * speed + minGap * gapCoefficient)] and
    [round(1.5 * lower bound)], the width being the grouped width. *)
Theorem gap_between_bounds
    (type : ObstacleType.t) (dimensions : RunnerStatic.Dimensions)
    (gapCoefficient speed : Q) (w w' : World) (o : Obstacle.t) :
  random_ok w ->
  0 <= speed -> 0 <= gapCoefficient ->
  (0 <= ObstacleType.width type)%Z -> (0 <= ObstacleType.minGap type)%Z ->
  Obstacle.new type dimensions gapCoefficient speed w = (Some o, w') ->
  let lower :=
    JS.round (num (Obstacle.width o) * speed +
              num (ObstacleType.minGap type) * gapCoefficient) in
  Obstacle.width o = (ObstacleType.width type * Obstacle.size o)%Z /\
  (lower <= Obstacle.gap o <= JS.round (num lower * 1.5))%Z.
Proof.
  intros R Hs Hc Hw Hm E lower.
  destruct (new_size _ _ _ _ _ _ _ R E) as [Hsize _].
  apply new_inv in E. destruct E as (Ht & _ & Hwd & _ & Hg & _).
  split; [exact Hwd |].
  assert (lower = gapFloor gapCoefficient speed o) as Hl
    by (unfold lower, gapFloor; rewrite Ht; reflexivity).
  rewrite <- Hl in Hg. unfold Obstacle.MAX_GAP_COEFFICIENT in Hg.
  destruct (getRandomNum_range 1 Obstacle.MAX_OBSTACLE_LENGTH w R) as [_ R1];
    [unfold Obstacle.MAX_OBSTACLE_LENGTH; lia |].
  assert (0 <= lower)%Z as L0.
  { apply round_lower.
    assert (0 <= num (Obstacle.width o)) as W0.
    { rewrite <- (Zle_Qle 0). rewrite Hwd. nia. }
    assert (0 <= num (ObstacleType.minGap type)) as M0
      by (rewrite <- (Zle_Qle 0); exact Hm).
    change (num 0) with 0. nra. }
  assert (lower <= JS.round (num lower * 1.5))%Z as L1.
  { apply round_lower.
    assert (0 <= num lower) as Q0 by (rewrite <- (Zle_Qle 0); exact L0).
    lra. }
  rewrite Hg.
  apply (getRandomNum_range lower (JS.round (num lower * 1.5)) _ R1 L1).
Qed.

Lemma gap_between_bounds_witness :
  exists o w',
    Obstacle.new Obstacle.CACTUS_SMALL RunnerStatic.defaultDimensions
      0.6 6 steadyWorld = (Some o, w') /\
    Obstacle.width o =
      (ObstacleType.width Obstacle.CACTUS_SMALL * Obstacle.size o)%Z /\
    (JS.round (num (Obstacle.width o) * 6 +
               num (ObstacleType.minGap Obstacle.CACTUS_SMALL) * 0.6)
     <= Obstacle.gap o
     <= JS.round
          (num (JS.round (num (Obstacle.width o) * 6 +
                          num (ObstacleType.minGap Obstacle.CACTUS_SMALL) * 0.6))
           * 1.5))%Z.
Proof.
  eexists. eexists. split; [vm_compute; reflexivity |].
  eapply (gap_between_bounds Obstacle.CACTUS_SMALL
            RunnerStatic.defaultDimensions 0.6 6 steadyWorld).
  - exact steadyWorld_ok.
  - discriminate.
  - discriminate.
  - discriminate.
  - discriminate.
  - vm_compute. reflexivity.
Defined.

End ObstacleFacts.

Section SpawnFacts.

(** A type with at least three collision boxes can always be built. *)
Lemma new_total (type : ObstacleType.t) (dimensions : RunnerStatic.Dimensions)
    (gapCoefficient speed : Q) (w : World) :
  (3 <= length (ObstacleType.collisionBoxes type))%nat ->
  exists o w',
    Obstacle.new type dimensions gapCoefficient speed w = (Some o, w').
Proof.
  intros L. unfold Obstacle.new, bind.
  destruct (getRandomNum 1 Obstacle.MAX_OBSTACLE_LENGTH w) as [drawn w1].
  destruct type as [nm wd ht yp ms mg boxes]. cbn in L.
  destruct boxes as [| b0 [| b1 [| b2 rest]]]; cbn in L; try lia.
  unfold Obstacle.init. cbn.
  destruct ((drawn >? 1) && JS.gtb (num ms) speed); cbn;
    unfold Obstacle.adjustCollisionBoxes; cbn;
    try match goal with
    | |- context [if ?c then _ else _] => destruct c
    end; cbn; unfold bind, ret, Obstacle.getGap;
    match goal with
    | |- context [getRandomNum ?a ?b ?c] => destruct (getRandomNum a b c)
    end; eauto.
Qed.

Lemma new_catalog_total (type : ObstacleType.t)
    (dimensions : RunnerStatic.Dimensions) (gapCoefficient speed : Q)
    (w : World) :
  In type Obstacle.types ->
  exists o w',
    Obstacle.new type dimensions gapCoefficient speed w = (Some o, w').
Proof.
  intros [<- | [<- | []]]; apply new_total; cbn; lia.
Qed.

(** C9, as stated, fails: a small cactus built for the default 600 pixel
    area starts at column 583, inside the area. *)
Lemma spawn_off_screen_counterexample :
  ~ (forall type dimensions gapCoefficient speed w w' o,
       random_ok w ->
       Obstacle.new type dimensions gapCoefficient speed w = (Some o, w') ->
       Obstacle.xPos o = RunnerStatic.WIDTH dimensions - Obstacle.width o /\
       offScreen (RunnerStatic.WIDTH dimensions) o).
Proof.
  intros C.
  destruct (Obstacle.new Obstacle.CACTUS_SMALL RunnerStatic.defaultDimensions
              0.6 6 steadyWorld) as [[o |] w'] eqn:E;
    [| vm_compute in E; discriminate].
  destruct (C _ _ _ _ _ _ _ steadyWorld_ok E) as [_ Off].
  vm_compute in E. injection E as <- _.
  apply (Off 590); unfold covers, insideGameArea; cbn; unfold DEFAULT_WIDTH; lia.
Qed.

(** C9, amended: a new obstacle starts at [screenWidth - width], its right
    edge on the right border of the game area; when its width is positive
    and fits the area it lies inside the area and is visible. *)
Theorem spawn_flush_with_right_border
    (type : ObstacleType.t) (dimensions : RunnerStatic.Dimensions)
    (gapCoefficient speed : Q) (w w' : World) (o : Obstacle.t) :
  Obstacle.new type dimensions gapCoefficient speed w = (Some o, w') ->
  let screenWidth := RunnerStatic.WIDTH dimensions in
  Obstacle.width o = ObstacleType.width type * Obstacle.size o /\
  Obstacle.xPos o = screenWidth - Obstacle.width o /\
  Obstacle.xPos o + Obstacle.width o = screenWidth /\
  (0 < Obstacle.width o <= screenWidth ->
   (forall p, covers o p -> insideGameArea screenWidth p) /\
   ~ offScreen screenWidth o /\
   Obstacle.isVisible o = true).
Proof.
  intros E screenWidth. apply new_inv in E.
  destruct E as (_ & _ & Hw & Hx & _).
  fold screenWidth in Hx.
  split; [exact Hw |]. split; [exact Hx |]. split; [lia |].
  intros [W0 W1]. split; [| split].
  - intros p [P0 P1]. unfold insideGameArea. lia.
  - intros Off. apply (Off (Obstacle.xPos o)).
    + unfold covers. lia.
    + unfold insideGameArea. lia.
  - unfold Obstacle.isVisible. apply Z.gtb_gt. lia.
Qed.

Lemma spawn_flush_with_right_border_witness :
  exists o w',
    Obstacle.new Obstacle.CACTUS_SMALL RunnerStatic.defaultDimensions
      0.6 6 steadyWorld = (Some o, w') /\
    Obstacle.width o =
      ObstacleType.width Obstacle.CACTUS_SMALL * Obstacle.size o /\
    Obstacle.xPos o = 600 - Obstacle.width o /\
    Obstacle.xPos o + Obstacle.width o = 600 /\
    (0 < Obstacle.width o <= 600 ->
     (forall p, covers o p -> insideGameArea 600 p) /\
     ~ offScreen 600 o /\
     Obstacle.isVisible o = true).
Proof.
  eexists. eexists. split; [vm_compute; reflexivity |].
  eapply (spawn_flush_with_right_border Obstacle.CACTUS_SMALL
            RunnerStatic.defaultDimensions 0.6 6 steadyWorld).
  vm_compute. reflexivity.
Defined.

End SpawnFacts.

(** ** Collision detection *)

Section CollisionFacts.

Lemma boxCompare_overlap (a b : CollisionBox.t) :
  boxCompare a b = true <-> overlap a b.
Proof.
  unfold boxCompare, overlap.
  destruct (CollisionBox.x a <? CollisionBox.x b + CollisionBox.width b) eqn:E1;
  destruct (CollisionBox.x a + CollisionBox.width a >? CollisionBox.x b) eqn:E2;
  destruct (CollisionBox.y a <? CollisionBox.y b + CollisionBox.height b) eqn:E3;
  destruct (CollisionBox.height a + CollisionBox.y a >? CollisionBox.y b) eqn:E4;
  cbn;
  rewrite ?Z.gtb_ltb in *;
  rewrite ?Z.ltb_lt, ?Z.ltb_ge in *;
  (split; [intros; try discriminate; lia | intros; try reflexivity; lia]).
Qed.

Lemma outer_boxes_are_trimmed (obstacle : Obstacle.t) (tRex : Trex.t) :
  tRexOuterBox tRex = trim (tRexSprite tRex) /\
  obstacleOuterBox obstacle = trim (obstacleSprite obstacle).
Proof. split; reflexivity. Qed.

(** C7: when the trimmed bounding boxes of the t-rex and the obstacle do
    not overlap, [checkForCollision] answers "no collision" and the only
    boxes it touches are the two outer ones: with a debug canvas, exactly
    these two are stroked, none of the per-box pairs. *)
Theorem coarse_rejection_sound (obstacle : Obstacle.t) (tRex : Trex.t)
    (opt_canvasCtx : option Canvas) :
  ~ overlap (trim (tRexSprite tRex)) (trim (obstacleSprite obstacle)) ->
  checkForCollision obstacle tRex opt_canvasCtx =
    (None,
     match opt_canvasCtx with
     | Some ctx =>
         Some (ctx ++ [(Red, trim (tRexSprite tRex));
                       (Green, trim (obstacleSprite obstacle))])
     | None => None
     end).
Proof.
  intros N. unfold checkForCollision.
  destruct (boxCompare (tRexOuterBox tRex) (obstacleOuterBox obstacle)) eqn:E.
  - apply boxCompare_overlap in E. contradiction.
  - destruct opt_canvasCtx; reflexivity.
Qed.

Lemma coarse_rejection_sound_witness :
  ~ overlap (trim (tRexSprite standingTrex)) (trim (obstacleSprite farCactus)) /\
  checkForCollision farCactus standingTrex (Some []) =
    (None,
     Some [(Red, trim (tRexSprite standingTrex));
           (Green, trim (obstacleSprite farCactus))]).
Proof.
  assert (~ overlap (trim (tRexSprite standingTrex))
            (trim (obstacleSprite farCactus))) as N.
  { unfold overlap. vm_compute. intros (H1 & H2 & _). discriminate H2. }
  split; [exact N |].
  exact (coarse_rejection_sound farCactus standingTrex (Some []) N).
Defined.

End CollisionFacts.

(** ** Computations *)

Section Always.

Context {A B : Type}.

Lemma always_ret (a : A) (P : A -> Prop) : P a -> always (ret a) P.
Proof. intros H w. exact H. Qed.

Lemma always_bind (c : M A) (k : A -> M B) (P : B -> Prop) :
  always c (fun a => always (k a) P) -> always (bind c k) P.
Proof.
  intros H w. unfold bind. specialize (H w).
  destruct (c w) as [a w1]. apply H.
Qed.

Lemma always_mono (c : M A) (P Q : A -> Prop) :
  always c P -> (forall a, P a -> Q a) -> always c Q.
Proof. intros H I w. apply I, H. Qed.

Lemma always_any (c : M A) (P : A -> Prop) : (forall a, P a) -> always c P.
Proof. intros H w. apply H. Qed.

End Always.

(** ** The t-rex *)

Section TrexFacts.

Local Open Scope Q_scope.

Lemma always_conj {A} (c : M A) (P Q : A -> Prop) :
  always c P -> always c Q -> always c (fun a => P a /\ Q a).
Proof. intros H I w. split; [apply H | apply I]. Qed.

Lemma setBlinkDelay_keeps (P : Trex.t -> Prop) (o : Trex.t) :
  animInvariant P -> P o -> always (Trex.setBlinkDelay o) P.
Proof.
  intros I S. unfold Trex.setBlinkDelay.
  apply always_bind, always_any. intros r.
  apply always_ret. apply (inv_blinkDelay P I), S.
Qed.

Lemma blink_keeps (P : Trex.t -> Prop) (time : Q) (o : Trex.t) :
  animInvariant P -> P o -> always (Trex.blink time o) P.
Proof.
  intros I S. unfold Trex.blink. cbv zeta.
  destruct (JS.leb _ _); [| apply always_ret; exact S].
  destruct (Trex.currentFrame o =? 1)%Z; [| apply always_ret; exact S].
  apply always_bind.
  apply (always_mono _ _ _ (setBlinkDelay_keeps P o I S)).
  intros o1 S1. apply always_ret. apply (inv_animStartTime P I), S1.
Qed.

(** The animation update keeps every predicate that the animation fields
    do not affect, once the new status (if any) is in place. *)
Lemma update_keeps (P : Trex.t -> Prop) (deltaTime : Q)
    (opt_status : option Trex.Status) (o : Trex.t) :
  animInvariant P ->
  P (match opt_status with Some s => Trex.set_status s o | None => o end) ->
  always (Trex.update deltaTime opt_status o) P.
Proof.
  intros I S. unfold Trex.update. cbv zeta.
  apply always_bind. apply always_mono with (P := P).
  - destruct opt_status as [s |].
    + assert (P (Trex.set_currentAnimFrames (Trex.frames (Trex.animFrames s))
                  (Trex.set_msPerFrame (Trex.anim_msPerFrame (Trex.animFrames s))
                     (Trex.set_currentFrame 0
                        (Trex.set_status s
                           (Trex.set_timer (Trex.timer o + deltaTime) o))))))
        as S1.
      { apply (inv_currentAnimFrames P I), (inv_msPerFrame P I),
          (inv_currentFrame P I).
        apply (inv_timer P I _ (Trex.timer o + deltaTime)) in S. exact S. }
      destruct (Trex.is_waiting s); [| apply always_ret; exact S1].
      apply always_bind, always_any. intros now.
      apply setBlinkDelay_keeps; [exact I |].
      apply (inv_animStartTime P I), S1.
    + apply always_ret. apply (inv_timer P I), S.
  - intros o1 S1. apply always_bind. apply always_mono with (P := P).
    + assert (P (if Trex.playingIntro o1 &&
                    (Trex.xPos o1 <? Trex.START_X_POS (Trex.config o1))%Z
                 then Trex.set_xPos
                        (Trex.xPos o1 +
                         JS.round (num (Trex.START_X_POS (Trex.config o1)) /
                                   Trex.INTRO_DURATION (Trex.config o1) *
                                   deltaTime)) o1
                 else o1)) as S2.
      { destruct (Trex.playingIntro o1 && _); [apply (inv_xPos P I) |]; exact S1. }
      match goal with
      | |- always (if ?c then _ else _) _ => destruct c
      end.
      * apply always_bind, always_any. intros now.
        apply blink_keeps; assumption.
      * apply always_ret. exact S2.
    + intros o2 S2. apply always_ret.
      destruct (JS.leb _ _); [| exact S2].
      apply (inv_timer P I), (inv_currentFrame P I), S2.
Qed.

Lemma sameJump_refl (a : Trex.t) : sameJump a a.
Proof. unfold sameJump. repeat split. Qed.

Lemma sameJump_animInvariant (o0 : Trex.t) : animInvariant (sameJump o0).
Proof. split; intros o v S; exact S. Qed.

Lemma status_animInvariant (s : Trex.Status) :
  animInvariant (fun o => Trex.status o = s).
Proof. split; intros o v S; exact S. Qed.

(** The animation update leaves the jump-related fields alone. *)
Lemma update_sameJump (deltaTime : Q) (opt_status : option Trex.Status)
    (o : Trex.t) :
  always (Trex.update deltaTime opt_status o) (sameJump o).
Proof.
  apply update_keeps; [apply sameJump_animInvariant |].
  destruct opt_status; exact (sameJump_refl o).
Qed.

Lemma update_status_kept (deltaTime : Q) (o : Trex.t) :
  always (Trex.update deltaTime None o)
    (fun o' => Trex.status o' = Trex.status o).
Proof. apply update_keeps; [apply status_animInvariant | reflexivity]. Qed.

Lemma update_status_set (deltaTime : Q) (s : Trex.Status) (o : Trex.t) :
  always (Trex.update deltaTime (Some s) o) (fun o' => Trex.status o' = s).
Proof. apply update_keeps; [apply status_animInvariant | reflexivity]. Qed.

End TrexFacts.

(** ** Jumping *)

Section JumpFacts.

Local Open Scope Q_scope.

Lemma endJump_velocity (o : Trex.t) :
  (Trex.reachedMinHeight o = true ->
   Trex.jumpVelocity o < Trex.DROP_VELOCITY (Trex.config o) ->
   Trex.jumpVelocity (Trex.endJump o) = Trex.DROP_VELOCITY (Trex.config o)) /\
  (Trex.reachedMinHeight o = true ->
   Trex.DROP_VELOCITY (Trex.config o) <= Trex.jumpVelocity o ->
   Trex.jumpVelocity (Trex.endJump o) = Trex.jumpVelocity o) /\
  (Trex.reachedMinHeight o = false ->
   Trex.jumpVelocity (Trex.endJump o) = Trex.jumpVelocity o).
Proof.
  unfold Trex.endJump. repeat split.
  - intros -> L. apply ltb_spec in L. rewrite L. reflexivity.
  - intros -> L. apply ltb_false in L. rewrite L. reflexivity.
  - intros ->. reflexivity.
Qed.

(** [endJump] touches the velocity only. *)
Lemma endJump_rest (o : Trex.t) :
  Trex.yPos (Trex.endJump o) = Trex.yPos o /\
  Trex.groundYPos (Trex.endJump o) = Trex.groundYPos o /\
  Trex.config (Trex.endJump o) = Trex.config o /\
  Trex.jumping (Trex.endJump o) = Trex.jumping o /\
  Trex.reachedMinHeight (Trex.endJump o) = Trex.reachedMinHeight o /\
  Trex.speedDrop (Trex.endJump o) = Trex.speedDrop o /\
  Trex.jumpCount (Trex.endJump o) = Trex.jumpCount o /\
  Trex.status (Trex.endJump o) = Trex.status o.
Proof.
  unfold Trex.endJump. destruct (_ && _); repeat split.
Qed.

Lemma capHeight_rest (o : Trex.t) :
  Trex.yPos (Trex.capHeight o) = Trex.yPos o /\
  Trex.groundYPos (Trex.capHeight o) = Trex.groundYPos o /\
  Trex.config (Trex.capHeight o) = Trex.config o /\
  Trex.jumping (Trex.capHeight o) = Trex.jumping o /\
  Trex.reachedMinHeight (Trex.capHeight o) = Trex.reachedMinHeight o /\
  Trex.speedDrop (Trex.capHeight o) = Trex.speedDrop o /\
  Trex.jumpCount (Trex.capHeight o) = Trex.jumpCount o /\
  Trex.status (Trex.capHeight o) = Trex.status o.
Proof.
  unfold Trex.capHeight. destruct (_ || _); [apply endJump_rest | repeat split].
Qed.

(** The integration and the minimum-height mark keep the ground level,
    the configuration, the flags of the jump and the status. *)
Lemma risen_rest (deltaTime : Q) (o : Trex.t) :
  Trex.groundYPos (risen deltaTime o) = Trex.groundYPos o /\
  Trex.config (risen deltaTime o) = Trex.config o /\
  Trex.jumping (risen deltaTime o) = Trex.jumping o /\
  Trex.speedDrop (risen deltaTime o) = Trex.speedDrop o /\
  Trex.jumpCount (risen deltaTime o) = Trex.jumpCount o /\
  Trex.status (risen deltaTime o) = Trex.status o.
Proof.
  unfold risen, Trex.markMinHeight, Trex.integrate. cbv zeta.
  destruct (Trex.speedDrop o) eqn:D; cbn; rewrite ?D; cbn;
    try (destruct (_ <? _)%Z; cbn); repeat split; exact D.
Qed.

(** [reset()] puts the t-rex back on the ground, running. *)
Lemma reset_spec (o : Trex.t) :
  always (Trex.reset o) (fun o' =>
    Trex.yPos o' = Trex.groundYPos o /\
    Trex.groundYPos o' = Trex.groundYPos o /\
    Trex.config o' = Trex.config o /\
    Trex.jumpVelocity o' = 0 /\
    Trex.jumping o' = false /\
    Trex.speedDrop o' = false /\
    Trex.jumpCount o' = 0%Z /\
    Trex.status o' = Trex.RUNNING).
Proof.
  unfold Trex.reset. cbv zeta. apply always_bind.
  eapply always_mono.
  - apply always_conj; [apply update_sameJump | apply update_status_set].
  - cbv beta. intros o1 [S St]. apply always_ret.
    destruct S as (S1 & S2 & _ & S4 & S5 & S6 & _).
    cbn in *. repeat split; congruence.
Qed.

(** A jump update that ends above or on the ground changes nothing after
    the maximum-height test except the animation. *)
Lemma updateJump_airborne (deltaTime : Q) (o : Trex.t) :
  (Trex.yPos (risen deltaTime o) <= Trex.groundYPos o)%Z ->
  always (Trex.updateJump deltaTime o) (fun o' =>
    sameJump (Trex.capHeight (risen deltaTime o)) o' /\
    Trex.status o' = Trex.status o).
Proof.
  intros L. unfold Trex.updateJump. cbv zeta. fold (risen deltaTime o).
  destruct (capHeight_rest (risen deltaTime o)) as (Cy & Cg & _ & _ & _ & _ & _ & Cs).
  destruct (risen_rest deltaTime o) as (Rg & _ & _ & _ & _ & Rs).
  apply always_bind.
  destruct (_ >? _)%Z eqn:G.
  - rewrite Z.gtb_ltb in G. apply Z.ltb_lt in G. lia.
  - apply always_ret.
    eapply always_mono.
    + apply always_conj; [apply update_sameJump | apply update_status_kept].
    + cbv beta. intros o' [S St]. split; [exact S | congruence].
Qed.

(** A jump update that ends below the ground level lands. *)
Lemma updateJump_landing (deltaTime : Q) (o : Trex.t) :
  (Trex.yPos (risen deltaTime o) > Trex.groundYPos o)%Z ->
  always (Trex.updateJump deltaTime o) (fun o' =>
    Trex.yPos o' = Trex.groundYPos o /\
    Trex.groundYPos o' = Trex.groundYPos o /\
    Trex.jumpVelocity o' = 0 /\
    Trex.jumping o' = false /\
    Trex.speedDrop o' = false /\
    Trex.jumpCount o' = 1%Z /\
    Trex.status o' = Trex.RUNNING).
Proof.
  intros L. unfold Trex.updateJump. cbv zeta. fold (risen deltaTime o).
  destruct (capHeight_rest (risen deltaTime o)) as (Cy & Cg & _).
  destruct (risen_rest deltaTime o) as (Rg & _).
  apply always_bind.
  destruct (_ >? _)%Z eqn:G.
  2: { rewrite Z.gtb_ltb in G. apply Z.ltb_ge in G. lia. }
  apply always_bind.
  eapply always_mono; [apply reset_spec |].
  cbv beta. intros o1 (H1 & H2 & H3 & H4 & H5 & H6 & H7 & H8).
  apply always_ret.
  eapply always_mono.
  - apply always_conj; [apply update_sameJump | apply update_status_kept].
  - cbv beta. intros o' [S St].
    destruct S as (S1 & S2 & _ & _ & S5 & S6 & _ & S8 & S9).
    cbn in *. repeat split; try congruence; lia.
Qed.

(** C3, as stated, fails: four frames into a jump the t-rex is at
    [yPos = 57], above [groundYPos - MAX_JUMP_HEIGHT = 63], it has reached
    the minimum height and rises faster than [DROP_VELOCITY], and yet its
    velocity is not brought to [DROP_VELOCITY]. *)
Lemma ascent_capped_below_ground_offset_counterexample :
  let r := risen (1000 / 60) airborneTrex in
  let o' := fst (Trex.updateJump (1000 / 60) airborneTrex steadyWorld) in
  (Trex.yPos r < Trex.groundYPos r - Trex.MAX_JUMP_HEIGHT (Trex.config r))%Z /\
  Trex.speedDrop r = false /\
  Trex.reachedMinHeight r = true /\
  Trex.jumpVelocity r < Trex.DROP_VELOCITY (Trex.config r) /\
  ~ Trex.jumpVelocity o' == Trex.DROP_VELOCITY (Trex.config r).
Proof.
  cbv zeta. split; [| split; [| split; [| split]]].
  - vm_compute. reflexivity.
  - vm_compute. reflexivity.
  - vm_compute. reflexivity.
  - vm_compute. reflexivity.
  - intros E. vm_compute in E. discriminate E.
Qed.

(** C3, amended: in a jump update that does not land, whenever the t-rex
    is above the screen line [yPos = MAX_JUMP_HEIGHT] (the constant itself,
    not an offset from the ground) or speed-drop is active, [endJump] is
    applied: provided the minimum height has been reached, the velocity
    becomes [DROP_VELOCITY] when it was smaller and is kept otherwise. *)
Theorem ascent_capped_at_max_jump_height (deltaTime : Q) (o : Trex.t)
    (w : World) :
  let r := risen deltaTime o in
  let o' := fst (Trex.updateJump deltaTime o w) in
  ((Trex.yPos r < Trex.MAX_JUMP_HEIGHT (Trex.config r))%Z \/
   Trex.speedDrop r = true) ->
  (Trex.yPos r <= Trex.groundYPos r)%Z ->
  (Trex.reachedMinHeight r = true ->
   Trex.jumpVelocity r < Trex.DROP_VELOCITY (Trex.config r) ->
   Trex.jumpVelocity o' = Trex.DROP_VELOCITY (Trex.config r)) /\
  (Trex.reachedMinHeight r = true ->
   Trex.DROP_VELOCITY (Trex.config r) <= Trex.jumpVelocity r ->
   Trex.jumpVelocity o' = Trex.jumpVelocity r) /\
  (Trex.reachedMinHeight r = false ->
   Trex.jumpVelocity o' = Trex.jumpVelocity r).
Proof.
  intros r o' C L.
  destruct (risen_rest deltaTime o) as (Rg & _). fold r in Rg.
  assert (Trex.jumpVelocity o' = Trex.jumpVelocity (Trex.endJump r)) as V.
  { rewrite Rg in L.
    destruct (updateJump_airborne deltaTime o L w) as [S _].
    fold o' in S. fold r in S.
    destruct S as (_ & _ & _ & _ & _ & S6 & _).
    rewrite <- S6. unfold Trex.capHeight.
    destruct C as [C | C].
    - apply Z.ltb_lt in C. rewrite C. reflexivity.
    - rewrite C. rewrite orb_true_r. reflexivity. }
  rewrite V. apply endJump_velocity.
Qed.

Lemma ascent_capped_at_max_jump_height_witness :
  let r := risen (1000 / 30) slowFrameTrex in
  let o' := fst (Trex.updateJump (1000 / 30) slowFrameTrex steadyWorld) in
  (Trex.yPos r < Trex.MAX_JUMP_HEIGHT (Trex.config r))%Z /\
  (Trex.yPos r <= Trex.groundYPos r)%Z /\
  Trex.reachedMinHeight r = true /\
  Trex.jumpVelocity r < Trex.DROP_VELOCITY (Trex.config r) /\
  Trex.jumpVelocity o' = Trex.DROP_VELOCITY (Trex.config r).
Proof.
  cbv zeta.
  assert (Trex.yPos (risen (1000 / 30) slowFrameTrex)
          < Trex.MAX_JUMP_HEIGHT
              (Trex.config (risen (1000 / 30) slowFrameTrex)))%Z
    as C by (vm_compute; reflexivity).
  assert (Trex.yPos (risen (1000 / 30) slowFrameTrex)
          <= Trex.groundYPos (risen (1000 / 30) slowFrameTrex))%Z
    as L by (vm_compute; discriminate).
  assert (Trex.reachedMinHeight (risen (1000 / 30) slowFrameTrex) = true)
    as R by (vm_compute; reflexivity).
  assert (Trex.jumpVelocity (risen (1000 / 30) slowFrameTrex)
          < Trex.DROP_VELOCITY
              (Trex.config (risen (1000 / 30) slowFrameTrex)))
    as V by (vm_compute; reflexivity).
  split; [exact C |]. split; [exact L |]. split; [exact R |].
  split; [exact V |].
  exact (proj1 (ascent_capped_at_max_jump_height (1000 / 30) slowFrameTrex
           steadyWorld (or_introl C) L) R V).
Defined.

End JumpFacts.

(** ** The distance meter *)

Section MeterFacts.

Local Open Scope Q_scope.

(** While the flag is set, the flag is cleared exactly by an update that
    finds more than [FLASH_ITERATIONS] completed cycles. *)
Lemma flash_cleared_iff (deltaTime : Q) (distance : option Q)
    (o : DistanceMeter.t) :
  DistanceMeter.acheivement o = true ->
  (DistanceMeter.acheivement (fst (DistanceMeter.update deltaTime distance o))
     = false <->
   (DistanceMeter.FLASH_ITERATIONS (DistanceMeter.config o)
    < DistanceMeter.flashIterations o)%Z).
Proof.
  intros F. unfold DistanceMeter.update, DistanceMeter.updateCore.
  rewrite F. cbn [negb].
  destruct (_ <=? _)%Z eqn:L.
  - apply Z.leb_le in L. cbv zeta.
    destruct (JS.ltb _ _); [| destruct (JS.gtb _ _)]; cbn; rewrite F;
      (split; [discriminate | lia]).
  - apply Z.leb_gt in L. cbn. split; [intros _; exact L | reflexivity].
Qed.

(** C2: the flash does not end after [FLASH_ITERATIONS = 3] cycles. The
    update that reaches 100 units sets the flag and asks for the sound;
    with 100 ms frames a cycle takes six updates; after 18 updates three
    cycles are complete and the flag is still set; it is cleared only by
    the 25th update, after a fourth cycle. *)
Theorem flash_runs_a_fourth_cycle :
  let after n := meterFrames n 100 (Some 4100) flashingMeter in
  snd (DistanceMeter.update 16 (Some 4000) (DistanceMeter.new 600)) = true /\
  DistanceMeter.acheivement flashingMeter = true /\
  DistanceMeter.flashIterations (after 6%nat) = 1%Z /\
  DistanceMeter.flashIterations (after 12%nat) = 2%Z /\
  DistanceMeter.flashIterations (after 18%nat) = 3%Z /\
  DistanceMeter.acheivement (after 18%nat) = true /\
  DistanceMeter.acheivement (after 19%nat) = true /\
  DistanceMeter.flashIterations (after 24%nat) = 4%Z /\
  DistanceMeter.acheivement (after 24%nat) = true /\
  DistanceMeter.acheivement (after 25%nat) = false.
Proof.
  cbv zeta. repeat (split; [vm_compute; reflexivity |]).
  vm_compute. reflexivity.
Qed.

End MeterFacts.

(** ** The horizon *)

Section HorizonFacts.

Context {HL : Type} `{HorizonLineOps HL}.

Lemma getRandomNum_random (min max : Z) (w : World) :
  random (snd (getRandomNum min max w)) = random w.
Proof. reflexivity. Qed.

(** The constructor leaves the random source in its contract. *)
Lemma new_random_ok (type : ObstacleType.t)
    (dimensions : RunnerStatic.Dimensions) (gapCoefficient speed : Q)
    (w : World) :
  random_ok w ->
  random_ok (snd (Obstacle.new type dimensions gapCoefficient speed w)).
Proof.
  intros R. unfold Obstacle.new, bind.
  destruct (getRandomNum 1 Obstacle.MAX_OBSTACLE_LENGTH w) as [drawn w1] eqn:E.
  assert (random_ok w1) as R1.
  { intros i. pose proof (getRandomNum_random 1 Obstacle.MAX_OBSTACLE_LENGTH w) as G.
    rewrite E in G. cbn in G. unfold random_ok in R. rewrite G. apply R. }
  unfold Obstacle.init. cbv zeta.
  destruct (Obstacle.adjustCollisionBoxes _); [| exact R1].
  unfold bind, ret, Obstacle.getGap. cbv zeta.
  match goal with
  | |- context [getRandomNum ?a ?b w1] =>
      pose proof (getRandomNum_random a b w1) as G;
      destruct (getRandomNum a b w1) as [g w2]
  end.
  cbn in *. intros i. rewrite G. apply R1.
Qed.

(** With the catalog and a random source in its contract,
    [addNewObstacle] appends exactly one new obstacle. *)
Lemma addNewObstacle_pushes (dimensions : RunnerStatic.Dimensions)
    (currentSpeed : Q) (o : Horizon.t HL) (w : World) :
  random_ok w ->
  exists created,
    fst (Horizon.addNewObstacle dimensions currentSpeed o w) =
      Horizon.set_obstacles (Horizon.obstacles o ++ [created]) o /\
    Obstacle.followingObstacleCreated created = false /\
    Obstacle.remove created = false /\
    random_ok (snd (Horizon.addNewObstacle dimensions currentSpeed o w)).
Proof.
  intros R. unfold Horizon.addNewObstacle, bind.
  destruct (getRandomNum_range 0 (Z.of_nat (length Obstacle.types) - 1) w R)
    as [D R1]; [cbn; lia |].
  destruct (getRandomNum 0 (Z.of_nat (length Obstacle.types) - 1) w)
    as [index w1].
  cbn [fst snd] in D, R1. cbn in D.
  assert (exists type,
            (if 0 <=? index then Obstacle.types !! Z.to_nat index else None)
              = Some type /\ In type Obstacle.types) as (type & -> & T).
  { assert (index = 0 \/ index = 1) as [-> | ->] by lia; cbn.
    - eexists; split; [reflexivity | left; reflexivity].
    - eexists; split; [reflexivity | right; left; reflexivity]. }
  destruct (new_catalog_total type dimensions (Horizon.gapCoefficient o)
              currentSpeed w1 T) as (created & w2 & E).
  pose proof (new_random_ok type dimensions (Horizon.gapCoefficient o)
                currentSpeed w1 R1) as R2.
  pose proof (new_inv _ _ _ _ _ _ _ E) as (_ & _ & _ & _ & _ & Hr & Hf).
  rewrite E in *. cbn [fst snd] in *.
  exists created. unfold ret. cbn.
  split; [reflexivity |]. split; [exact Hf |]. split; [exact Hr | exact R2].
Qed.

(** An obstacle keeps its follower flag when it moves, and a flagged
    obstacle is never due again. *)
Lemma update_keeps_follower_flag (deltaTime speed : Q) (o : Obstacle.t) :
  Obstacle.followingObstacleCreated (Obstacle.update deltaTime speed o) =
  Obstacle.followingObstacleCreated o.
Proof.
  unfold Obstacle.update. destruct (negb (Obstacle.remove o)); [| reflexivity].
  cbv zeta. destruct (negb (Obstacle.isVisible _)); reflexivity.
Qed.

Lemma flagged_never_due (dimensions : RunnerStatic.Dimensions)
    (o : Obstacle.t) :
  Obstacle.followingObstacleCreated o = true ->
  Horizon.followerDue dimensions o = false.
Proof. intros F. unfold Horizon.followerDue. rewrite F. reflexivity. Qed.

Lemma followerDue_spec (dimensions : RunnerStatic.Dimensions)
    (o : Obstacle.t) :
  Horizon.followerDue dimensions o = true <->
  Obstacle.followingObstacleCreated o = false /\
  Obstacle.isVisible o = true /\
  Obstacle.xPos o + Obstacle.width o + Obstacle.gap o
    < RunnerStatic.WIDTH dimensions.
Proof.
  unfold Horizon.followerDue.
  rewrite !andb_true_iff, negb_true_iff, Z.ltb_lt. tauto.
Qed.

Lemma last_lookup_pred (l : list Obstacle.t) (x : Obstacle.t) :
  list.last l = Some x ->
  (0 <? length l)%nat = true /\ l !! (length l - 1)%nat = Some x.
Proof.
  intros L. rewrite last_lookup in L.
  destruct l as [| a l]; [discriminate |].
  split; [reflexivity |].
  cbn [length] in *. rewrite Nat.sub_1_r. cbn [Nat.pred] in *.
  replace (S (length l) - 1)%nat with (length l) by lia. exact L.
Qed.

(** C5, amended: every obstacle update creates at most one obstacle. When
    the list left after the removal of the expired obstacles is not empty,
    an obstacle is created exactly when the last obstacle of that list has
    no follower yet, is visible and has
    [xPos + width + gap < screenWidth]; then exactly one obstacle is
    appended and the flag of that last obstacle is set, otherwise the list
    is left as it is; a flagged obstacle is never due again, however it
    moves afterwards. When the removal leaves the list empty, exactly one
    obstacle is created, without any condition. *)
Theorem follower_scheduled_at_most_once
    (dimensions : RunnerStatic.Dimensions) (deltaTime currentSpeed : Q)
    (o : Horizon.t HL) (w : World) :
  random_ok w ->
  let survivors :=
    Horizon.shiftRemoved
      (map (Obstacle.update deltaTime currentSpeed) (Horizon.obstacles o)) in
  let after :=
    Horizon.obstacles
      (fst (Horizon.updateObstacles dimensions deltaTime currentSpeed o w)) in
  (length survivors <= length after <= length survivors + 1)%nat /\
  (forall lastObstacle,
     list.last survivors = Some lastObstacle ->
     (Horizon.followerDue dimensions lastObstacle = true <->
      Obstacle.followingObstacleCreated lastObstacle = false /\
      Obstacle.isVisible lastObstacle = true /\
      Obstacle.xPos lastObstacle + Obstacle.width lastObstacle +
        Obstacle.gap lastObstacle < RunnerStatic.WIDTH dimensions) /\
     (Horizon.followerDue dimensions lastObstacle = true ->
      exists created,
        after =
          <[(length survivors - 1)%nat :=
              Obstacle.set_followingObstacleCreated true lastObstacle]>
            survivors
          ++ [created] /\
        Obstacle.followingObstacleCreated created = false) /\
     (Horizon.followerDue dimensions lastObstacle = false ->
      after = survivors) /\
     (forall dimensions' deltaTime' speed',
        Horizon.followerDue dimensions'
          (Obstacle.update deltaTime' speed'
             (Obstacle.set_followingObstacleCreated true lastObstacle))
        = false)) /\
  (survivors = [] ->
   exists created,
     after = [created] /\
     Obstacle.followingObstacleCreated created = false /\
     Obstacle.remove created = false).
Proof.
  intros R survivors after.
  assert (forall lastObstacle,
            list.last survivors = Some lastObstacle ->
            (Horizon.followerDue dimensions lastObstacle = true ->
             exists created,
               after =
                 <[(length survivors - 1)%nat :=
                     Obstacle.set_followingObstacleCreated true lastObstacle]>
                   survivors
                 ++ [created] /\
               Obstacle.followingObstacleCreated created = false) /\
            (Horizon.followerDue dimensions lastObstacle = false ->
             after = survivors)) as Cases.
  { intros lastObstacle L.
    destruct (last_lookup_pred survivors lastObstacle L) as [N K].
    unfold after, Horizon.updateObstacles. cbv zeta.
    fold survivors. cbn [Horizon.obstacles Horizon.set_obstacles].
    rewrite N, K. split.
    - intros D. rewrite D. unfold bind.
      destruct (addNewObstacle_pushes dimensions currentSpeed
                  (Horizon.set_obstacles survivors o) w R)
        as (created & E & Hf & _).
      destruct (Horizon.addNewObstacle dimensions currentSpeed
                  (Horizon.set_obstacles survivors o) w) as [o1 w1].
      cbn [fst] in E. subst o1. exists created. split; [| exact Hf].
      unfold ret. cbn [fst Horizon.obstacles Horizon.set_obstacles].
      unfold Horizon.markFollower.
      assert ((survivors ++ [created]) !! (length survivors - 1)%nat
              = Some lastObstacle) as K'.
      { rewrite lookup_app_l; [exact K |]. apply Nat.ltb_lt in N. lia. }
      rewrite K'. rewrite insert_app_l; [reflexivity |].
      apply Nat.ltb_lt in N. lia.
    - intros D. rewrite D. reflexivity. }
  assert (survivors = [] ->
          exists created,
            after = [created] /\
            Obstacle.followingObstacleCreated created = false /\
            Obstacle.remove created = false) as Empty.
  { intros E. unfold after, Horizon.updateObstacles. cbv zeta.
    fold survivors. cbn [Horizon.obstacles Horizon.set_obstacles].
    rewrite E. cbn [length Nat.ltb Nat.leb].
    destruct (addNewObstacle_pushes dimensions currentSpeed
                (Horizon.set_obstacles [] o) w R)
      as (created & Eq & Hf & Hr & _).
    rewrite Eq. exists created.
    cbn [Horizon.obstacles Horizon.set_obstacles app].
    split; [reflexivity | split; assumption]. }
  split; [| split; [| exact Empty]].
  - destruct (list.last survivors) as [lastObstacle |] eqn:L.
    + destruct (Cases lastObstacle eq_refl) as [Due NotDue].
      destruct (Horizon.followerDue dimensions lastObstacle) eqn:D.
      * destruct (Due eq_refl) as (created & Ea & _). rewrite Ea.
        rewrite length_app, length_insert. cbn [length]. lia.
      * rewrite (NotDue eq_refl). lia.
    + apply last_None in L. destruct (Empty L) as (created & Ea & _).
      rewrite Ea, L. cbn [length]. lia.
  - intros lastObstacle L.
    split; [apply followerDue_spec |].
    destruct (Cases lastObstacle L) as [Due NotDue].
    split; [exact Due |]. split; [exact NotDue |].
    intros dimensions' deltaTime' speed'.
    apply flagged_never_due. rewrite update_keeps_follower_flag. reflexivity.
Qed.

End HorizonFacts.

(** C5, as stated, fails: the only obstacle of the list, still visible
    before the update, leaves the area in this update without ever having
    been due for a follower (its gap reaches beyond the right border); it
    is removed, and a new obstacle is created nevertheless. *)
Lemma follower_created_after_last_expires_counterexample :
  let moved := Obstacle.update 16 6 leavingCactus in
  let after :=
    Horizon.obstacles
      (fst (Horizon.updateObstacles RunnerStatic.defaultDimensions
              16 6 leavingHorizon steadyWorld)) in
  Horizon.obstacles leavingHorizon = [leavingCactus] /\
  Obstacle.isVisible leavingCactus = true /\
  Horizon.followerDue RunnerStatic.defaultDimensions leavingCactus = false /\
  Obstacle.isVisible moved = false /\
  (Obstacle.xPos moved + Obstacle.width moved + Obstacle.gap moved
   <? RunnerStatic.WIDTH RunnerStatic.defaultDimensions) = false /\
  Horizon.followerDue RunnerStatic.defaultDimensions moved = false /\
  map (fun created =>
         (ObstacleType.type (Obstacle.typeConfig created),
          Obstacle.size created, Obstacle.xPos created,
          Obstacle.remove created)) after
    = [("CACTUS_LARGE"%string, 2, 550, false)].
Proof. cbv zeta. repeat split; vm_compute; reflexivity. Qed.

Lemma follower_scheduled_at_most_once_witness :
  let survivors :=
    Horizon.shiftRemoved
      (map (Obstacle.update 16 6) (Horizon.obstacles exampleHorizon)) in
  let after :=
    Horizon.obstacles
      (fst (Horizon.updateObstacles RunnerStatic.defaultDimensions
              16 6 exampleHorizon steadyWorld)) in
  let moved := Obstacle.set_xPos 295 midCactus in
  list.last survivors = Some moved /\
  Horizon.followerDue RunnerStatic.defaultDimensions moved = true /\
  exists created,
    after =
      <[(length survivors - 1)%nat :=
          Obstacle.set_followingObstacleCreated true moved]> survivors
      ++ [created] /\
    Obstacle.followingObstacleCreated created = false.
Proof.
  cbv zeta.
  assert (list.last
            (Horizon.shiftRemoved
               (map (Obstacle.update 16 6) (Horizon.obstacles exampleHorizon)))
          = Some (Obstacle.set_xPos 295 midCactus)) as L
    by (vm_compute; reflexivity).
  assert (Horizon.followerDue RunnerStatic.defaultDimensions
            (Obstacle.set_xPos 295 midCactus) = true) as D
    by (vm_compute; reflexivity).
  split; [exact L |]. split; [exact D |].
  exact (proj1 (proj2 (proj1 (proj2 (follower_scheduled_at_most_once
           RunnerStatic.defaultDimensions 16 6 exampleHorizon steadyWorld
           steadyWorld_ok)) (Obstacle.set_xPos 295 midCactus) L)) D).
Defined.

(** ** The runner *)

Section RunnerFacts.

Context {HL : Type} `{HorizonLineOps HL}.

Section Invariant.

Variable J : Trex.t -> Prop.
Hypothesis JI : jumpInvariant J.

Let JT (r : Runner.t HL) : Prop := J (Runner.tRex r).

Lemma trexUpdate_keeps (deltaTime : Q) (opt_status : option Trex.Status)
    (o : Trex.t) :
  J o -> always (Trex.update deltaTime opt_status o) J.
Proof.
  destruct JI as (Ia & Is & _).
  intros S. apply update_keeps; [exact Ia |].
  destruct opt_status; [apply Is |]; exact S.
Qed.

Lemma raq_keeps (r : Runner.t HL) : JT r -> always (Runner.raq r) JT.
Proof.
  intros S. unfold Runner.raq.
  destruct (negb (Runner.drawPending r)); [| apply always_ret; exact S].
  cbv zeta. apply always_bind, always_any. intros id.
  apply always_ret. exact S.
Qed.

Lemma gameOver_keeps (r : Runner.t HL) : JT r -> always (Runner.gameOver r) JT.
Proof.
  intros S. unfold Runner.gameOver.
  apply always_bind, always_any. intros _. cbv zeta.
  apply always_bind.
  eapply always_mono; [apply (trexUpdate_keeps 100 (Some Trex.CRASHED)), S |].
  intros o So. apply always_bind, always_any. intros now.
  apply always_ret. unfold JT.
  destruct (negb _); destruct (JS.gtb _ _); exact So.
Qed.

Section Mutual.

Variable restart : Runner.t HL -> M (Runner.t HL).
Hypothesis restart_ok : forall r, JT r -> always (restart r) JT.

Lemma playIntroWith_keeps (r : Runner.t HL) :
  JT r -> always (Runner.playIntroWith restart r) JT.
Proof.
  destruct JI as (_ & _ & Ip & _).
  intros S. unfold Runner.playIntroWith.
  destruct (negb (Runner.started r) && negb (Runner.crashed r)).
  - cbv zeta. apply always_ret. unfold JT. apply Ip, S.
  - destruct (Runner.crashed r); [apply restart_ok, S | apply always_ret, S].
Qed.

Lemma activeFrame_keeps (deltaTime : Q) (r : Runner.t HL) :
  JT r ->
  always (Runner.activeFrame restart deltaTime r) (fun p => JT (fst p)).
Proof.
  destruct JI as (_ & _ & _ & Iu & _).
  intros S. unfold Runner.activeFrame.
  apply always_bind. apply always_mono with (P := JT).
  { destruct (Trex.jumping (Runner.tRex r)) eqn:Jm; [| apply always_ret, S].
    apply always_bind.
    eapply always_mono; [apply (Iu deltaTime _ S Jm) |].
    intros o So. apply always_ret. exact So. }
  intros r1 S1. cbv zeta.
  apply always_bind. apply always_mono with (P := JT).
  { destruct (_ && _); [| apply always_ret; exact S1].
    apply playIntroWith_keeps. exact S1. }
  intros r2 S2.
  apply always_bind, always_any. intros hz.
  apply always_bind. apply always_mono with (P := JT).
  { destruct (negb _).
    - apply always_ret. destruct (JS.ltb _ _); exact S2.
    - apply gameOver_keeps. exact S2. }
  intros r3 S3.
  match goal with
  | |- context [DistanceMeter.update ?a ?b ?c] =>
      destruct (DistanceMeter.update a b c) as [meter sound]
  end.
  apply always_bind, always_any. intros _.
  apply always_ret. cbn [fst]. unfold JT.
  destruct (_ >? _)%Z; exact S3.
Qed.

Lemma updateWith_keeps (r : Runner.t HL) :
  JT r -> always (Runner.updateWith restart r) JT.
Proof.
  intros S. unfold Runner.updateWith. cbv zeta.
  apply always_bind, always_any. intros now.
  apply always_bind. apply always_mono with (P := fun p => JT (fst p)).
  { destruct (Runner.activated _).
    - apply activeFrame_keeps. exact S.
    - apply always_ret. exact S. }
  intros [r1 deltaTime] S1. cbn [fst] in S1.
  destruct (negb (Runner.crashed r1)); [| apply always_ret, S1].
  apply always_bind.
  eapply always_mono; [apply (trexUpdate_keeps deltaTime None), S1 |].
  intros o So. apply raq_keeps. exact So.
Qed.

End Mutual.

Lemma restartWith_keeps (update : Runner.t HL -> M (Runner.t HL))
    (r : Runner.t HL) :
  (forall r, JT r -> always (update r) JT) ->
  JT r -> always (Runner.restartWith update r) JT.
Proof.
  destruct JI as (_ & _ & _ & _ & Ir).
  intros U S. unfold Runner.restartWith.
  destruct (Runner.raqId r =? 0); [| apply always_ret, S].
  cbv zeta. apply always_bind, always_any. intros now.
  apply always_bind, always_any. intros hz.
  apply always_bind.
  eapply always_mono; [apply Ir |].
  intros o So. apply always_bind, always_any. intros _.
  apply U. exact So.
Qed.

Lemma updateInner_keeps (r : Runner.t HL) :
  JT r -> always (Runner.updateInner r) JT.
Proof.
  apply updateWith_keeps. intros r' S. apply always_ret. exact S.
Qed.

Lemma restart_keeps (r : Runner.t HL) : JT r -> always (Runner.restart r) JT.
Proof. apply restartWith_keeps. exact updateInner_keeps. Qed.

Lemma runner_update_keeps (r : Runner.t HL) :
  JT r -> always (Runner.update r) JT.
Proof. apply updateWith_keeps. exact restart_keeps. Qed.

Lemma play_keeps (r : Runner.t HL) : JT r -> always (Runner.play r) JT.
Proof.
  intros S. unfold Runner.play.
  destruct (negb (Runner.crashed r)); [| apply always_ret, S].
  cbv zeta. apply always_bind.
  eapply always_mono; [apply (trexUpdate_keeps 0 (Some Trex.RUNNING)), S |].
  intros o So. apply always_bind, always_any. intros now.
  apply runner_update_keeps. exact So.
Qed.

Lemma onVisibilityChange_keeps (hidden : bool) (r : Runner.t HL) :
  JT r -> always (Runner.onVisibilityChange hidden r) JT.
Proof.
  intros S. unfold Runner.onVisibilityChange.
  destruct hidden; [apply always_ret, S | apply play_keeps, S].
Qed.

Lemma adjustDimensions_keeps (width : Z) (r : Runner.t HL) :
  JT r -> always (Runner.adjustDimensions width r) JT.
Proof.
  intros S. unfold Runner.adjustDimensions. cbv zeta.
  apply always_bind, always_any. intros hz.
  apply always_bind.
  eapply always_mono; [apply (trexUpdate_keeps 0 None), S |].
  intros o So. destruct (_ || _); apply always_ret; exact So.
Qed.

Lemma startGame_keeps (r : Runner.t HL) : JT r -> JT (Runner.startGame r).
Proof.
  destruct JI as (_ & _ & Ip & _).
  intros S. unfold Runner.startGame, JT. cbv zeta. apply Ip, S.
Qed.

Lemma frames_keep (n : nat) (r : Runner.t HL) :
  JT r -> always (frames n r) JT.
Proof.
  unfold frames. revert r. induction n as [| n IH]; intros r S.
  - apply always_ret, S.
  - cbn [iterate]. apply always_bind.
    eapply always_mono; [apply runner_update_keeps, S |].
    intros r1 S1. apply IH, S1.
Qed.

End Invariant.

End RunnerFacts.

(** ** Jumps, speed-drop and restart in the running game *)

Section GameFacts.

Context {HL : Type} `{HorizonLineOps HL}.

Lemma dropHeld_invariant : jumpInvariant dropHeld.
Proof.
  split; [split; intros o v S; exact S |].
  split; [intros o s S; exact S |].
  split; [intros o b S; exact S |].
  split.
  - intros deltaTime o S Jm w. specialize (S Jm).
    destruct (Z_le_gt_dec (Trex.yPos (risen deltaTime o)) (Trex.groundYPos o))
      as [L | G].
    + destruct (updateJump_airborne deltaTime o L w) as [Sj _].
      destruct Sj as (_ & _ & _ & _ & _ & _ & _ & S8 & _).
      destruct (capHeight_rest (risen deltaTime o))
        as (_ & _ & _ & _ & _ & Cd & _).
      destruct (risen_rest deltaTime o) as (_ & _ & _ & Rd & _).
      intros _. congruence.
    + destruct (updateJump_landing deltaTime o G w) as (_ & _ & _ & Lj & _).
      intros Jm'. congruence.
  - intros o w. destruct (reset_spec o w) as (_ & _ & _ & _ & Rj & _).
    intros Jm. congruence.
Qed.

Lemma grounded_invariant : jumpInvariant grounded.
Proof.
  split; [split; intros o v S; exact S |].
  split; [intros o s S; exact S |].
  split; [intros o b S; exact S |].
  split.
  - intros deltaTime o [S _] Jm. congruence.
  - intros o w. destruct (reset_spec o w) as (Ry & Rg & _ & _ & Rj & _).
    split; [exact Rj | congruence].
Qed.

Lemma onKeyDown_dropHeld (e : Runner.Event) (r : Runner.t HL) :
  Trex.jumping (Runner.tRex r) = true ->
  Trex.speedDrop (Runner.tRex r) = true ->
  always (Runner.onKeyDown e r) (fun r' => dropHeld (Runner.tRex r')).
Proof.
  intros Jm Sd. unfold Runner.onKeyDown.
  apply always_bind.
  apply always_mono with (P := fun r' => dropHeld (Runner.tRex r')).
  - destruct (negb (Runner.Element_eqb _ _));
      [| apply always_ret; intros _; exact Sd].
    apply always_bind.
    apply always_mono with (P := fun r' => dropHeld (Runner.tRex r')).
    + destruct (_ && _); [| apply always_ret; intros _; exact Sd].
      cbv zeta.
      assert (Trex.jumping
                (Runner.tRex
                   (if negb (Runner.activated r)
                    then Runner.set_activated true r else r)) = true) as Jm'
        by (destruct (negb (Runner.activated r)); exact Jm).
      rewrite Jm'. cbn [negb]. apply always_ret.
      destruct (negb (Runner.activated r)); intros _; exact Sd.
    + intros r1 S1.
      destruct (_ && _); [| apply always_ret; exact S1].
      apply (restart_keeps dropHeld dropHeld_invariant). exact S1.
  - intros r1 S1.
    destruct (_ && _); apply always_ret; [| exact S1].
    intros _. reflexivity.
Qed.

Lemma onKeyUp_dropHeld (e : Runner.Event) (r : Runner.t HL) :
  Trex.jumping (Runner.tRex r) = true ->
  Trex.speedDrop (Runner.tRex r) = true ->
  always (Runner.onKeyUp e r) (fun r' =>
    if negb (Runner.isRunning r &&
             (Runner.isKey Runner.JUMP (Runner.keyCode e) ||
              Runner.EventType_eqb (Runner.type e) Runner.TOUCHEND ||
              Runner.EventType_eqb (Runner.type e) Runner.MOUSEDOWN)) &&
       Runner.isKey Runner.DUCK (Runner.keyCode e)
    then Trex.speedDrop (Runner.tRex r') = false /\
         Trex.jumping (Runner.tRex r') = true
    else dropHeld (Runner.tRex r')).
Proof.
  intros Jm Sd. unfold Runner.onKeyUp. cbv zeta.
  set (isjumpKey :=
         Runner.isKey Runner.JUMP (Runner.keyCode e) ||
         Runner.EventType_eqb (Runner.type e) Runner.TOUCHEND ||
         Runner.EventType_eqb (Runner.type e) Runner.MOUSEDOWN).
  destruct (Runner.isRunning r && isjumpKey); cbn [negb andb].
  - apply always_ret. cbn [Runner.tRex Runner.set_tRex].
    destruct (endJump_rest (Runner.tRex r)) as (_ & _ & _ & _ & _ & Ed & _).
    intros _. congruence.
  - destruct (Runner.isKey Runner.DUCK (Runner.keyCode e)).
    + apply always_ret. split; [reflexivity | exact Jm].
    + assert (dropHeld (Runner.tRex r)) as S by (intros _; exact Sd).
      destruct (Runner.crashed r).
      * apply always_bind, always_any. intros now.
        match goal with
        | |- always (if ?c then _ else _) _ => destruct c
        end; [| apply always_ret; exact S].
        apply (restart_keeps dropHeld dropHeld_invariant). exact S.
      * match goal with
        | |- always (if ?c then _ else _) _ => destruct c
        end; [| apply always_ret; exact S].
        apply (play_keeps dropHeld dropHeld_invariant). exact S.
Qed.

(** C8, amended: once speed-drop is on during a jump, every frame and
    every command leaves it on until the jump is over, with one exception:
    a key-up, touch-end or mouse-up event that carries the duck key code
    (and does not take the jump-key branch) switches it off in mid-air. *)
Theorem speed_drop_held_except_duck_release (c : Command)
    (r : Runner.t HL) (w : World) :
  Trex.jumping (Runner.tRex r) = true ->
  Trex.speedDrop (Runner.tRex r) = true ->
  let r' := fst (step c r w) in
  match c with
  | Input e =>
      if releasesDuck e r
      then Trex.speedDrop (Runner.tRex r') = false /\
           Trex.jumping (Runner.tRex r') = true
      else dropHeld (Runner.tRex r')
  | _ => dropHeld (Runner.tRex r')
  end.
Proof.
  intros Jm Sd r'. subst r'.
  assert (dropHeld (Runner.tRex r)) as S by (intros _; exact Sd).
  destruct c as [| e | hidden | width |]; cbn [step].
  - apply (runner_update_keeps dropHeld dropHeld_invariant r S w).
  - unfold releasesDuck, Runner.handleEvent.
    destruct (Runner.type e) eqn:T;
      try exact S;
      try apply (onKeyDown_dropHeld e r Jm Sd w);
      pose proof (onKeyUp_dropHeld e r Jm Sd w) as U; rewrite T in U;
      exact U.
  - apply (onVisibilityChange_keeps dropHeld dropHeld_invariant hidden r S w).
  - apply (adjustDimensions_keeps dropHeld dropHeld_invariant width r S w).
  - apply (startGame_keeps dropHeld dropHeld_invariant r S).
Qed.

(** C10: while a frame is scheduled ([raqId] is not 0), [restart()]
    changes nothing: neither the runner nor the clock, the random source
    or the sounds. *)
Theorem restart_while_running_is_noop (r : Runner.t HL) (w : World) :
  Runner.raqId r <> 0 -> Runner.restart r w = (r, w).
Proof.
  intros N. unfold Runner.restart, Runner.restartWith.
  destruct (Runner.raqId r =? 0) eqn:E; [| reflexivity].
  apply Z.eqb_eq in E. contradiction.
Qed.

(** C4, amended: a jump update that takes the t-rex strictly below the
    ground level completes the jump in that update (position on the
    ground, velocity 0, no longer jumping, running, speed-drop off); and a
    t-rex that stands on the ground without jumping stays so through any
    number of frames. *)
Theorem landing_completes_jump :
  (forall (deltaTime : Q) (o : Trex.t) (w : World),
     Trex.yPos (risen deltaTime o) > Trex.groundYPos o ->
     let o' := fst (Trex.updateJump deltaTime o w) in
     Trex.yPos o' = Trex.groundYPos o /\
     Trex.jumpVelocity o' = 0%Q /\
     Trex.jumping o' = false /\
     Trex.status o' = Trex.RUNNING /\
     Trex.speedDrop o' = false) /\
  (forall (n : nat) (r : Runner.t HL) (w : World),
     grounded (Runner.tRex r) ->
     grounded (Runner.tRex (fst (frames n r w)))).
Proof.
  split.
  - intros deltaTime o w G o'.
    destruct (updateJump_landing deltaTime o G w)
      as (L1 & _ & L3 & L4 & L5 & _ & L7).
    repeat split; assumption.
  - intros n r w S.
    apply (frames_keep grounded grounded_invariant n r S w).
Qed.

End GameFacts.

(** C8, as stated, fails: in mid-air with speed-drop on, releasing the
    duck key (key code 40) switches speed-drop off while the jump goes
    on. *)
Lemma speed_drop_one_way_counterexample :
  let r' :=
    fst (step (H := flatLine) (Input (keyUp 40)) divingRunner (snd divingGame)) in
  Trex.jumping (Runner.tRex divingRunner) = true /\
  Trex.speedDrop (Runner.tRex divingRunner) = true /\
  Trex.jumping (Runner.tRex r') = true /\
  Trex.speedDrop (Runner.tRex r') = false.
Proof. cbv zeta. repeat split; vm_compute; reflexivity. Qed.

Lemma speed_drop_held_except_duck_release_witness :
  Trex.jumping (Runner.tRex divingRunner) = true /\
  Trex.speedDrop (Runner.tRex divingRunner) = true /\
  dropHeld
    (Runner.tRex (fst (step (H := flatLine) Frame divingRunner (snd divingGame)))).
Proof.
  assert (Trex.jumping (Runner.tRex divingRunner) = true) as Jm
    by (vm_compute; reflexivity).
  assert (Trex.speedDrop (Runner.tRex divingRunner) = true) as Sd
    by (vm_compute; reflexivity).
  split; [exact Jm |]. split; [exact Sd |].
  exact (speed_drop_held_except_duck_release (H := flatLine) Frame
           divingRunner (snd divingGame) Jm Sd).
Defined.

Lemma restart_while_running_is_noop_witness :
  Runner.raqId divingRunner <> 0 /\
  Runner.restart (H := flatLine) divingRunner (snd divingGame) =
    (divingRunner, snd divingGame).
Proof.
  assert (Runner.raqId divingRunner <> 0) as N
    by (vm_compute; discriminate).
  split; [exact N |].
  exact (restart_while_running_is_noop (H := flatLine) divingRunner
           (snd divingGame) N).
Defined.

(** C4, as stated, fails twice. A jump update that brings the t-rex
    exactly to the ground level does not complete the jump; and a landing
    in a second jump leaves [jumpCount] at 1 instead of adding 1. *)
Lemma landing_at_ground_level_counterexample :
  (let o' := fst (Trex.updateJump 5 descendingTrex steadyWorld) in
   Trex.yPos (risen 5 descendingTrex) >= Trex.groundYPos descendingTrex /\
   Trex.yPos o' = Trex.groundYPos o' /\
   Trex.jumping o' = true /\
   Trex.status o' = Trex.JUMPING) /\
  (let o' := fst (Trex.updateJump (1000 / 60) secondJumpTrex steadyWorld) in
   Trex.yPos (risen (1000 / 60) secondJumpTrex)
     > Trex.groundYPos secondJumpTrex /\
   Trex.jumping o' = false /\
   Trex.jumpCount secondJumpTrex = 1 /\
   Trex.jumpCount o' <> Trex.jumpCount secondJumpTrex + 1).
Proof.
  cbv zeta. split.
  - split; [vm_compute; discriminate |].
    repeat split; vm_compute; reflexivity.
  - split; [vm_compute; reflexivity |].
    split; [vm_compute; reflexivity |].
    split; [vm_compute; reflexivity |].
    vm_compute. discriminate.
Qed.

Lemma landing_completes_jump_witness :
  (Trex.yPos (risen (1000 / 60) secondJumpTrex)
     > Trex.groundYPos secondJumpTrex /\
   let o' := fst (Trex.updateJump (1000 / 60) secondJumpTrex steadyWorld) in
   Trex.yPos o' = Trex.groundYPos secondJumpTrex /\
   Trex.jumpVelocity o' = 0%Q /\
   Trex.jumping o' = false /\
   Trex.status o' = Trex.RUNNING /\
   Trex.speedDrop o' = false) /\
  (grounded (Runner.tRex freshRunner) /\
   grounded
     (Runner.tRex (fst (frames (H := flatLine) 3 freshRunner (snd freshGame))))).
Proof.
  assert (Trex.yPos (risen (1000 / 60) secondJumpTrex)
          > Trex.groundYPos secondJumpTrex) as G
    by (vm_compute; reflexivity).
  assert (grounded (Runner.tRex freshRunner)) as S
    by (split; vm_compute; reflexivity).
  split; split.
  - exact G.
  - exact (proj1 (landing_completes_jump (H := flatLine))
             (1000 / 60)%Q secondJumpTrex steadyWorld G).
  - exact S.
  - exact (proj2 (landing_completes_jump (H := flatLine))
             3%nat freshRunner (snd freshGame) S).
Defined.

(** * Further properties *)

(** ** Random numbers and boxes *)

Section BoxFacts.

(** X1: for [min <= max] and a random source in its contract,
    [getRandomNum(min, max)] is an integer between [min] and [max], both
    included. *)
Theorem getRandomNum_within_bounds (min max : Z) (w : World) :
  random_ok w -> min <= max ->
  min <= fst (getRandomNum min max w) <= max.
Proof. intros R L. apply (getRandomNum_range min max w R L). Qed.

Lemma getRandomNum_within_bounds_witness :
  random_ok steadyWorld /\ 100 <= 400 /\
  100 <= fst (getRandomNum 100 400 steadyWorld) <= 400.
Proof.
  assert (100 <= 400) as L by lia.
  split; [exact steadyWorld_ok |]. split; [exact L |].
  exact (getRandomNum_within_bounds 100 400 steadyWorld steadyWorld_ok L).
Defined.

(** X2: [boxCompare] does not depend on the order of its arguments, and
    two boxes that only touch along a vertical or a horizontal edge do not
    collide. *)
Theorem boxCompare_symmetric_and_strict :
  (forall a b, boxCompare a b = boxCompare b a) /\
  (forall a b,
     CollisionBox.x a + CollisionBox.width a = CollisionBox.x b ->
     boxCompare a b = false) /\
  (forall a b,
     CollisionBox.y a + CollisionBox.height a = CollisionBox.y b ->
     boxCompare a b = false).
Proof.
  split; [| split].
  - intros a b.
    destruct (boxCompare a b) eqn:E1; destruct (boxCompare b a) eqn:E2;
      try reflexivity.
    + apply boxCompare_overlap in E1.
      assert (boxCompare b a = true) as E3
        by (apply boxCompare_overlap; unfold overlap in *; lia).
      congruence.
    + apply boxCompare_overlap in E2.
      assert (boxCompare a b = true) as E3
        by (apply boxCompare_overlap; unfold overlap in *; lia).
      congruence.
  - intros a b T. destruct (boxCompare a b) eqn:E; [| reflexivity].
    apply boxCompare_overlap in E. unfold overlap in E. lia.
  - intros a b T. destruct (boxCompare a b) eqn:E; [| reflexivity].
    apply boxCompare_overlap in E. unfold overlap in E. lia.
Qed.

Lemma boxCompare_symmetric_and_strict_witness :
  boxCompare (CollisionBox.mk 0 0 10 10) (CollisionBox.mk 10 0 5 5) = false /\
  boxCompare (CollisionBox.mk 0 0 10 10) (CollisionBox.mk 3 10 5 5) = false.
Proof.
  split.
  - apply (proj1 (proj2 boxCompare_symmetric_and_strict)
             (CollisionBox.mk 0 0 10 10) (CollisionBox.mk 10 0 5 5)).
    reflexivity.
  - apply (proj2 (proj2 boxCompare_symmetric_and_strict)
             (CollisionBox.mk 0 0 10 10) (CollisionBox.mk 3 10 5 5)).
    reflexivity.
Defined.

Lemma compareObstacleBoxes_find (tb tRexBox obstacleBox : CollisionBox.t)
    (boxes : list CollisionBox.t) (ctx : option Canvas) :
  fst (compareObstacleBoxes tb tRexBox obstacleBox boxes ctx) =
  find pairCollides
    (map (fun box => (createAdjustedCollisionBox tb tRexBox,
                      createAdjustedCollisionBox box obstacleBox)) boxes).
Proof.
  revert ctx. induction boxes as [| box rest IH]; intros ctx; [reflexivity |].
  cbn [compareObstacleBoxes map find]. unfold pairCollides at 1. cbn [fst snd].
  destruct (boxCompare _ _); [reflexivity | apply IH].
Qed.

Lemma find_app {A} (f : A -> bool) (l1 l2 : list A) :
  find f (l1 ++ l2) =
  match find f l1 with Some x => Some x | None => find f l2 end.
Proof.
  induction l1 as [| a l1 IH]; [reflexivity |].
  cbn. destruct (f a); [reflexivity | exact IH].
Qed.

Lemma compareTrexBoxes_find (tboxes : list CollisionBox.t)
    (tRexBox obstacleBox : CollisionBox.t) (boxes : list CollisionBox.t)
    (ctx : option Canvas) :
  fst (compareTrexBoxes tboxes tRexBox obstacleBox boxes ctx) =
  find pairCollides
    (flat_map
       (fun tb =>
          map (fun box => (createAdjustedCollisionBox tb tRexBox,
                           createAdjustedCollisionBox box obstacleBox)) boxes)
       tboxes).
Proof.
  revert ctx. induction tboxes as [| tb rest IH]; intros ctx; [reflexivity |].
  cbn [compareTrexBoxes flat_map]. rewrite find_app.
  rewrite <- (compareObstacleBoxes_find tb tRexBox obstacleBox boxes ctx).
  destruct (compareObstacleBoxes tb tRexBox obstacleBox boxes ctx)
    as [[hit |] ctx']; cbn [fst]; [reflexivity | apply IH].
Qed.

Lemma checkForCollision_find (obstacle : Obstacle.t) (tRex : Trex.t)
    (opt_canvasCtx : option Canvas) :
  fst (checkForCollision obstacle tRex opt_canvasCtx) =
  if boxCompare (tRexOuterBox tRex) (obstacleOuterBox obstacle)
  then find pairCollides
         (adjustedPairs (tRexOuterBox tRex) (obstacleOuterBox obstacle)
            (Obstacle.collisionBoxes obstacle))
  else None.
Proof.
  unfold checkForCollision. cbv zeta.
  destruct (boxCompare _ _); [| reflexivity].
  apply compareTrexBoxes_find.
Qed.

(** X3: the answer of [checkForCollision] is the first colliding pair of
    adjusted boxes, in the order t-rex box (outer) then obstacle box
    (inner), provided the two outer boxes collide, and "no collision"
    otherwise; the optional debug canvas has no influence on it. *)
Theorem checkForCollision_first_pair (obstacle : Obstacle.t) (tRex : Trex.t)
    (opt_canvasCtx : option Canvas) :
  fst (checkForCollision obstacle tRex opt_canvasCtx) =
  if boxCompare (tRexOuterBox tRex) (obstacleOuterBox obstacle)
  then find pairCollides
         (adjustedPairs (tRexOuterBox tRex) (obstacleOuterBox obstacle)
            (Obstacle.collisionBoxes obstacle))
  else None.
Proof.
  unfold checkForCollision. cbv zeta.
  destruct (boxCompare (tRexOuterBox tRex) (obstacleOuterBox obstacle));
    [apply compareTrexBoxes_find | reflexivity].
Qed.

(** X4: a reported collision is real: the two boxes returned overlap, they
    are a box of the t-rex and a box of the obstacle moved to their outer
    boxes, and the outer boxes overlap as well. *)
Theorem checkForCollision_sound (obstacle : Obstacle.t) (tRex : Trex.t)
    (opt_canvasCtx : option Canvas) (a b : CollisionBox.t) :
  fst (checkForCollision obstacle tRex opt_canvasCtx) = Some (a, b) ->
  overlap a b /\
  overlap (tRexOuterBox tRex) (obstacleOuterBox obstacle) /\
  (exists tb, In tb Trex.collisionBoxes /\
              a = createAdjustedCollisionBox tb (tRexOuterBox tRex)) /\
  (exists box, In box (Obstacle.collisionBoxes obstacle) /\
               b = createAdjustedCollisionBox box (obstacleOuterBox obstacle)).
Proof.
  rewrite checkForCollision_find.
  destruct (boxCompare (tRexOuterBox tRex) (obstacleOuterBox obstacle)) eqn:C;
    [| discriminate].
  intros F. apply find_some in F. destruct F as [I P].
  unfold pairCollides in P. cbn [fst snd] in P.
  split; [apply boxCompare_overlap, P |].
  split; [apply boxCompare_overlap, C |].
  unfold adjustedPairs in I. apply in_flat_map in I.
  destruct I as (tb & It & I). apply in_map_iff in I.
  destruct I as (box & E & Ib). injection E as <- <-.
  split; [exists tb | exists box]; split; (assumption || reflexivity).
Qed.

Lemma checkForCollision_sound_witness :
  exists a b,
    fst (checkForCollision nearCactus standingTrex None) = Some (a, b) /\
    overlap a b /\
    overlap (tRexOuterBox standingTrex) (obstacleOuterBox nearCactus).
Proof.
  eexists. eexists.
  assert (fst (checkForCollision nearCactus standingTrex None)
          = Some (CollisionBox.mk 2 93 30 26, CollisionBox.mk 21 103 7 38)) as E
    by (vm_compute; reflexivity).
  split; [exact E |].
  destruct (checkForCollision_sound nearCactus standingTrex None _ _ E)
    as (O1 & O2 & _).
  split; [exact O1 | exact O2].
Defined.

(** X5: when [checkForCollision] reports nothing although the outer boxes
    overlap, no box of the t-rex overlaps any box of the obstacle. *)
Theorem checkForCollision_complete (obstacle : Obstacle.t) (tRex : Trex.t)
    (opt_canvasCtx : option Canvas) (tb box : CollisionBox.t) :
  fst (checkForCollision obstacle tRex opt_canvasCtx) = None ->
  overlap (tRexOuterBox tRex) (obstacleOuterBox obstacle) ->
  In tb Trex.collisionBoxes ->
  In box (Obstacle.collisionBoxes obstacle) ->
  ~ overlap (createAdjustedCollisionBox tb (tRexOuterBox tRex))
            (createAdjustedCollisionBox box (obstacleOuterBox obstacle)).
Proof.
  rewrite checkForCollision_find.
  intros F C It Ib O. apply boxCompare_overlap in C. rewrite C in F.
  apply boxCompare_overlap in O.
  pose proof (find_none _ _ F
                (createAdjustedCollisionBox tb (tRexOuterBox tRex),
                 createAdjustedCollisionBox box (obstacleOuterBox obstacle)))
    as N.
  unfold pairCollides in N. cbn [fst snd] in N. rewrite O in N.
  assert (true = false) as X; [| discriminate X].
  apply N. unfold adjustedPairs. apply in_flat_map.
  exists tb. split; [exact It |]. apply in_map_iff.
  exists box. split; [reflexivity | exact Ib].
Qed.

Lemma checkForCollision_complete_witness :
  fst (checkForCollision grazingCactus standingTrex None) = None /\
  overlap (tRexOuterBox standingTrex) (obstacleOuterBox grazingCactus) /\
  ~ overlap
      (createAdjustedCollisionBox (CollisionBox.mk 32 0 8 16)
         (tRexOuterBox standingTrex))
      (createAdjustedCollisionBox (CollisionBox.mk 0 7 5 27)
         (obstacleOuterBox grazingCactus)).
Proof.
  assert (fst (checkForCollision grazingCactus standingTrex None) = None) as E
    by (vm_compute; reflexivity).
  assert (overlap (tRexOuterBox standingTrex) (obstacleOuterBox grazingCactus))
    as O by (apply boxCompare_overlap; vm_compute; reflexivity).
  split; [exact E |]. split; [exact O |].
  apply (checkForCollision_complete grazingCactus standingTrex None
           (CollisionBox.mk 32 0 8 16) (CollisionBox.mk 0 7 5 27) E O).
  - cbn. tauto.
  - cbn. tauto.
Defined.

End BoxFacts.

(** ** Obstacles, once more *)

Section ObstacleLife.

Local Open Scope Q_scope.

(** X6: an obstacle update moves a live obstacle left by
    [floor(speed * FPS / 1000 * deltaTime)] pixels and flags it for removal
    exactly when its right edge is then at or left of column 0; an
    obstacle already flagged is not touched any more. *)
Theorem obstacle_update_moves_or_freezes (deltaTime speed : Q)
    (o : Obstacle.t) :
  let o' := Obstacle.update deltaTime speed o in
  (Obstacle.remove o = true -> o' = o) /\
  (Obstacle.remove o = false ->
   Obstacle.xPos o' =
     (Obstacle.xPos o - JS.floor (speed * num FPS / 1000 * deltaTime))%Z /\
   (Obstacle.remove o' = true <->
    (Obstacle.xPos o' + Obstacle.width o' <= 0)%Z) /\
   Obstacle.width o' = Obstacle.width o /\
   Obstacle.gap o' = Obstacle.gap o /\
   Obstacle.size o' = Obstacle.size o /\
   Obstacle.collisionBoxes o' = Obstacle.collisionBoxes o).
Proof.
  cbv zeta. unfold Obstacle.update. split.
  - intros ->. reflexivity.
  - intros R. rewrite R. cbn [negb]. cbv zeta.
    unfold Obstacle.isVisible.
    destruct (_ >? _)%Z eqn:V; cbn [negb];
      cbn [Obstacle.xPos Obstacle.set_xPos Obstacle.set_remove Obstacle.remove
           Obstacle.width Obstacle.gap Obstacle.size Obstacle.collisionBoxes]
        in *;
      rewrite Z.gtb_ltb in V.
    + apply Z.ltb_lt in V. rewrite R.
      repeat split; try reflexivity; try discriminate. lia.
    + apply Z.ltb_ge in V.
      repeat split; try reflexivity. intros _. exact V.
Qed.

Lemma obstacle_update_moves_or_freezes_witness :
  Obstacle.remove midCactus = false /\
  Obstacle.xPos (Obstacle.update 16 6 midCactus) =
    (Obstacle.xPos midCactus - JS.floor (6 * num FPS / 1000 * 16))%Z /\
  Obstacle.remove goneCactus = true /\
  Obstacle.update 16 6 goneCactus = goneCactus.
Proof.
  assert (Obstacle.remove midCactus = false) as R by reflexivity.
  assert (Obstacle.remove goneCactus = true) as G by reflexivity.
  split; [exact R |].
  split; [exact (proj1 (proj2 (obstacle_update_moves_or_freezes 16 6 midCactus) R)) |].
  split; [exact G |].
  exact (proj1 (obstacle_update_moves_or_freezes 16 6 goneCactus) G).
Defined.

(** X7: the collision boxes of a new obstacle of a three-box type: the
    boxes of the type as they are for a single obstacle; for a group, the
    middle box widened to [width - first.width - last.width] and the last
    box moved so that it ends at the right edge of the group. *)
Theorem grouped_boxes_span_the_group
    (type : ObstacleType.t) (dimensions : RunnerStatic.Dimensions)
    (gapCoefficient speed : Q) (w w' : World) (o : Obstacle.t)
    (b0 b1 b2 : CollisionBox.t) :
  ObstacleType.collisionBoxes type = [b0; b1; b2] ->
  Obstacle.new type dimensions gapCoefficient speed w = (Some o, w') ->
  Obstacle.collisionBoxes o =
    (if (Obstacle.size o >? 1)%Z
     then [ b0;
            CollisionBox.set_width
              (Obstacle.width o - CollisionBox.width b0 - CollisionBox.width b2)
              b1;
            CollisionBox.set_x (Obstacle.width o - CollisionBox.width b2) b2 ]
     else [b0; b1; b2]) /\
  ((Obstacle.size o > 1)%Z ->
   forall last, list.last (Obstacle.collisionBoxes o) = Some last ->
     (CollisionBox.x last + CollisionBox.width last = Obstacle.width o)%Z).
Proof.
  intros B E.
  assert (Obstacle.collisionBoxes o =
          (if (Obstacle.size o >? 1)%Z
           then [ b0;
                  CollisionBox.set_width
                    (Obstacle.width o - CollisionBox.width b0 -
                     CollisionBox.width b2) b1;
                  CollisionBox.set_x
                    (Obstacle.width o - CollisionBox.width b2) b2 ]
           else [b0; b1; b2])) as C.
  { revert E. unfold Obstacle.new, bind.
    destruct (getRandomNum 1 Obstacle.MAX_OBSTACLE_LENGTH w) as [drawn w1].
    unfold Obstacle.init. cbn.
    destruct type as [nm wd ht yp ms mg boxes]. cbn in B. subst boxes. cbn.
    destruct b0 as [x0 y0 w0 h0], b1 as [x1 y1 w1' h1], b2 as [x2 y2 w2 h2].
    destruct ((drawn >? 1)%Z && JS.gtb (num ms) speed); cbn;
      unfold Obstacle.adjustCollisionBoxes; cbn;
      try (destruct (drawn >? 1)%Z eqn:D; cbn);
      unfold bind, ret, Obstacle.getGap;
      match goal with
      | |- context [getRandomNum ?a ?b ?c] => destruct (getRandomNum a b c)
      end;
      intros E; injection E as <- _; cbn; rewrite ?D; reflexivity. }
  split; [exact C |].
  intros S last L. rewrite C in L.
  apply Z.gt_lt, Z.ltb_lt in S. rewrite Z.gtb_ltb, S in L.
  cbn in L. injection L as <-. cbn. lia.
Qed.

Lemma grouped_boxes_span_the_group_witness :
  exists o w',
    Obstacle.new Obstacle.CACTUS_SMALL RunnerStatic.defaultDimensions
      0.6 6 steadyWorld = (Some o, w') /\
    Obstacle.collisionBoxes o =
      [ CollisionBox.mk 0 7 5 27; CollisionBox.mk 4 0 22 34;
        CollisionBox.mk 27 4 7 14 ].
Proof.
  eexists. eexists. split; [vm_compute; reflexivity |].
  eapply eq_trans.
  - refine (proj1 (grouped_boxes_span_the_group Obstacle.CACTUS_SMALL
             RunnerStatic.defaultDimensions 0.6 6 steadyWorld _ _
             (CollisionBox.mk 0 7 5 27) (CollisionBox.mk 4 0 6 34)
             (CollisionBox.mk 10 4 7 14) _ _)).
    + reflexivity.
    + vm_compute. reflexivity.
  - vm_compute. reflexivity.
Defined.

(** X8: the construction of an obstacle fails (the source raises a
    TypeError) exactly when the obstacle is a group, after the speed test,
    and its type has fewer than three collision boxes. *)
Theorem new_fails_iff_group_lacks_boxes
    (type : ObstacleType.t) (dimensions : RunnerStatic.Dimensions)
    (gapCoefficient speed : Q) (w : World) :
  fst (Obstacle.new type dimensions gapCoefficient speed w) = None <->
  (sizeAtSpeed type speed
     (fst (getRandomNum 1 Obstacle.MAX_OBSTACLE_LENGTH w)) > 1)%Z /\
  (length (ObstacleType.collisionBoxes type) < 3)%nat.
Proof.
  unfold Obstacle.new, bind.
  destruct (getRandomNum 1 Obstacle.MAX_OBSTACLE_LENGTH w) as [drawn w1].
  cbn [fst]. unfold Obstacle.init, sizeAtSpeed. cbn.
  destruct type as [nm wd ht yp ms mg boxes]. cbn.
  destruct ((drawn >? 1)%Z && JS.gtb (num ms) speed); cbn;
    unfold Obstacle.adjustCollisionBoxes; cbn.
  - unfold bind, ret, Obstacle.getGap.
    match goal with
    | |- context [getRandomNum ?a ?b ?c] => destruct (getRandomNum a b c)
    end.
    cbn. split; [discriminate | lia].
  - destruct (drawn >? 1)%Z eqn:D; rewrite Z.gtb_ltb in D.
    + apply Z.ltb_lt in D.
      destruct boxes as [| b0 [| b1 [| b2 rest]]]; cbn;
        try (split; [intros _; split; lia | reflexivity]).
      unfold bind, ret, Obstacle.getGap.
      match goal with
      | |- context [getRandomNum ?a ?b ?c] => destruct (getRandomNum a b c)
      end.
      cbn. split; [discriminate | lia].
    + apply Z.ltb_ge in D. unfold bind, ret, Obstacle.getGap.
      match goal with
      | |- context [getRandomNum ?a ?b ?c] => destruct (getRandomNum a b c)
      end.
      cbn. split; [discriminate | lia].
Qed.

End ObstacleLife.

(** ** The horizon, once more *)

Section HorizonLife.

Context {HL : Type} `{HorizonLineOps HL}.

Lemma shift_fold (l acc : list Obstacle.t) :
  fold_left (fun updatedObstacles obstacle =>
               if Obstacle.remove obstacle then tail updatedObstacles
               else updatedObstacles) l acc =
  drop (countRemoved l) acc.
Proof.
  revert acc. induction l as [| o l IH]; intros acc; [reflexivity |].
  cbn [fold_left]. rewrite IH. unfold countRemoved.
  cbn [List.filter]. destruct (Obstacle.remove o); [| reflexivity].
  cbn [length]. destruct acc as [| a acc]; [| reflexivity].
  cbn. rewrite !drop_nil. reflexivity.
Qed.

(** X9: the clean-up of [updateObstacles] drops from the front of the list
    as many obstacles as there are flagged obstacles in the whole list,
    whichever obstacles carry the flag. *)
Theorem shiftRemoved_drops_from_front (l : list Obstacle.t) :
  Horizon.shiftRemoved l = drop (countRemoved l) l.
Proof. apply shift_fold. Qed.

Lemma updateObstacles_cases (dimensions : RunnerStatic.Dimensions)
    (deltaTime currentSpeed : Q) (o : Horizon.t HL) (w : World)
    (lastObstacle : Obstacle.t) :
  random_ok w ->
  let survivors :=
    Horizon.shiftRemoved
      (map (Obstacle.update deltaTime currentSpeed) (Horizon.obstacles o)) in
  let after :=
    Horizon.obstacles
      (fst (Horizon.updateObstacles dimensions deltaTime currentSpeed o w)) in
  list.last survivors = Some lastObstacle ->
  (Horizon.followerDue dimensions lastObstacle = true ->
   exists created,
     after =
       <[(length survivors - 1)%nat :=
           Obstacle.set_followingObstacleCreated true lastObstacle]> survivors
       ++ [created]) /\
  (Horizon.followerDue dimensions lastObstacle = false -> after = survivors).
Proof.
  intros R survivors after L.
  destruct (last_lookup_pred survivors lastObstacle L) as [N K].
  unfold after, Horizon.updateObstacles. cbv zeta.
  fold survivors. cbn [Horizon.obstacles Horizon.set_obstacles].
  rewrite N, K. split.
  - intros D. rewrite D. unfold bind.
    destruct (addNewObstacle_pushes dimensions currentSpeed
                (Horizon.set_obstacles survivors o) w R)
      as (created & E & _).
    destruct (Horizon.addNewObstacle dimensions currentSpeed
                (Horizon.set_obstacles survivors o) w) as [o1 w1].
    cbn [fst] in E. subst o1. exists created.
    unfold ret. cbn [fst Horizon.obstacles Horizon.set_obstacles].
    unfold Horizon.markFollower.
    assert ((survivors ++ [created]) !! (length survivors - 1)%nat
            = Some lastObstacle) as K'.
    { rewrite lookup_app_l; [exact K |]. apply Nat.ltb_lt in N. lia. }
    rewrite K'. rewrite insert_app_l; [reflexivity |].
    apply Nat.ltb_lt in N. lia.
  - intros D. rewrite D. reflexivity.
Qed.

(** X10: with a random source in its contract, an obstacle update always
    leaves at least one obstacle in the list (so that the collision check
    of the frame finds [obstacles[0]]), and it appends at most one
    obstacle to those that survive the clean-up. *)
Theorem updateObstacles_leaves_an_obstacle
    (dimensions : RunnerStatic.Dimensions) (deltaTime currentSpeed : Q)
    (o : Horizon.t HL) (w : World) :
  random_ok w ->
  let survivors :=
    Horizon.shiftRemoved
      (map (Obstacle.update deltaTime currentSpeed) (Horizon.obstacles o)) in
  let after :=
    Horizon.obstacles
      (fst (Horizon.updateObstacles dimensions deltaTime currentSpeed o w)) in
  (1 <= length after)%nat /\
  (length survivors <= length after <= length survivors + 1)%nat.
Proof.
  intros R survivors after.
  destruct (list.last survivors) as [lastObstacle |] eqn:L.
  - destruct (updateObstacles_cases dimensions deltaTime
                currentSpeed o w lastObstacle R L) as (D1 & D0).
    fold survivors in D1, D0. fold after in D1, D0.
    assert (1 <= length survivors)%nat as N.
    { destruct survivors; [discriminate | cbn; lia]. }
    destruct (Horizon.followerDue dimensions lastObstacle).
    + destruct (D1 eq_refl) as (created & ->).
      rewrite length_app, length_insert. cbn. lia.
    + rewrite (D0 eq_refl). lia.
  - apply last_None in L.
    unfold after, Horizon.updateObstacles. cbv zeta. fold survivors.
    cbn [Horizon.obstacles Horizon.set_obstacles]. rewrite L.
    cbn [length Nat.ltb Nat.leb].
    destruct (addNewObstacle_pushes dimensions currentSpeed
                (Horizon.set_obstacles [] o) w R) as (created & -> & _).
    cbn. lia.
Qed.

End HorizonLife.

Lemma updateObstacles_leaves_an_obstacle_witness :
  (1 <= length
          (Horizon.obstacles
             (fst (Horizon.updateObstacles RunnerStatic.defaultDimensions
                     16 6 twoCloudHorizon steadyWorld))))%nat.
Proof.
  exact (proj1 (updateObstacles_leaves_an_obstacle
                  RunnerStatic.defaultDimensions 16 6 twoCloudHorizon
                  steadyWorld steadyWorld_ok)).
Defined.

(** ** Clouds *)

Section CloudFacts.

Context {HL : Type} `{HorizonLineOps HL}.

Local Open Scope Q_scope.

Lemma cloud_new_fields (containerWidth : Z) (w : World) :
  let gap := getRandomNum Cloud.MIN_CLOUD_GAP Cloud.MAX_CLOUD_GAP w in
  let sky := getRandomNum Cloud.MAX_SKY_LEVEL Cloud.MIN_SKY_LEVEL (snd gap) in
  Cloud.new containerWidth w =
    ({| Cloud.containerWidth := containerWidth; Cloud.xPos := containerWidth;
        Cloud.yPos := fst sky; Cloud.remove := false;
        Cloud.cloudGap := fst gap |}, snd sky).
Proof.
  cbv zeta. unfold Cloud.new, bind, ret.
  destruct (getRandomNum Cloud.MIN_CLOUD_GAP Cloud.MAX_CLOUD_GAP w) as [g w1].
  cbn [fst snd].
  destruct (getRandomNum Cloud.MAX_SKY_LEVEL Cloud.MIN_SKY_LEVEL w1)
    as [s w2].
  reflexivity.
Qed.

(** X11: a new cloud starts at the right border, with a gap between
    [MIN_CLOUD_GAP] and [MAX_CLOUD_GAP] and a height between
    [MAX_SKY_LEVEL = 30] and [MIN_SKY_LEVEL = 71]. *)
Theorem cloud_new_within_ranges (containerWidth : Z) (w : World) :
  random_ok w ->
  let cloud := fst (Cloud.new containerWidth w) in
  Cloud.xPos cloud = containerWidth /\
  Cloud.remove cloud = false /\
  (Cloud.MIN_CLOUD_GAP <= Cloud.cloudGap cloud <= Cloud.MAX_CLOUD_GAP)%Z /\
  (Cloud.MAX_SKY_LEVEL <= Cloud.yPos cloud <= Cloud.MIN_SKY_LEVEL)%Z.
Proof.
  intros R. cbv zeta. rewrite cloud_new_fields. cbn [fst Cloud.xPos
    Cloud.remove Cloud.cloudGap Cloud.yPos].
  destruct (getRandomNum_range Cloud.MIN_CLOUD_GAP Cloud.MAX_CLOUD_GAP w R)
    as [G R1]; [unfold Cloud.MIN_CLOUD_GAP, Cloud.MAX_CLOUD_GAP; lia |].
  destruct (getRandomNum_range Cloud.MAX_SKY_LEVEL Cloud.MIN_SKY_LEVEL _ R1)
    as [S _]; [unfold Cloud.MAX_SKY_LEVEL, Cloud.MIN_SKY_LEVEL; lia |].
  repeat split; (exact (proj1 G) || exact (proj2 G) || exact (proj1 S)
                 || exact (proj2 S)).
Qed.

Lemma cloud_new_within_ranges_witness :
  let cloud := fst (Cloud.new 600 steadyWorld) in
  Cloud.xPos cloud = 600%Z /\
  Cloud.remove cloud = false /\
  (Cloud.MIN_CLOUD_GAP <= Cloud.cloudGap cloud <= Cloud.MAX_CLOUD_GAP)%Z /\
  (Cloud.MAX_SKY_LEVEL <= Cloud.yPos cloud <= Cloud.MIN_SKY_LEVEL)%Z.
Proof. exact (cloud_new_within_ranges 600 steadyWorld steadyWorld_ok). Defined.

(** X12: a cloud update moves a live cloud left by [ceil(speed)] pixels
    and flags it exactly when it has then left the area on the left
    ([xPos + WIDTH <= 0]); a flagged cloud is not touched any more. *)
Theorem cloud_update_moves_or_freezes (speed : Q) (c : Cloud.t) :
  let c' := Cloud.update speed c in
  (Cloud.remove c = true -> c' = c) /\
  (Cloud.remove c = false ->
   Cloud.xPos c' = (Cloud.xPos c - JS.ceil speed)%Z /\
   (Cloud.remove c' = true <-> (Cloud.xPos c' + Cloud.WIDTH <= 0)%Z) /\
   Cloud.yPos c' = Cloud.yPos c /\
   Cloud.cloudGap c' = Cloud.cloudGap c).
Proof.
  cbv zeta. unfold Cloud.update. split.
  - intros ->. reflexivity.
  - intros R. rewrite R. cbn [negb]. cbv zeta. unfold Cloud.isVisible.
    destruct (_ >? _)%Z eqn:V; cbn [negb];
      cbn [Cloud.xPos Cloud.set_xPos Cloud.set_remove Cloud.remove
           Cloud.yPos Cloud.cloudGap] in *;
      rewrite Z.gtb_ltb in V.
    + apply Z.ltb_lt in V. rewrite R.
      repeat split; try reflexivity; try discriminate. lia.
    + apply Z.ltb_ge in V.
      repeat split; try reflexivity. intros _. exact V.
Qed.

Lemma cloud_update_moves_or_freezes_witness :
  let c := fst (Cloud.new 600 steadyWorld) in
  Cloud.remove c = false /\
  Cloud.xPos (Cloud.update (12 # 10) c) = (Cloud.xPos c - JS.ceil (12 # 10))%Z.
Proof.
  cbv zeta.
  assert (Cloud.remove (fst (Cloud.new 600 steadyWorld)) = false) as R
    by (vm_compute; reflexivity).
  split; [exact R |].
  exact (proj1 (proj2 (cloud_update_moves_or_freezes (12 # 10)
                         (fst (Cloud.new 600 steadyWorld))) R)).
Defined.

Lemma filter_live_length (l : list Cloud.t) :
  (length (List.filter (fun obj => negb (Cloud.remove obj)) l) <= length l)%nat.
Proof.
  induction l as [| c l IH]; [cbn; lia |].
  cbn. destruct (negb (Cloud.remove c)); cbn; lia.
Qed.

Lemma filter_live_all (l : list Cloud.t) :
  Forall (fun c => Cloud.remove c = false)
    (List.filter (fun obj => negb (Cloud.remove obj)) l).
Proof.
  induction l as [| c l IH]; [constructor |].
  cbn. destruct (Cloud.remove c) eqn:R; cbn; [exact IH |].
  constructor; assumption.
Qed.

(** X13: a cloud update of a horizon without clouds does nothing at all
    (no cloud is ever added again, no random number is drawn); otherwise
    it adds at most one cloud, and only below the cap [MAX_CLOUDS], and it
    leaves no flagged cloud in the list. *)
Theorem updateClouds_cap_and_cleanup
    (dimensions : RunnerStatic.Dimensions) (deltaTime speed : Q)
    (o : Horizon.t HL) (w : World) :
  let o' := fst (Horizon.updateClouds dimensions deltaTime speed o w) in
  (Horizon.clouds o = [] ->
   Horizon.updateClouds dimensions deltaTime speed o w = (o, w)) /\
  (Horizon.clouds o <> [] ->
   Forall (fun c => Cloud.remove c = false) (Horizon.clouds o')) /\
  (Z.of_nat (length (Horizon.clouds o'))
   <= Z.max (Z.of_nat (length (Horizon.clouds o)))
            (Horizon.MAX_CLOUDS (Horizon.config o)))%Z /\
  (length (Horizon.clouds o') <= length (Horizon.clouds o) + 1)%nat.
Proof.
  cbv zeta.
  destruct (Horizon.clouds o) as [| c0 rest] eqn:E.
  - unfold Horizon.updateClouds. cbv zeta. rewrite E.
    cbn [length Nat.eqb negb]. unfold ret. cbn [fst]. rewrite E.
    split; [reflexivity |]. split; [intros N; contradiction |].
    cbn [length]. split; lia.
  - split; [intros X; discriminate X |].
    assert (always (Horizon.updateClouds dimensions deltaTime speed o)
              (fun o' =>
                 Forall (fun c => Cloud.remove c = false) (Horizon.clouds o') /\
                 (Z.of_nat (length (Horizon.clouds o'))
                  <= Z.max (Z.of_nat (S (length rest)))
                           (Horizon.MAX_CLOUDS (Horizon.config o)))%Z /\
                 (length (Horizon.clouds o') <= S (length rest) + 1)%nat))
      as A.
    { unfold Horizon.updateClouds. cbv zeta. rewrite E.
      cbn [length Nat.eqb negb].
      set (moved :=
             map (Cloud.update
                    (Horizon.cloudSpeed o / 1000 * deltaTime * speed))
                 (c0 :: rest)).
      assert (length moved = S (length rest)) as Lm
        by (unfold moved; rewrite length_map; reflexivity).
      apply always_bind.
      apply always_mono with
        (P := fun o1 =>
                (Z.of_nat (length (Horizon.clouds o1))
                 <= Z.max (Z.of_nat (S (length rest)))
                          (Horizon.MAX_CLOUDS (Horizon.config o)))%Z /\
                (length (Horizon.clouds o1) <= S (length rest) + 1)%nat).
      - cbn [Horizon.clouds Horizon.set_clouds Horizon.config].
        assert ((Z.of_nat (length moved)
                 <= Z.max (Z.of_nat (S (length rest)))
                          (Horizon.MAX_CLOUDS (Horizon.config o)))%Z /\
                (length moved <= S (length rest) + 1)%nat) as Same
          by (rewrite Lm; split; lia).
        destruct (moved !! (S (length rest) - 1)%nat) as [lastCloud |];
          [| apply always_ret; exact Same].
        destruct (Z.of_nat (S (length rest))
                  <? Horizon.MAX_CLOUDS (Horizon.config o))%Z eqn:Cap;
          cbn [andb]; [| apply always_ret; exact Same].
        match goal with
        | |- always (if ?c then _ else _) _ => destruct c
        end; [| apply always_ret; exact Same].
        apply always_bind, always_any. intros r.
        match goal with
        | |- always (if ?c then _ else _) _ => destruct c
        end; [| apply always_ret; exact Same].
        unfold Horizon.addCloud. apply always_bind, always_any. intros cloud.
        apply always_ret. cbn [Horizon.clouds Horizon.set_clouds].
        rewrite length_app, Lm. cbn [length]. apply Z.ltb_lt in Cap.
        split; lia.
      - intros o1 [B1 B2]. apply always_ret.
        cbn [Horizon.clouds Horizon.set_clouds].
        pose proof (filter_live_length (Horizon.clouds o1)) as F.
        split; [apply filter_live_all |]. split; lia. }
    specialize (A w). cbv beta in A.
    destruct A as (A1 & A2 & A3). cbn [length].
    split; [intros _; exact A1 |]. split; [exact A2 | exact A3].
Qed.

End CloudFacts.

Lemma updateClouds_cap_and_cleanup_witness :
  Horizon.clouds exampleHorizon = [] /\
  Horizon.updateClouds RunnerStatic.defaultDimensions 16 6 exampleHorizon
    steadyWorld = (exampleHorizon, steadyWorld) /\
  Horizon.clouds twoCloudHorizon <> [] /\
  Forall (fun c => Cloud.remove c = false)
    (Horizon.clouds
       (fst (Horizon.updateClouds RunnerStatic.defaultDimensions 16 6
               twoCloudHorizon steadyWorld))).
Proof.
  assert (Horizon.clouds exampleHorizon = []) as E by reflexivity.
  assert (Horizon.clouds twoCloudHorizon <> []) as N by discriminate.
  split; [exact E |].
  split; [exact (proj1 (updateClouds_cap_and_cleanup
                          RunnerStatic.defaultDimensions 16 6 exampleHorizon
                          steadyWorld) E) |].
  split; [exact N |].
  exact (proj1 (proj2 (updateClouds_cap_and_cleanup
                         RunnerStatic.defaultDimensions 16 6 twoCloudHorizon
                         steadyWorld)) N).
Defined.

(** ** The distance meter, once more *)

Section MeterLife.

Local Open Scope Q_scope.

Lemma truthy_false (a : Q) : JS.truthy a = false <-> a == 0.
Proof.
  unfold JS.truthy. rewrite negb_false_iff. apply Qeq_bool_iff.
Qed.

Lemma round_nonneg (a : Q) : 0 <= a -> (0 <= JS.round a)%Z.
Proof. intros L. apply round_lower. change (num 0) with 0. exact L. Qed.

Lemma round_monotone (a b : Q) : a <= b -> (JS.round a <= JS.round b)%Z.
Proof. intros L. unfold JS.round. apply Qfloor_resp_le. lra. Qed.

(** X14: the conversion from pixels to distance units gives 0 for a
    missing or zero distance and, for a non-negative coefficient, is
    monotone on non-negative distances. *)
Theorem getActualDistance_monotone (o : DistanceMeter.t) (d1 d2 : Q) :
  0 <= DistanceMeter.COEFFICIENT (DistanceMeter.config o) ->
  0 <= d1 -> d1 <= d2 ->
  DistanceMeter.getActualDistance None o = 0%Z /\
  DistanceMeter.getActualDistance (Some 0%Q) o = 0%Z /\
  (0 <= DistanceMeter.getActualDistance (Some d1) o
     <= DistanceMeter.getActualDistance (Some d2) o)%Z.
Proof.
  intros C L0 L. split; [reflexivity |]. split; [reflexivity |].
  unfold DistanceMeter.getActualDistance.
  set (c := DistanceMeter.COEFFICIENT (DistanceMeter.config o)) in *.
  assert (0 <= d1 * c) as P1 by (apply Qmult_le_0_compat; assumption).
  assert (d1 * c <= d2 * c) as P2 by (apply Qmult_le_compat_r; assumption).
  pose proof (round_nonneg (d1 * c) P1) as R1.
  pose proof (round_monotone _ _ P2) as R2.
  destruct (JS.truthy d1) eqn:T1; destruct (JS.truthy d2) eqn:T2; try lia.
  apply truthy_false in T2.
  assert (d1 == 0) as Z1 by lra.
  apply truthy_false in Z1. congruence.
Qed.

Lemma getActualDistance_monotone_witness :
  0 <= DistanceMeter.COEFFICIENT
         (DistanceMeter.config (DistanceMeter.new 600)) /\
  (0 <= DistanceMeter.getActualDistance (Some 3990%Q) (DistanceMeter.new 600)
     <= DistanceMeter.getActualDistance (Some 4000%Q) (DistanceMeter.new 600))%Z.
Proof.
  assert (0 <= DistanceMeter.COEFFICIENT
                 (DistanceMeter.config (DistanceMeter.new 600))) as C
    by (vm_compute; discriminate).
  assert (0 <= 3990) as L0 by (vm_compute; discriminate).
  assert (3990 <= 4000) as L by (vm_compute; discriminate).
  split; [exact C |].
  exact (proj2 (proj2 (getActualDistance_monotone (DistanceMeter.new 600)
                         3990 4000 C L0 L))).
Defined.

(** X15: an update asks for the achievement sound exactly when the meter
    is not flashing and the distance in units is positive and a multiple
    of [ACHIEVEMENT_DISTANCE]; it then sets the flag and restarts the
    flash timer. A flashing meter never asks for the sound. *)
Theorem sound_exactly_at_achievement (deltaTime : Q) (distance : option Q)
    (o : DistanceMeter.t) :
  let units := DistanceMeter.getActualDistance distance o in
  let o' := fst (DistanceMeter.update deltaTime distance o) in
  (snd (DistanceMeter.update deltaTime distance o) = true <->
   DistanceMeter.acheivement o = false /\
   (units > 0)%Z /\
   Z.rem units (DistanceMeter.ACHIEVEMENT_DISTANCE (DistanceMeter.config o))
     = 0%Z) /\
  (snd (DistanceMeter.update deltaTime distance o) = true ->
   DistanceMeter.acheivement o' = true /\ DistanceMeter.flashTimer o' = 0).
Proof.
  cbv zeta. unfold DistanceMeter.update, DistanceMeter.updateCore.
  destruct (DistanceMeter.acheivement o) eqn:F; cbn [negb].
  - destruct (_ <=? _)%Z; cbv zeta;
      [destruct (JS.ltb _ _); [| destruct (JS.gtb _ _)] |]; cbn;
      (split; [split; [discriminate | intros (X & _); discriminate X]
              | discriminate]).
  - cbv zeta.
    destruct (_ >? 0)%Z eqn:P; rewrite Z.gtb_ltb in P.
    + apply Z.ltb_lt in P.
      destruct (Z.rem _ _ =? 0)%Z eqn:R; cbn.
      * apply Z.eqb_eq in R. split; [| intros _; split; reflexivity].
        split; [intros _ | reflexivity]. repeat split; [lia | exact R].
      * apply Z.eqb_neq in R. split; [| discriminate].
        split; [discriminate | intros (_ & _ & X); contradiction].
    + apply Z.ltb_ge in P. cbn. split; [| discriminate].
      split; [discriminate | intros (_ & X & _); lia].
Qed.

Lemma sound_exactly_at_achievement_witness :
  snd (DistanceMeter.update 16 (Some 4000%Q) (DistanceMeter.new 600)) = true /\
  DistanceMeter.acheivement
    (fst (DistanceMeter.update 16 (Some 4000%Q) (DistanceMeter.new 600))) = true /\
  DistanceMeter.flashTimer
    (fst (DistanceMeter.update 16 (Some 4000%Q) (DistanceMeter.new 600))) = 0.
Proof.
  assert (snd (DistanceMeter.update 16 (Some 4000%Q) (DistanceMeter.new 600))
          = true) as S by (vm_compute; reflexivity).
  split; [exact S |].
  exact (proj2 (sound_exactly_at_achievement 16 (Some 4000%Q)
                  (DistanceMeter.new 600)) S).
Defined.

Lemma string_length_app (s1 s2 : string) :
  String.length (s1 ++ s2) = (String.length s1 + String.length s2)%nat.
Proof.
  induction s1 as [| c s1 IH]; [reflexivity |]. cbn. rewrite IH. reflexivity.
Qed.

Lemma substring_length (s : string) (n m : nat) :
  (n + m <= String.length s)%nat ->
  String.length (String.substring n m s) = m.
Proof.
  revert n m. induction s as [| c s IH]; intros n m L.
  - cbn in L. assert (n = 0%nat) by lia. assert (m = 0%nat) by lia.
    subst. reflexivity.
  - destruct n as [| n].
    + destruct m as [| m]; [reflexivity |].
      cbn. rewrite IH; [reflexivity | cbn in L; lia].
    + cbn. apply IH. cbn in L. lia.
Qed.

Lemma split_length (s : string) :
  length (DistanceMeter.split s) = String.length s.
Proof.
  induction s as [| c s IH]; [reflexivity |]. cbn. rewrite IH. reflexivity.
Qed.

Lemma substr_last_length (s : string) (n : Z) :
  (0 < n <= Z.of_nat (String.length s))%Z ->
  String.length (DistanceMeter.substr s (- n)) = Z.to_nat n.
Proof.
  intros L. unfold DistanceMeter.substr. cbv zeta.
  assert ((- n <? 0)%Z = true) as N by (apply Z.ltb_lt; lia).
  rewrite N.
  rewrite Z.max_l by lia.
  rewrite substring_length; lia.
Qed.

(** X16: while the meter is not flashing, an update leaves exactly
    [MAX_DISTANCE_UNITS] digits, however large the distance, provided the
    padding string has that many characters (as after [init]). *)
Theorem digits_have_fixed_width (deltaTime : Q) (distance : option Q)
    (o : DistanceMeter.t) :
  DistanceMeter.acheivement o = false ->
  (0 < DistanceMeter.MAX_DISTANCE_UNITS (DistanceMeter.config o))%Z ->
  String.length (DistanceMeter.defaultString o) =
    Z.to_nat (DistanceMeter.MAX_DISTANCE_UNITS (DistanceMeter.config o)) ->
  length (DistanceMeter.digits
            (fst (DistanceMeter.update deltaTime distance o))) =
    Z.to_nat (DistanceMeter.MAX_DISTANCE_UNITS (DistanceMeter.config o)).
Proof.
  intros F M D. unfold DistanceMeter.update, DistanceMeter.updateCore.
  rewrite F. cbn [negb]. cbv zeta.
  destruct (_ >? 0)%Z.
  - destruct (Z.rem _ _ =? 0)%Z;
      cbn [fst DistanceMeter.digits DistanceMeter.set_digits
           DistanceMeter.defaultString DistanceMeter.config
           DistanceMeter.set_flashTimer DistanceMeter.set_acheivement];
      rewrite split_length, substr_last_length; try reflexivity;
      rewrite string_length_app, D; lia.
  - cbn. rewrite split_length. exact D.
Qed.

Lemma digits_have_fixed_width_witness :
  length (DistanceMeter.digits
            (fst (DistanceMeter.update 16 (Some 123456789%Q)
                    (DistanceMeter.new 600)))) = 5%nat.
Proof.
  apply (digits_have_fixed_width 16 (Some 123456789%Q) (DistanceMeter.new 600)).
  - reflexivity.
  - reflexivity.
  - reflexivity.
Defined.

End MeterLife.

(** ** The t-rex, once more *)

Section TrexLife.

Local Open Scope Q_scope.

Lemma startJump_from_rest (o : Trex.t) (w : World) :
  Trex.jumping o = false ->
  let o' := fst (Trex.startJump o w) in
  Trex.jumping o' = true /\
  Trex.jumpVelocity o' = Trex.INIITAL_JUMP_VELOCITY (Trex.config o) /\
  Trex.speedDrop o' = false /\
  Trex.reachedMinHeight o' = false /\
  Trex.status o' = Trex.JUMPING /\
  Trex.yPos o' = Trex.yPos o /\
  Trex.jumpCount o' = Trex.jumpCount o.
Proof.
  unfold Trex.startJump. intros ->. cbn [negb]. cbv zeta. unfold bind.
  pose proof (update_sameJump 0 (Some Trex.JUMPING) o w) as S.
  pose proof (update_status_set 0 Trex.JUMPING o w) as St.
  destruct (Trex.update 0 (Some Trex.JUMPING) o w) as [o1 w1].
  cbn [fst] in *. unfold ret. cbn.
  destruct S as (S1 & _ & _ & S4 & _ & _ & _ & _ & S9).
  repeat split; congruence.
Qed.

(** X17: [startJump] does nothing while a jump is in progress (neither to
    the t-rex nor to the clock or the random source); from rest it starts
    a jump at the initial velocity, with speed-drop and the minimum-height
    mark cleared, leaving the position where it is. *)
Theorem startJump_only_from_rest (o : Trex.t) (w : World) :
  (Trex.jumping o = true -> Trex.startJump o w = (o, w)) /\
  (Trex.jumping o = false ->
   let o' := fst (Trex.startJump o w) in
   Trex.jumping o' = true /\
   Trex.jumpVelocity o' = Trex.INIITAL_JUMP_VELOCITY (Trex.config o) /\
   Trex.speedDrop o' = false /\
   Trex.reachedMinHeight o' = false /\
   Trex.status o' = Trex.JUMPING /\
   Trex.yPos o' = Trex.yPos o /\
   Trex.jumpCount o' = Trex.jumpCount o).
Proof.
  split.
  - unfold Trex.startJump. intros ->. reflexivity.
  - apply startJump_from_rest.
Qed.

Lemma startJump_only_from_rest_witness :
  Trex.jumping airborneTrex = true /\
  Trex.startJump airborneTrex steadyWorld = (airborneTrex, steadyWorld) /\
  Trex.jumping standingTrex = false /\
  Trex.jumping (fst (Trex.startJump standingTrex steadyWorld)) = true.
Proof.
  assert (Trex.jumping airborneTrex = true) as A by (vm_compute; reflexivity).
  assert (Trex.jumping standingTrex = false) as B by (vm_compute; reflexivity).
  split; [exact A |].
  split; [exact (proj1 (startJump_only_from_rest airborneTrex steadyWorld) A) |].
  split; [exact B |].
  exact (proj1 (proj2 (startJump_only_from_rest standingTrex steadyWorld) B)).
Defined.

(** X18: [endJump] never lowers the velocity, applying it twice is the
    same as applying it once, and once the minimum height has been reached
    the velocity it leaves is at least [DROP_VELOCITY]. *)
Theorem endJump_caps_once (o : Trex.t) :
  Trex.jumpVelocity o <= Trex.jumpVelocity (Trex.endJump o) /\
  Trex.endJump (Trex.endJump o) = Trex.endJump o /\
  (Trex.reachedMinHeight o = true ->
   Trex.DROP_VELOCITY (Trex.config o) <= Trex.jumpVelocity (Trex.endJump o)).
Proof.
  unfold Trex.endJump.
  destruct (Trex.reachedMinHeight o) eqn:R; cbn [andb].
  - destruct (JS.ltb (Trex.jumpVelocity o) (Trex.DROP_VELOCITY (Trex.config o)))
      eqn:L.
    + cbn [Trex.reachedMinHeight Trex.set_jumpVelocity Trex.jumpVelocity
           Trex.config].
      rewrite R. cbn [andb].
      assert (JS.ltb (Trex.DROP_VELOCITY (Trex.config o))
                     (Trex.DROP_VELOCITY (Trex.config o)) = false) as I
        by (apply ltb_false; lra).
      rewrite I. apply ltb_spec in L.
      split; [lra |]. split; [reflexivity | intros _; lra].
    + rewrite R, L. cbn [andb]. apply ltb_false in L.
      split; [lra |]. split; [reflexivity | intros _; exact L].
  - rewrite R. cbn [andb]. split; [lra |]. split; [reflexivity | discriminate].
Qed.

Lemma endJump_caps_once_witness :
  Trex.reachedMinHeight (risen (1000 / 30) slowFrameTrex) = true /\
  Trex.DROP_VELOCITY (Trex.config (risen (1000 / 30) slowFrameTrex))
    <= Trex.jumpVelocity (Trex.endJump (risen (1000 / 30) slowFrameTrex)).
Proof.
  assert (Trex.reachedMinHeight (risen (1000 / 30) slowFrameTrex) = true) as R
    by (vm_compute; reflexivity).
  split; [exact R |].
  exact (proj2 (proj2 (endJump_caps_once (risen (1000 / 30) slowFrameTrex))) R).
Defined.

(** X19: a landing leaves [jumpCount] at 1, whatever the count was before:
    [reset()] zeroes it and [updateJump] then adds one. *)
Theorem landing_sets_jumpCount_to_one (deltaTime : Q) (o : Trex.t)
    (w : World) :
  (Trex.yPos (risen deltaTime o) > Trex.groundYPos o)%Z ->
  Trex.jumpCount (fst (Trex.updateJump deltaTime o w)) = 1%Z.
Proof.
  intros G.
  destruct (updateJump_landing deltaTime o G w) as (_ & _ & _ & _ & _ & C & _).
  exact C.
Qed.

Lemma landing_sets_jumpCount_to_one_witness :
  (Trex.yPos (risen (1000 / 60) secondJumpTrex)
     > Trex.groundYPos secondJumpTrex)%Z /\
  Trex.jumpCount secondJumpTrex = 1%Z /\
  Trex.jumpCount (fst (Trex.updateJump (1000 / 60) secondJumpTrex steadyWorld))
    = 1%Z.
Proof.
  assert (Trex.yPos (risen (1000 / 60) secondJumpTrex)
          > Trex.groundYPos secondJumpTrex)%Z as G
    by (vm_compute; reflexivity).
  split; [exact G |]. split; [vm_compute; reflexivity |].
  exact (landing_sets_jumpCount_to_one (1000 / 60) secondJumpTrex
           steadyWorld G).
Defined.

Lemma setBlinkDelay_frame (o : Trex.t) :
  frameInRange o -> always (Trex.setBlinkDelay o) frameInRange.
Proof.
  intros P. unfold Trex.setBlinkDelay.
  apply always_bind, always_any. intros r. apply always_ret. exact P.
Qed.

Lemma blink_frame (time : Q) (o : Trex.t) :
  frameInRange o -> always (Trex.blink time o) frameInRange.
Proof.
  intros P. unfold Trex.blink. cbv zeta.
  destruct (JS.leb _ _); [| apply always_ret; exact P].
  destruct (Trex.currentFrame o =? 1)%Z; [| apply always_ret; exact P].
  apply always_bind.
  apply (always_mono _ _ _ (setBlinkDelay_frame o P)).
  intros o1 P1. apply always_ret. exact P1.
Qed.

Lemma animFrames_nonempty (s : Trex.Status) :
  (1 <= length (Trex.frames (Trex.animFrames s)))%nat.
Proof. destruct s; cbn; lia. Qed.

(** X20: the animation update keeps the frame index inside the frame
    list: after a change of status the index is valid, and without one a
    valid index stays valid, wrapping to 0 after the last frame. *)
Theorem update_keeps_frame_in_range (deltaTime : Q)
    (opt_status : option Trex.Status) (o : Trex.t) (w : World) :
  (opt_status = None -> frameInRange o) ->
  frameInRange (fst (Trex.update deltaTime opt_status o w)).
Proof.
  intros P0. revert w. change (always (Trex.update deltaTime opt_status o)
                                 frameInRange).
  unfold Trex.update. cbv zeta.
  apply always_bind. apply always_mono with (P := frameInRange).
  - destruct opt_status as [s |].
    + assert (frameInRange
                (Trex.set_currentAnimFrames (Trex.frames (Trex.animFrames s))
                   (Trex.set_msPerFrame (Trex.anim_msPerFrame (Trex.animFrames s))
                      (Trex.set_currentFrame 0
                         (Trex.set_status s
                            (Trex.set_timer (Trex.timer o + deltaTime) o))))))
        as P1.
      { unfold frameInRange. cbn [Trex.currentFrame Trex.currentAnimFrames
          Trex.set_currentAnimFrames Trex.set_msPerFrame Trex.set_currentFrame
          Trex.set_status Trex.set_timer].
        pose proof (animFrames_nonempty s). lia. }
      destruct (Trex.is_waiting s); [| apply always_ret; exact P1].
      apply always_bind, always_any. intros now.
      apply setBlinkDelay_frame. exact P1.
    + apply always_ret. exact (P0 eq_refl).
  - intros o1 P1. apply always_bind. apply always_mono with (P := frameInRange).
    + assert (frameInRange
                (if Trex.playingIntro o1 &&
                    (Trex.xPos o1 <? Trex.START_X_POS (Trex.config o1))%Z
                 then Trex.set_xPos
                        (Trex.xPos o1 +
                         JS.round (num (Trex.START_X_POS (Trex.config o1)) /
                                   Trex.INTRO_DURATION (Trex.config o1) *
                                   deltaTime)) o1
                 else o1)) as P2
        by (destruct (Trex.playingIntro o1 && _); exact P1).
      match goal with
      | |- always (if ?c then _ else _) _ => destruct c
      end.
      * apply always_bind, always_any. intros now.
        apply blink_frame. exact P2.
      * apply always_ret. exact P2.
    + intros o2 P2. apply always_ret.
      destruct (JS.leb _ _); [| exact P2].
      unfold frameInRange in *.
      cbn [Trex.currentFrame Trex.currentAnimFrames Trex.set_timer
           Trex.set_currentFrame].
      destruct (Trex.currentFrame o2 =?
                Z.of_nat (length (Trex.currentAnimFrames o2)) - 1)%Z eqn:E.
      * lia.
      * apply Z.eqb_neq in E. lia.
Qed.

Lemma update_keeps_frame_in_range_witness :
  frameInRange standingTrex /\
  frameInRange (fst (Trex.update 400 None standingTrex steadyWorld)).
Proof.
  assert (frameInRange standingTrex) as P
    by (unfold frameInRange; vm_compute; split; [discriminate | reflexivity]).
  split; [exact P |].
  exact (update_keeps_frame_in_range 400 None standingTrex steadyWorld
           (fun _ => P)).
Defined.

(** X21: after [setJumpVelocity(setting)] a jump from rest starts at
    [-setting], and the drop velocity is [-setting / 2]. *)
Theorem setJumpVelocity_sets_both (setting : Q) (o : Trex.t) (w : World) :
  Trex.jumping o = false ->
  let o1 := Trex.setJumpVelocity setting o in
  Trex.DROP_VELOCITY (Trex.config o1) = - setting / 2 /\
  Trex.jumpVelocity (fst (Trex.startJump o1 w)) = - setting.
Proof.
  intros Jm o1. split; [reflexivity |].
  destruct (startJump_from_rest o1 w Jm) as (_ & V & _).
  exact V.
Qed.

Lemma setJumpVelocity_sets_both_witness :
  Trex.jumping standingTrex = false /\
  Trex.jumpVelocity
    (fst (Trex.startJump (Trex.setJumpVelocity 12 standingTrex) steadyWorld))
    = - (12).
Proof.
  assert (Trex.jumping standingTrex = false) as Jm by (vm_compute; reflexivity).
  split; [exact Jm |].
  exact (proj2 (setJumpVelocity_sets_both 12 standingTrex steadyWorld Jm)).
Defined.

End TrexLife.

(** ** The frame of the running game *)

Section FrameFacts.

Context {HL : Type} `{HorizonLineOps HL}.

Local Open Scope Q_scope.

Lemma set_tRex_same (r : Runner.t HL) : Runner.set_tRex (Runner.tRex r) r = r.
Proof. destruct r. reflexivity. Qed.

(** [gameOver()] in one piece. *)
Lemma gameOver_shape (r : Runner.t HL) (w : World) :
  exists tRex now,
    fst (Runner.gameOver r w) = crashedRunner tRex now r /\
    Trex.status tRex = Trex.CRASHED /\
    sameJump (Runner.tRex r) tRex.
Proof.
  unfold Runner.gameOver. unfold bind at 1. unfold playSound at 1.
  cbv zeta. unfold bind at 1.
  match goal with
  | |- context [Trex.update 100 (Some Trex.CRASHED) ?t ?w1] =>
      pose proof (update_status_set 100 Trex.CRASHED t w1) as St;
      pose proof (update_sameJump 100 (Some Trex.CRASHED) t w1) as Sj;
      destruct (Trex.update 100 (Some Trex.CRASHED) t w1) as [tRex w2]
  end.
  cbn [fst] in St, Sj. unfold bind at 1. unfold getTimeStamp at 1.
  exists tRex. eexists. split; [| split; [exact St | exact Sj]].
  unfold ret. cbn [fst]. unfold crashedRunner. reflexivity.
Qed.

(** A frame of the running game, in one piece, when the game had not
    crashed before. *)
Lemma activeFrame_shape (restart : Runner.t HL -> M (Runner.t HL))
    (deltaTime : Q) (r : Runner.t HL) (w : World) :
  Runner.crashed r = false ->
  exists (tRex : Trex.t) (hz : Horizon.t HL) (r5 : Runner.t HL),
    let r2 := Runner.set_runningTime (Runner.runningTime r + deltaTime)
                (Runner.set_tRex tRex r) in
    let r3 := if (Trex.jumpCount tRex =? 1)%Z && negb (Runner.playingIntro r)
              then introPure r2 else r2 in
    let r4 := Runner.set_horizon hz r3 in
    let hasObstacles :=
      JS.gtb (Runner.runningTime r + deltaTime)
             (RunnerStatic.CLEAR_TIME (Runner.config r)) in
    fst (Runner.activeFrame restart deltaTime r w) =
      (showDistance (frameDelta deltaTime r3) (wrapDistance r5),
       frameDelta deltaTime r3) /\
    ((Runner.collides hasObstacles r4 = false /\
      r5 = advance (frameDelta deltaTime r3) r4) \/
     (Runner.collides hasObstacles r4 = true /\
      exists tRex' now,
        Trex.status tRex' = Trex.CRASHED /\
        r5 = crashedRunner tRex' now r4)).
Proof.
  intros C. unfold Runner.activeFrame. unfold bind at 1.
  assert (exists tRex w1,
            (if Trex.jumping (Runner.tRex r)
             then bind (Trex.updateJump deltaTime (Runner.tRex r))
                    (fun tRex => ret (Runner.set_tRex tRex r))
             else ret r) w = (Runner.set_tRex tRex r, w1)) as (tRex & w1 & E1).
  { destruct (Trex.jumping (Runner.tRex r)).
    - unfold bind, ret.
      destruct (Trex.updateJump deltaTime (Runner.tRex r) w) as [t w1].
      exists t, w1. reflexivity.
    - exists (Runner.tRex r), w. unfold ret. rewrite set_tRex_same.
      reflexivity. }
  rewrite E1. clear E1. cbv beta iota zeta.
  exists tRex. simpl.
  set (r2 := Runner.set_runningTime (Runner.runningTime r + deltaTime)
               (Runner.set_tRex tRex r)).
  set (c := (Trex.jumpCount tRex =? 1)%Z && negb (Runner.playingIntro r)).
  assert ((if c then Runner.playIntroWith restart r2 else ret r2)
          = ret (if c then introPure r2 else r2)) as E2.
  { destruct c; [| reflexivity].
    unfold Runner.playIntroWith, introPure.
    change (Runner.crashed r2) with (Runner.crashed r). rewrite C.
    destruct (negb (Runner.started r2)); reflexivity. }
  rewrite E2. clear E2.
  set (r3 := if c then introPure r2 else r2).
  unfold bind at 1. unfold ret at 1. cbv beta iota zeta.
  unfold bind at 1.
  match goal with
  | |- context [Horizon.update ?a ?b ?c ?d ?e w1] =>
      destruct (Horizon.update a b c d e w1) as [hz w2]
  end.
  exists hz.
  set (r4 := Runner.set_horizon hz r3).
  set (hasObstacles :=
         JS.gtb (Runner.runningTime r + deltaTime)
                (RunnerStatic.CLEAR_TIME (Runner.config r))).
  unfold bind at 1.
  destruct (Runner.collides hasObstacles r4) eqn:K; cbn [negb].
  - destruct (gameOver_shape r4 w2) as (tRex' & now & G & St & _).
    destruct (Runner.gameOver r4 w2) as [r5 w3]. cbn [fst] in G.
    exists r5. split.
    + unfold showDistance, wrapDistance, frameDelta.
      destruct (DistanceMeter.update _ _ _) as [meter sound]. cbn [fst].
      unfold bind. destruct sound; reflexivity.
    + right. split; [reflexivity |]. exists tRex', now. split; assumption.
  - exists (advance (frameDelta deltaTime r3) r4). split.
    + unfold ret at 1.
      unfold showDistance, wrapDistance, advance, frameDelta.
      destruct (DistanceMeter.update _ _ _) as [meter sound]. cbn [fst].
      unfold bind. destruct sound; reflexivity.
    + left. split; reflexivity.
Qed.

Lemma meter_update_shape (deltaTime : Q) (distance : option Q)
    (m : DistanceMeter.t) :
  DistanceMeter.config (fst (DistanceMeter.update deltaTime distance m))
    = DistanceMeter.config m /\
  DistanceMeter.maxScore (fst (DistanceMeter.update deltaTime distance m))
    = DistanceMeter.maxScore m.
Proof.
  unfold DistanceMeter.update, DistanceMeter.updateCore. cbv zeta.
  repeat match goal with
         | |- context [if ?c then _ else _] => destruct c
         end; split; reflexivity.
Qed.

Lemma ceil_above (a : Q) : a <= num (JS.ceil a).
Proof. unfold JS.ceil. apply Qle_ceiling. Qed.

(** The distance after the wrap fits the meter. *)
Lemma wrapDistance_bound (r : Runner.t HL) :
  (DistanceMeter.getActualDistance
     (Some (Runner.distanceRan (wrapDistance r)))
     (Runner.distanceMeter (wrapDistance r))
   <= Z.max 0 (DistanceMeter.maxScore (Runner.distanceMeter (wrapDistance r))))%Z.
Proof.
  unfold wrapDistance.
  destruct (_ >? _)%Z eqn:G.
  - unfold DistanceMeter.getActualDistance.
    cbn [Runner.distanceRan Runner.set_distanceRan].
    replace (JS.truthy 0) with false by reflexivity. lia.
  - rewrite Z.gtb_ltb in G. rewrite Z.ltb_ge in G. lia.
Qed.

Ltac split_ifs :=
  repeat match goal with
         | |- context [if ?c then _ else _] =>
             lazymatch c with
             | context [if _ then _ else _] => fail
             | _ => destruct c eqn:?
             end
         end.

(** What a frame of the running game does to the fields of the runner,
    when the game had not crashed before. *)
Lemma activeFrame_summary (restart : Runner.t HL -> M (Runner.t HL))
    (deltaTime : Q) (r : Runner.t HL) (w : World) :
  Runner.crashed r = false ->
  forall rA dt', fst (Runner.activeFrame restart deltaTime r w) = (rA, dt') ->
  frameEffect r deltaTime rA dt'.
Proof.
  intros C rA dt' E.
  destruct (activeFrame_shape restart deltaTime r w C)
    as (tRex & hz & r5 & E' & D).
  cbv zeta in E', D. rewrite E in E'. clear E.
  injection E' as -> ->.
  set (r2 := Runner.set_runningTime (Runner.runningTime r + deltaTime)
               (Runner.set_tRex tRex r)) in *.
  set (c := (Trex.jumpCount tRex =? 1)%Z && negb (Runner.playingIntro r)) in *.
  set (r3 := if c then introPure r2 else r2) in *.
  assert (Runner.crashed r3 = false) as C3.
  { subst r3. unfold introPure. split_ifs; exact C. }
  assert (Runner.started r = true -> frameDelta deltaTime r3 = deltaTime) as F.
  { intros S. subst r3. unfold frameDelta, introPure.
    change (Runner.started r2) with (Runner.started r). rewrite S.
    cbn [negb andb]. split_ifs; try reflexivity.
    all: change (Runner.started r2) with (Runner.started r) in *;
      rewrite S in *; discriminate. }
  unfold frameEffect.
  split; [| split; [| split; [| split; [| split; [exact F | split]]]]].
  - destruct D as [[_ ->] | (_ & t' & now & _ & ->)];
      subst r3; unfold showDistance, wrapDistance, advance, crashedRunner,
        introPure, Runner.stop; cbv zeta; split_ifs; reflexivity.
  - destruct D as [[_ ->] | (_ & t' & now & _ & ->)];
      subst r3; unfold showDistance, wrapDistance, advance, crashedRunner,
        introPure, Runner.stop; cbv zeta; split_ifs; reflexivity.
  - destruct D as [[_ ->] | (_ & t' & now & _ & ->)];
      subst r3; unfold showDistance, wrapDistance, advance, crashedRunner,
        introPure, Runner.stop; cbv zeta; split_ifs; reflexivity.
  - destruct D as [[_ ->] | (_ & t' & now & _ & ->)];
      subst r3; unfold showDistance, wrapDistance, advance, crashedRunner,
        introPure, Runner.stop; cbv zeta; split_ifs; reflexivity.
  - pose proof (wrapDistance_bound r5) as B.
    unfold showDistance.
    destruct (meter_update_shape (frameDelta deltaTime r3)
                (Some (num (JS.ceil (Runner.distanceRan (wrapDistance r5)))))
                (Runner.distanceMeter (wrapDistance r5))) as [Ec Em].
    cbn [Runner.distanceRan Runner.distanceMeter Runner.set_distanceMeter].
    rewrite Em. unfold DistanceMeter.getActualDistance in *. rewrite Ec.
    exact B.
  - subst r3. unfold introPure in *.
    destruct D as [[K ->] | (K & t' & now & St & ->)].
    + split.
      * intros _.
        unfold showDistance, wrapDistance, advance; cbv zeta.
        destruct c; [destruct (negb (Runner.started r2) && _) |];
          split_ifs; cbn;
          (split; [reflexivity |]); (split; [reflexivity |]);
          (split; [intros A; first [reflexivity | exact A] |]);
          (split;
           [first [left; split; [assumption | reflexivity]
                  | right; split; [assumption | reflexivity]]
           | first [left; reflexivity | right; reflexivity]]).
      * intros X. exfalso. revert X.
        unfold showDistance, wrapDistance, advance; cbv zeta.
        destruct c; [destruct (negb (Runner.started r2) && _) |];
          split_ifs; cbn; rewrite C; discriminate.
    + split.
      * intros X. exfalso. revert X.
        unfold showDistance, wrapDistance, crashedRunner, Runner.stop;
          cbv zeta.
        destruct c; [destruct (negb (Runner.started r2) && _) |];
          split_ifs; cbn; discriminate.
      * intros _.
        split.
        { unfold Runner.collides in K. apply andb_prop in K.
          destruct K as [K _]. exact K. }
        unfold showDistance, wrapDistance, crashedRunner, Runner.stop;
          cbv zeta.
        destruct c; [destruct (negb (Runner.started r2) && _) |];
          split_ifs; cbn;
          (split; [reflexivity |]); (split; [reflexivity |]);
          (split; [reflexivity |]); (split; [exact St |]);
          (split; [reflexivity |]).
        all: match goal with
             | G : JS.gtb ?d (num ?h) = true |- _ =>
                 unfold JS.gtb in G; apply ltb_spec in G;
                 cbn in G; pose proof (ceil_above d) as Cl; cbn in Cl
             | G : JS.gtb ?d (num ?h) = false |- _ =>
                 unfold JS.gtb in G; apply ltb_false in G; cbn in G
             end.
        all: split;
          [try lia;
           match goal with
           | |- (?a <= ?b)%Z => rewrite Zle_Qle; lra
           end
          | split; [first [assumption | lra]
                   | first [left; reflexivity | right; reflexivity]]].
Qed.


Lemma update_eq (r : Runner.t HL) (w : World) :
  Runner.update r w =
  (let* '(r0, deltaTime) :=
     (if Runner.activated r
      then Runner.activeFrame Runner.restart (frameTime r w) (frameStart r w)
      else ret (frameStart r w, frameTime r w)) in
   if negb (Runner.crashed r0) then
     let* tRex := Trex.update deltaTime None (Runner.tRex r0) in
     Runner.raq (Runner.set_tRex tRex r0)
   else ret r0) (snd (getTimeStamp w)).
Proof. reflexivity. Qed.

(** A frame in two parts: the work of the running game, then the
    animation of the t-rex and the request of the next frame unless the
    game has crashed. *)
Lemma update_summary (r : Runner.t HL) (w : World) :
  Runner.crashed r = false ->
  exists rA dt',
    (if Runner.activated r
     then exists w1,
         fst (Runner.activeFrame Runner.restart (frameTime r w)
                (frameStart r w) w1) = (rA, dt')
     else rA = frameStart r w) /\
    (Runner.crashed rA = true -> fst (Runner.update r w) = rA) /\
    (Runner.crashed rA = false -> Runner.drawPending rA = false ->
     exists tRex id,
       (0 < id)%Z /\
       fst (Runner.update r w) =
         Runner.set_raqId id
           (Runner.set_drawPending true (Runner.set_tRex tRex rA))).
Proof.
  intros C. rewrite update_eq.
  set (w0 := snd (getTimeStamp w)).
  assert (forall (rA : Runner.t HL) dt' w1,
            Runner.crashed rA = false -> Runner.drawPending rA = false ->
            exists tRex id,
              (0 < id)%Z /\
              fst ((let* tRex := Trex.update dt' None (Runner.tRex rA) in
                    Runner.raq (Runner.set_tRex tRex rA)) w1) =
                Runner.set_raqId id
                  (Runner.set_drawPending true (Runner.set_tRex tRex rA)))
    as Tail.
  { intros rA dt' w1 Cr Dp. unfold bind at 1.
    destruct (Trex.update dt' None (Runner.tRex rA) w1) as [t w2].
    exists t. unfold Runner.raq.
    change (Runner.drawPending (Runner.set_tRex t rA))
      with (Runner.drawPending rA).
    rewrite Dp. cbn [negb]. cbv zeta.
    unfold bind, requestAnimationFrame, ret. cbn [fst].
    eexists. split; [| reflexivity]. lia. }
  match goal with
  | |- context [bind _ ?k w0] => set (tail := k)
  end.
  unfold bind.
  destruct (Runner.activated r).
  - destruct (Runner.activeFrame Runner.restart (frameTime r w)
                (frameStart r w) w0) as [[rA dt'] w1] eqn:E.
    subst tail. cbv beta iota. exists rA, dt'.
    split; [exists w0; rewrite E; reflexivity |].
    split.
    + intros Cr. rewrite Cr. reflexivity.
    + intros Cr Dp.
      destruct (Tail _ dt' w1 Cr Dp) as (t & id & Hid & Et).
      exists t, id. split; [exact Hid |]. rewrite Cr. exact Et.
  - unfold ret. subst tail. cbv beta iota.
    exists (frameStart r w), (frameTime r w). split; [reflexivity |].
    split.
    + intros Cr. rewrite Cr. reflexivity.
    + intros Cr Dp.
      destruct (Tail _ (frameTime r w) w0 Cr Dp) as (t & id & Hid & Et).
      exists t, id. split; [exact Hid |]. rewrite Cr. exact Et.
Qed.

(** The two parts of a frame together. *)
Lemma update_cases (r : Runner.t HL) (w : World) :
  Runner.crashed r = false ->
  exists rA dt',
    (Runner.activated r = false -> rA = frameStart r w) /\
    (Runner.activated r = true ->
     frameEffect (frameStart r w) (frameTime r w) rA dt') /\
    (Runner.crashed rA = true -> fst (Runner.update r w) = rA) /\
    (Runner.crashed rA = false ->
     exists tRex id,
       (0 < id)%Z /\
       fst (Runner.update r w) =
         Runner.set_raqId id
           (Runner.set_drawPending true (Runner.set_tRex tRex rA))).
Proof.
  intros C.
  destruct (update_summary r w C) as (rA & dt' & B & Cr & Nc).
  exists rA, dt'.
  destruct (Runner.activated r).
  - destruct B as [w1 B].
    pose proof (activeFrame_summary Runner.restart (frameTime r w)
                  (frameStart r w) w1 C rA dt' B) as S.
    split; [discriminate |]. split; [intros _; exact S |].
    split; [exact Cr |].
    intros X. apply Nc; [exact X |]. destruct S as [S _]. exact S.
  - split; [intros _; exact B |]. split; [discriminate |].
    split; [exact Cr |].
    intros X. apply Nc; [exact X |]. subst rA. reflexivity.
Qed.

End FrameFacts.

(** ** Frames of the game *)

Section FrameTheorems.

Context {HL : Type} `{HorizonLineOps HL}.

Local Open Scope Q_scope.

Ltac frame_fields :=
  cbn [Runner.drawPending Runner.runningTime Runner.config Runner.msPerFrame
       Runner.started Runner.distanceRan Runner.distanceMeter Runner.crashed
       Runner.raqId Runner.highestScore Runner.activated Runner.currentSpeed
       Runner.paused Runner.tRex Runner.horizon Runner.playCount
       Runner.set_time Runner.set_drawPending Runner.set_raqId
       Runner.set_tRex] in *.

Ltac frame_cases r w C :=
  let rA := fresh "rA" in
  let dt' := fresh "dt'" in
  let Idle := fresh "Idle" in
  let Act := fresh "Act" in
  let Cr := fresh "Cr" in
  let Nc := fresh "Nc" in
  let A := fresh "A" in
  let X := fresh "X" in
  let t := fresh "t" in
  let id := fresh "id" in
  let Hid := fresh "Hid" in
  let E := fresh "E" in
  destruct (update_cases r w C) as (rA & dt' & Idle & Act & Cr & Nc);
  destruct (Runner.activated r) eqn:A;
  [ specialize (Act eq_refl); clear Idle;
    unfold frameEffect, frameStart in Act; frame_fields;
    destruct Act as (_ & Rt & Cf & Ms & Dt & Wr & NoCrash & Crash);
    destruct (Runner.crashed rA) eqn:X;
    [ rewrite (Cr eq_refl); clear Cr Nc NoCrash; specialize (Crash eq_refl)
    | destruct (Nc eq_refl) as (t & id & Hid & E); rewrite E;
      clear Cr Nc Crash E; specialize (NoCrash eq_refl); frame_fields ]
  | specialize (Idle eq_refl); clear Act; subst rA; unfold frameStart in *;
    frame_fields;
    destruct (Nc C) as (t & id & Hid & E); rewrite E; clear Cr Nc E;
    frame_fields ].

(** X22: During the clear time at the start of a game no frame ends the
    game: if the game has not crashed and the running time with the time
    of the frame does not exceed [CLEAR_TIME], the game has not crashed
    after the frame. *)
Theorem no_game_over_during_clear_time (r : Runner.t HL) (w : World) :
  Runner.crashed r = false ->
  Runner.runningTime r + frameTime r w
    <= RunnerStatic.CLEAR_TIME (Runner.config r) ->
  Runner.crashed (fst (Runner.update r w)) = false.
Proof.
  intros C L. frame_cases r w C.
  - exfalso. destruct Crash as (G & _).
    unfold JS.gtb in G. apply ltb_spec in G. lra.
  - exact X.
  - exact C.
Qed.

(** X23: The speed ramp: a frame raises the speed by [ACCELERATION]
    when the game is activated, the frame ends without a crash and the
    speed is below [MAX_SPEED]; otherwise the frame leaves the speed as it
    is. *)
Theorem speed_rises_by_acceleration_below_max (r : Runner.t HL) (w : World) :
  Runner.crashed r = false ->
  let r' := fst (Runner.update r w) in
  Runner.currentSpeed r' =
    if Runner.activated r && negb (Runner.crashed r') &&
       JS.ltb (Runner.currentSpeed r) (RunnerStatic.MAX_SPEED (Runner.config r))
    then Runner.currentSpeed r + RunnerStatic.ACCELERATION (Runner.config r)
    else Runner.currentSpeed r.
Proof.
  intros C. cbv zeta. frame_cases r w C.
  - rewrite X. cbn [negb andb]. destruct Crash as (_ & _ & _ & _ & _ & S & _).
    exact S.
  - rewrite X. cbn [negb andb].
    destruct NoCrash as (_ & _ & _ & [[L S] | [L S]] & _);
      rewrite L, S; reflexivity.
  - reflexivity.
Qed.

(** X24: After a frame of the activated game the distance ran, in the
    units of the meter, does not exceed the largest score the meter can
    show: beyond it the distance starts again from zero. *)
Theorem distance_wraps_at_meter_capacity (r : Runner.t HL) (w : World) :
  Runner.crashed r = false ->
  Runner.activated r = true ->
  let r' := fst (Runner.update r w) in
  (DistanceMeter.getActualDistance (Some (Runner.distanceRan r'))
     (Runner.distanceMeter r')
   <= Z.max 0 (DistanceMeter.maxScore (Runner.distanceMeter r')))%Z.
Proof.
  intros C A. cbv zeta. frame_cases r w C.
  - exact Wr.
  - exact Wr.
  - discriminate.
Qed.

(** X25: The frame loop runs until the crash: a frame that ends without a
    crash has requested the next frame, and a frame that ends in a crash
    has stopped the game (no frame requested, not activated, paused) and
    shows the crashed t-rex. *)
Theorem frame_loop_runs_until_crash (r : Runner.t HL) (w : World) :
  Runner.crashed r = false ->
  let r' := fst (Runner.update r w) in
  if Runner.crashed r' then
    Runner.isRunning r' = false /\ Runner.activated r' = false /\
    Runner.paused r' = true /\
    Trex.status (Runner.tRex r') = Trex.CRASHED
  else
    Runner.isRunning r' = true /\ Runner.drawPending r' = true /\
    Runner.activated r' = Runner.activated r.
Proof.
  intros C. cbv zeta. frame_cases r w C.
  - rewrite X. destruct Crash as (_ & Rq & Ac & Pa & St & _).
    unfold Runner.isRunning. rewrite Rq. repeat split; assumption.
  - rewrite X. destruct NoCrash as (_ & _ & Ac & _).
    unfold Runner.isRunning. frame_fields.
    split; [| split; [reflexivity | apply Ac; exact A]].
    apply negb_true_iff. apply Z.eqb_neq. lia.
  - rewrite C. unfold Runner.isRunning. frame_fields.
    split; [| split; [reflexivity | exact A]].
    apply negb_true_iff. apply Z.eqb_neq. lia.
Qed.


(** X27: A frame never lowers the highest score, and after a frame that
    ends in a crash the highest score is at least the distance ran. *)
Theorem highest_score_never_decreases (r : Runner.t HL) (w : World) :
  Runner.crashed r = false ->
  let r' := fst (Runner.update r w) in
  (Runner.highestScore r <= Runner.highestScore r')%Z /\
  (Runner.crashed r' = true ->
   Runner.distanceRan r <= num (Runner.highestScore r')).
Proof.
  intros C. cbv zeta. frame_cases r w C.
  - destruct Crash as (_ & _ & _ & _ & _ & _ & Hs & Ds & _).
    split; [exact Hs | intros _; exact Ds].
  - destruct NoCrash as (_ & Hs & _). rewrite Hs.
    split; [lia | rewrite X; discriminate].
  - split; [lia | rewrite C; discriminate].
Qed.

(** X28: A frame of a game that is not activated changes nothing of the
    game: distance, running time, speed, horizon and distance meter stay
    as they are, and the next frame is requested. *)
Theorem idle_frame_keeps_the_game (r : Runner.t HL) (w : World) :
  Runner.crashed r = false ->
  Runner.activated r = false ->
  let r' := fst (Runner.update r w) in
  Runner.distanceRan r' = Runner.distanceRan r /\
  Runner.runningTime r' = Runner.runningTime r /\
  Runner.currentSpeed r' = Runner.currentSpeed r /\
  Runner.horizon r' = Runner.horizon r /\
  Runner.distanceMeter r' = Runner.distanceMeter r /\
  Runner.crashed r' = false /\
  Runner.activated r' = false /\
  Runner.isRunning r' = true.
Proof.
  intros C A. cbv zeta. frame_cases r w C; try discriminate.
  repeat (split; [first [reflexivity | assumption] |]).
  unfold Runner.isRunning. frame_fields.
  apply negb_true_iff. apply Z.eqb_neq. lia.
Qed.

(** *** Key presses *)








Lemma atRest_invariant : jumpInvariant atRest.
Proof.
  split; [split; intros o v S; exact S |].
  split; [intros o s S; exact S |].
  split; [intros o b S; exact S |].
  split.
  - intros deltaTime o S Jm. unfold atRest in S. congruence.
  - intros o w. destruct (reset_spec o w) as (_ & _ & _ & _ & Rj & _).
    exact Rj.
Qed.

(** X29: While the game is crashed and the t-rex is not in a jump, a
    key-down, touch-start or mouse-down event does one thing at most: a
    touch-start on the container (not on the details button) restarts the
    game; every other event leaves the runner and the world as they are. *)
Theorem key_down_while_crashed_only_restarts (e : Runner.Event)
    (r : Runner.t HL) (w : World) :
  Runner.crashed r = true ->
  Trex.jumping (Runner.tRex r) = false ->
  Runner.onKeyDown e r w =
    if negb (Runner.Element_eqb (Runner.target e) Runner.DetailsButton) &&
       Runner.EventType_eqb (Runner.type e) Runner.TOUCHSTART &&
       Runner.Element_eqb (Runner.currentTarget e) Runner.ContainerEl
    then Runner.restart r w else (r, w).
Proof.
  intros C Jm. unfold Runner.onKeyDown.
  destruct (Runner.Element_eqb (Runner.target e) Runner.DetailsButton);
    cbn [negb andb].
  - unfold bind, ret. rewrite Jm, andb_false_r. reflexivity.
  - rewrite C. cbn [negb andb]. unfold bind at 2. unfold ret at 1.
    unfold bind. rewrite C. cbn [andb].
    destruct (Runner.EventType_eqb (Runner.type e) Runner.TOUCHSTART &&
              Runner.Element_eqb (Runner.currentTarget e) Runner.ContainerEl).
    + pose proof (restart_keeps atRest atRest_invariant r Jm w) as S.
      destruct (Runner.restart r w) as [r1 w1]. cbn [fst] in S.
      unfold atRest in S. rewrite S, andb_false_r. reflexivity.
    + unfold ret. rewrite Jm, andb_false_r. reflexivity.
Qed.


End FrameTheorems.

Lemma no_game_over_during_clear_time_witness :
  Runner.crashed startedRunner = false /\
  (Runner.runningTime startedRunner + frameTime startedRunner (snd freshGame)
   <= RunnerStatic.CLEAR_TIME (Runner.config startedRunner))%Q /\
  Runner.crashed
    (fst (Runner.update (H := flatLine) startedRunner (snd freshGame))) = false.
Proof.
  assert (Runner.crashed startedRunner = false) as A
    by (vm_compute; reflexivity).
  assert (Runner.runningTime startedRunner
          + frameTime startedRunner (snd freshGame)
          <= RunnerStatic.CLEAR_TIME (Runner.config startedRunner))%Q as B
    by (vm_compute; discriminate).
  split; [exact A |]. split; [exact B |].
  exact (no_game_over_during_clear_time (H := flatLine) startedRunner
           (snd freshGame) A B).
Defined.

Lemma speed_rises_by_acceleration_below_max_witness :
  Runner.crashed startedRunner = false /\
  (let r' := fst (Runner.update (H := flatLine) startedRunner (snd freshGame)) in
   Runner.currentSpeed r' =
     if Runner.activated startedRunner && negb (Runner.crashed r') &&
        JS.ltb (Runner.currentSpeed startedRunner)
          (RunnerStatic.MAX_SPEED (Runner.config startedRunner))
     then (Runner.currentSpeed startedRunner +
           RunnerStatic.ACCELERATION (Runner.config startedRunner))%Q
     else Runner.currentSpeed startedRunner).
Proof.
  assert (Runner.crashed startedRunner = false) as A
    by (vm_compute; reflexivity).
  split; [exact A |].
  exact (speed_rises_by_acceleration_below_max (H := flatLine) startedRunner
           (snd freshGame) A).
Defined.

Lemma distance_wraps_at_meter_capacity_witness :
  Runner.crashed startedRunner = false /\
  Runner.activated startedRunner = true /\
  (let r' := fst (Runner.update (H := flatLine) startedRunner (snd freshGame)) in
   DistanceMeter.getActualDistance (Some (Runner.distanceRan r'))
     (Runner.distanceMeter r')
   <= Z.max 0 (DistanceMeter.maxScore (Runner.distanceMeter r'))).
Proof.
  assert (Runner.crashed startedRunner = false) as A
    by (vm_compute; reflexivity).
  assert (Runner.activated startedRunner = true) as B
    by (vm_compute; reflexivity).
  split; [exact A |]. split; [exact B |].
  exact (distance_wraps_at_meter_capacity (H := flatLine) startedRunner
           (snd freshGame) A B).
Defined.

Lemma frame_loop_runs_until_crash_witness :
  Runner.crashed crashingRunner = false /\
  (let r' := fst (Runner.update (H := flatLine) crashingRunner
                    (snd freshGame)) in
   if Runner.crashed r' then
     Runner.isRunning r' = false /\ Runner.activated r' = false /\
     Runner.paused r' = true /\
     Trex.status (Runner.tRex r') = Trex.CRASHED
   else
     Runner.isRunning r' = true /\ Runner.drawPending r' = true /\
     Runner.activated r' = Runner.activated crashingRunner).
Proof.
  assert (Runner.crashed crashingRunner = false) as A
    by (vm_compute; reflexivity).
  split; [exact A |].
  exact (frame_loop_runs_until_crash (H := flatLine) crashingRunner
           (snd freshGame) A).
Defined.


Lemma highest_score_never_decreases_witness :
  Runner.crashed crashingRunner = false /\
  (let r' := fst (Runner.update (H := flatLine) crashingRunner
                    (snd freshGame)) in
   Runner.highestScore crashingRunner <= Runner.highestScore r' /\
   (Runner.crashed r' = true ->
    (Runner.distanceRan crashingRunner <= num (Runner.highestScore r'))%Q)).
Proof.
  assert (Runner.crashed crashingRunner = false) as A
    by (vm_compute; reflexivity).
  split; [exact A |].
  exact (highest_score_never_decreases (H := flatLine) crashingRunner
           (snd freshGame) A).
Defined.

Lemma idle_frame_keeps_the_game_witness :
  Runner.crashed freshRunner = false /\
  Runner.activated freshRunner = false /\
  (let r' := fst (Runner.update (H := flatLine) freshRunner (snd freshGame)) in
   Runner.distanceRan r' = Runner.distanceRan freshRunner /\
   Runner.runningTime r' = Runner.runningTime freshRunner /\
   Runner.currentSpeed r' = Runner.currentSpeed freshRunner /\
   Runner.horizon r' = Runner.horizon freshRunner /\
   Runner.distanceMeter r' = Runner.distanceMeter freshRunner /\
   Runner.crashed r' = false /\
   Runner.activated r' = false /\
   Runner.isRunning r' = true).
Proof.
  assert (Runner.crashed freshRunner = false) as A
    by (vm_compute; reflexivity).
  assert (Runner.activated freshRunner = false) as B
    by (vm_compute; reflexivity).
  split; [exact A |]. split; [exact B |].
  exact (idle_frame_keeps_the_game (H := flatLine) freshRunner
           (snd freshGame) A B).
Defined.

Lemma key_down_while_crashed_only_restarts_witness :
  Runner.crashed (fst crashedGame) = true /\
  Trex.jumping (Runner.tRex (fst crashedGame)) = false /\
  Runner.onKeyDown (H := flatLine) touchStart (fst crashedGame) (snd crashedGame)
    = if negb (Runner.Element_eqb (Runner.target touchStart)
                 Runner.DetailsButton) &&
         Runner.EventType_eqb (Runner.type touchStart) Runner.TOUCHSTART &&
         Runner.Element_eqb (Runner.currentTarget touchStart)
           Runner.ContainerEl
      then Runner.restart (H := flatLine) (fst crashedGame) (snd crashedGame)
      else (fst crashedGame, snd crashedGame).
Proof.
  assert (Runner.crashed (fst crashedGame) = true) as A
    by (vm_compute; reflexivity).
  assert (Trex.jumping (Runner.tRex (fst crashedGame)) = false) as B
    by (vm_compute; reflexivity).
  split; [exact A |]. split; [exact B |].
  exact (key_down_while_crashed_only_restarts (H := flatLine) touchStart
           (fst crashedGame) (snd crashedGame) A B).
Defined.

